(** * testsuite/single_node_performance.py: the calibration-driven
      performance-regression gate.

    The script is a straight-line Python program: it reads its configuration
    from the environment, parses the embedded calibration table, runs the
    benchmark binary once per selected test, extracts the metrics from the
    text the binary prints, and classifies the measured throughput against
    thresholds derived from the calibration table.

    The embedding follows the script top to bottom.

    - Python [float] is an abstract type [F] with the operations the script
      uses, collected in the class [PyFloat]. Every definition and most
      theorems are generic in it, so they hold for IEEE binary64 as for any
      other reading of the operations. The order invariant of the thresholds
      is a statement about numbers and is proved on the real-number instance.
    - Python exceptions and [exit] are the constructors of [PyError]; a
      fallible computation returns a [result].
    - External processes are an oracle [World]: the result of the n-th
      launched command. The commands launched so far are part of the state.
    - The messages appended to [errors] and [warnings] are f-strings; they
      are kept as records ([Notice]) holding the interpolated values.
    - What the script prints (the tables, the JSON line of a test, the
      lists of warnings and errors) is not part of the state.
      [print_table] is embedded on its own, as the function from the
      results to the headers and rows it hands to [tabulate]. *)

From Stdlib Require Import ZArith String Ascii List Reals Lra Lia.
From stdpp Require Import base option list gmap strings pretty.

Local Open Scope string_scope.
Local Open Scope list_scope.
Local Open Scope Z_scope.

(** ** Python exceptions *)

Module Py.

Inductive PyError : Type :=
| AssertionError
| IndexError
| ValueError
| ZeroDivisionError
| OverflowError           (* int() of an infinity; of a NaN it is ValueError *)
| Exception_              (* raise Exception(...) *)
| CmdExecutionError (return_code : Z)
| SystemExit (code : Z).  (* exit(code) *)

Inductive result (A : Type) : Type :=
| Ok (a : A)
| Raise (e : PyError).
Arguments Ok {A} a.
Arguments Raise {A} e.

Definition bind {A B} (r : result A) (k : A -> result B) : result B :=
  match r with
  | Ok a => k a
  | Raise e => Raise e
  end.

Definition of_option {A} (e : PyError) (o : option A) : result A :=
  match o with
  | Some a => Ok a
  | None => Raise e
  end.

(** [assert cond] *)
Definition assert_ (cond : bool) : result unit :=
  if cond then Ok tt else Raise AssertionError.

End Py.
Export Py.

#[global] Instance result_ret : MRet result := @Ok.
#[global] Instance result_bind : MBind result := fun A B k r => Py.bind r k.

(** ** Python strings

    [str] is modelled by [string] (8-bit characters): the benchmark output
    and the calibration table are ASCII text. *)

Module Str.

Definition is_digit (c : ascii) : bool :=
  let n := N_of_ascii c in ((48 <=? n) && (n <=? 57))%N.

(** [str.isspace] on one ASCII character: TAB, LF, VT, FF, CR, FS, GS, RS,
    US and the space. *)
Definition is_space (c : ascii) : bool :=
  let n := N_of_ascii c in
  (((9 <=? n) && (n <=? 13)) || ((28 <=? n) && (n <=? 32)))%N.

Fixpoint lstrip (s : string) : string :=
  match s with
  | String c r => if is_space c then lstrip r else s
  | EmptyString => EmptyString
  end.

Fixpoint rstrip (s : string) : string :=
  match s with
  | String c r =>
      match rstrip r with
      | EmptyString => if is_space c then EmptyString else String c EmptyString
      | r' => String c r'
      end
  | EmptyString => EmptyString
  end.

(** [s.strip()] *)
Definition strip (s : string) : string := rstrip (lstrip s).

(** [s.split(sep)] for a one-character separator: the pieces between the
    separators, empty pieces included; never the empty list. *)
Fixpoint split (sep : ascii) (s : string) : list string :=
  match s with
  | EmptyString => [EmptyString]
  | String c r =>
      if Ascii.eqb c sep then EmptyString :: split sep r
      else match split sep r with
           | h :: t => String c h :: t
           | [] => [String c EmptyString]
           end
  end.

(** [sep.join(l)] *)
Fixpoint join (sep : string) (l : list string) : string :=
  match l with
  | [] => EmptyString
  | [x] => x
  | x :: r => x +:+ sep +:+ join sep r
  end.

(** [s.startswith(p)], returning the rest of [s] after [p]. *)
Fixpoint strip_prefix (p s : string) : option string :=
  match p, s with
  | EmptyString, _ => Some s
  | String a p', String b s' =>
      if Ascii.eqb a b then strip_prefix p' s' else None
  | String _ _, EmptyString => None
  end.

Definition startswith (s p : string) : bool :=
  match strip_prefix p s with Some _ => true | None => false end.

(** [s.find(needle)]: the first position at which [needle] occurs. *)
Fixpoint find (needle s : string) : option nat :=
  if startswith s needle then Some 0%nat
  else match s with
       | EmptyString => None
       | String _ r => S <$> find needle r
       end.

(** [needle in s] *)
Definition contains (needle s : string) : bool :=
  match find needle s with Some _ => true | None => false end.

(** The longest prefix of [s] made of characters satisfying [p], and the
    rest. *)
Fixpoint span (p : ascii -> bool) (s : string) : string * string :=
  match s with
  | String c r =>
      if p c then let '(a, b) := span p r in (String c a, b)
      else (EmptyString, s)
  | EmptyString => (EmptyString, EmptyString)
  end.

(** Python sequence indexing [l[i]], negative indices counting from the
    end; out of range is [IndexError]. *)
Definition index {A} (l : list A) (i : Z) : result A :=
  let n := Z.of_nat (length l) in
  let j := if i <? 0 then i + n else i in
  if (j <? 0) || (n <=? j) then Raise IndexError
  else of_option IndexError (l !! Z.to_nat j).

End Str.

(** ** Builtins: [int(str)], f-string formatting of an [int] *)

Module Builtins.

Definition digit_value (c : ascii) : Z := Z.of_N (N_of_ascii c) - 48.

(** Decimal digits, single underscores allowed between two digits. *)
Fixpoint int_digits (acc : Z) (s : string) : option Z :=
  match s with
  | EmptyString => Some acc
  | String c r =>
      if Str.is_digit c then int_digits (10 * acc + digit_value c) r
      else if Ascii.eqb c "_" then
        match r with
        | String d _ => if Str.is_digit d then int_digits acc r else None
        | EmptyString => None
        end
      else None
  end.

Definition int_unsigned (s : string) : option Z :=
  match s with
  | String d _ => if Str.is_digit d then int_digits 0 s else None
  | EmptyString => None
  end.

(** [int(s)] in base 10: surrounding whitespace, an optional sign, digits.
    [None] is [ValueError]. *)
Definition int_of_str (s : string) : option Z :=
  match Str.strip s with
  | String "-" r => Z.opp <$> int_unsigned r
  | String "+" r => int_unsigned r
  | t => int_unsigned t
  end.

(** [f"{i}"] for a non-negative [int]. *)
Definition str_of_nat (i : nat) : string := pretty i.

End Builtins.

(** ** [re.findall] on the patterns of the script

    Every pattern the script searches for has the shape
    [before (\-?\d+\.?\d* ) after] with one capture group, where [before] and
    [after] are literal text, the minus sign is allowed in one pattern only
    (the storage fee), and [after] starts with a space. [findall] returns the
    captured numerals of the non-overlapping matches, leftmost first.

    The numeral is matched greedily (all digits, then the dot, then all
    digits). Python's matcher would backtrack into shorter numerals when
    [after] does not follow; a shorter numeral is followed by a digit or a
    dot, never by the space [after] starts with, so backtracking finds no
    further match. *)

Module Re.

Record pattern : Type := {
  before : string;
  minus : bool;
  after : string;
}.

(** The match of [p] at the head of [s]: the captured numeral and the length
    of the whole match. *)
Definition match_here (p : pattern) (s : string) : option (string * nat) :=
  s1 ← Str.strip_prefix (before p) s;
  let '(sign, s2) :=
    match minus p, s1 with
    | true, String "-" r => ("-", r)
    | _, _ => ("", s1)
    end in
  let '(d1, s3) := Str.span Str.is_digit s2 in
  match d1 with
  | EmptyString => None
  | _ =>
      let '(dot, s4) :=
        match s3 with
        | String "." r => (".", r)
        | _ => ("", s3)
        end in
      let '(d2, s5) := Str.span Str.is_digit s4 in
      if Str.startswith s5 (after p) then
        let cap := sign +:+ d1 +:+ dot +:+ d2 in
        Some (cap, (String.length (before p) + String.length cap
                    + String.length (after p))%nat)
      else None
  end.

(** Scan [s] from left to right; [skip] characters belong to the previous
    match and start no new one. *)
Fixpoint findall_go (skip : nat) (p : pattern) (s : string) : list string :=
  match s with
  | EmptyString => []
  | String _ r =>
      match skip with
      | S k => findall_go k p r
      | O =>
          match match_here p s with
          | Some (cap, len) => cap :: findall_go (Nat.pred len) p r
          | None => findall_go O p r
          end
      end
  end.

Definition findall (p : pattern) (s : string) : list string :=
  findall_go O p s.

End Re.

(** ** Python floats *)

Class PyFloat (F : Type) : Type := {
  (** the conversion of an [int] operand in mixed arithmetic (an [int]
      beyond the range of the floats, on which Python raises, is left
      out) *)
  float_of_int : Z -> F;
  (** the literal written [m / 10^k] in decimal, as in [0.98] *)
  float_lit : Z -> nat -> F;
  (** [float(s)]; [None] is [ValueError] *)
  float_of_str : string -> option F;
  fadd : F -> F -> F;
  fsub : F -> F -> F;
  fmul : F -> F -> F;
  (** true division by a non-zero divisor *)
  fdiv : F -> F -> F;
  (** [pow(x, y)] for a base that is not negative; for a negative base
      and the exponent 0.8 Python returns a complex number, which [F] does
      not hold *)
  fpow : F -> F -> F;
  (** [x < y] *)
  flt : F -> F -> bool;
  (** [int(x)]: truncation towards zero; [None] on an infinity or a NaN *)
  int_of_float : F -> option Z;
}.

(** [x > y] is [y < x]. *)
Definition fgt {F} `{PyFloat F} (x y : F) : bool := flt y x.

(** [x / n] for a float [x] and an [int] [n]. *)
Definition fdiv_int {F} `{PyFloat F} (x : F) (n : Z) : result F :=
  if n =? 0 then Raise ZeroDivisionError else Ok (fdiv x (float_of_int n)).

(** ** Flows (lines 18-39) *)

Inductive FlowTag : Type :=
| LAND_BLOCKING
| CONTINUOUS
| REPRESENTATIVE
| MAINNET
| MAINNET_LARGE_DB
| AGG_V2
| RESOURCE_GROUPS.

#[global] Instance FlowTag_eq_dec : EqDecision FlowTag.
Proof. solve_decision. Defined.

(** A [Flow] value is a bit mask; [auto()] numbers the members 1, 2, 4, ... *)
Definition Flow : Type := Z.

Definition flow_value (t : FlowTag) : Flow :=
  match t with
  | LAND_BLOCKING => 1
  | CONTINUOUS => 2
  | REPRESENTATIVE => 4
  | MAINNET => 8
  | MAINNET_LARGE_DB => 16
  | AGG_V2 => 32
  | RESOURCE_GROUPS => 64
  end.

(** [a | b] *)
Definition flow_or (a b : Flow) : Flow := Z.lor a b.

(** [other in self] ([Flag.__contains__]): all bits of [other] are set in
    [self]. *)
Definition flow_contains (self other : Flow) : bool :=
  Z.land other self =? other.

Definition LAND_BLOCKING_AND_C : Flow :=
  flow_or (flow_value LAND_BLOCKING) (flow_value CONTINUOUS).

(** ** The configuration read from the environment (lines 39-112) *)

Record Env : Type := {
  FLOW : FlowTag;                       (* os.environ["FLOW"] *)
  SOURCE : string;
  MAX_BLOCK_SIZE : Z;
  NUM_BLOCKS : Z;                       (* NUM_BLOCKS_PER_TEST *)
  NUM_INIT_ACCOUNTS : option Z;
  NUMBER_OF_EXECUTION_THREADS : Z;
  DETAILED : bool;
  DISABLE_FA_APT : bool;
  HIDE_OUTPUT : bool;                   (* printing only *)
  SKIP_MOVE_E2E : bool;
}.

Section Settings.
Context (env : Env).

Definition SELECTED_FLOW : FlowTag := FLOW env.

Definition IS_MAINNET : bool :=
  bool_decide (SELECTED_FLOW = MAINNET)
  || bool_decide (SELECTED_FLOW = MAINNET_LARGE_DB).

Definition DEFAULT_NUM_INIT_ACCOUNTS : Z :=
  if bool_decide (SELECTED_FLOW = MAINNET_LARGE_DB) then 100000000
  else 2000000.

Definition NUM_BLOCKS_DETAILED : Z := 10.

Definition NUM_ACCOUNTS : Z :=
  Z.max (default DEFAULT_NUM_INIT_ACCOUNTS (NUM_INIT_ACCOUNTS env))
        ((2 + 2 * NUM_BLOCKS env) * MAX_BLOCK_SIZE env).

Definition MAIN_SIGNER_ACCOUNTS : Z := 2 * MAX_BLOCK_SIZE env.

Definition SKIP_WARNS : bool := IS_MAINNET.
Definition SKIP_PERF_IMPROVEMENT_NOTICE : bool := IS_MAINNET.

Definition EXECUTION_ONLY_NUMBER_OF_THREADS : list Z :=
  if DETAILED env then [1; 2; 4; 8; 16; 32; 48; 60] else [].

Definition SKIP_NATIVE : bool := negb (DISABLE_FA_APT env).

Context {F : Type} `{PyFloat F}.

Definition NOISE_LOWER_LIMIT : F :=
  if IS_MAINNET then float_lit 98 2 else float_lit 8 1.
Definition NOISE_LOWER_LIMIT_WARN : F := float_lit 9 1.
Definition NOISE_UPPER_LIMIT : F := float_lit 115 2.
Definition NOISE_UPPER_LIMIT_WARN : F := float_lit 105 2.

End Settings.

(** ** Data model (lines 115-385) *)

Module RunGroupKey.
Record t : Type := mk {
  transaction_type : string;
  module_working_set_size : Z;
  executor_type : string;
}.

(** [RunGroupKey(name)], with the defaults of the dataclass. *)
Definition of_type (name : string) : t := mk name 1 "VM".

#[global] Instance eq_dec : EqDecision t.
Proof. solve_decision. Defined.

#[global] Instance countable : Countable t.
Proof.
  refine (inj_countable'
    (fun k => (transaction_type k, module_working_set_size k, executor_type k))
    (fun p => mk p.1.1 p.1.2 p.2) _).
  by intros [].
Defined.
End RunGroupKey.

Module RunGroupKeyExtra.
Record t : Type := mk {
  transaction_type_override : option string;
  transaction_weights_override : option string;
  sharding_traffic_flags : option string;
}.
Definition default : t := mk None None None.
End RunGroupKeyExtra.

Module RunGroupConfig.
Record t (F : Type) : Type := mk {
  key : RunGroupKey.t;
  included_in : Flow;
  expected_tps : option F;
  key_extra : RunGroupKeyExtra.t;
  waived : bool;
}.
Arguments mk {F}.
Arguments key {F}.
Arguments included_in {F}.
Arguments expected_tps {F}.
Arguments key_extra {F}.
Arguments waived {F}.
End RunGroupConfig.

Module RunResults.
Record t (F : Type) : Type := mk {
  tps : F;
  gps : F;
  effective_gps : F;
  io_gps : F;
  execution_gps : F;
  gpt : F;
  storage_fee_pt : F;
  output_bps : F;
  fraction_in_execution : F;
  fraction_of_execution_in_vm : F;
  fraction_in_commit : F;
}.
Arguments mk {F}.
Arguments tps {F}.
Arguments gps {F}.
Arguments effective_gps {F}.
Arguments io_gps {F}.
Arguments execution_gps {F}.
Arguments gpt {F}.
Arguments storage_fee_pt {F}.
Arguments output_bps {F}.
Arguments fraction_in_execution {F}.
Arguments fraction_of_execution_in_vm {F}.
Arguments fraction_in_commit {F}.
End RunResults.

Module RunGroupInstance.
Record t (F : Type) : Type := mk {
  key : RunGroupKey.t;
  single_node_result : RunResults.t F;
  number_of_threads_results : gmap Z (RunResults.t F);
  block_size : Z;
  expected_tps : F;
}.
Arguments mk {F}.
Arguments key {F}.
Arguments single_node_result {F}.
Arguments number_of_threads_results {F}.
Arguments block_size {F}.
Arguments expected_tps {F}.
End RunGroupInstance.

Module CalibrationData.
Record t (F : Type) : Type := mk {
  expected_tps : F;
  count : Z;
  min_ratio : F;
  max_ratio : F;
}.
Arguments mk {F}.
Arguments expected_tps {F}.
Arguments count {F}.
Arguments min_ratio {F}.
Arguments max_ratio {F}.
End CalibrationData.

Module Criteria.
Record t (F : Type) : Type := mk {
  expected_tps : F;
  min_tps : F;
  min_warn_tps : F;
  max_tps : F;
  max_warn_tps : F;
}.
Arguments mk {F}.
Arguments expected_tps {F}.
Arguments min_tps {F}.
Arguments min_warn_tps {F}.
Arguments max_tps {F}.
Arguments max_warn_tps {F}.
End Criteria.

(** ** The calibration table (lines 152-158, 560-578) *)

Definition CALIBRATED_TPS_INDEX : Z := -1.
Definition CALIBRATED_COUNT_INDEX : Z := -4.
Definition CALIBRATED_MIN_RATIO_INDEX : Z := -3.
Definition CALIBRATED_MAX_RATIO_INDEX : Z := -2.
Definition CALIBRATION_SEPARATOR : ascii := "009".

Section Calibration.
Context {F : Type} `{PyFloat F}.

Definition py_int (s : string) : result Z :=
  of_option ValueError (Builtins.int_of_str s).
Definition py_float (s : string) : result F :=
  of_option ValueError (float_of_str s).

(** [parts := [part for part in line.strip().split(SEP) if part]] *)
Definition row_parts (line : string) : list string :=
  filter (fun part => part ≠ EmptyString)
         (Str.split CALIBRATION_SEPARATOR (Str.strip line)).

(** The key and the value of the dict comprehension for one row; the key is
    evaluated first, the fields in the order they are written. *)
Definition parse_row (parts : list string)
  : result (RunGroupKey.t * CalibrationData.t F) :=
  p0 ← Str.index parts 0;
  p1 ← Str.index parts 1;
  mws ← py_int p1;
  p2 ← Str.index parts 2;
  s_tps ← Str.index parts CALIBRATED_TPS_INDEX;
  e ← py_float s_tps;
  s_count ← Str.index parts CALIBRATED_COUNT_INDEX;
  c ← py_int s_count;
  s_min ← Str.index parts CALIBRATED_MIN_RATIO_INDEX;
  lo ← py_float s_min;
  s_max ← Str.index parts CALIBRATED_MAX_RATIO_INDEX;
  hi ← py_float s_max;
  mret (RunGroupKey.mk p0 mws p2, CalibrationData.mk e c lo hi).

(** The dict comprehension: rows are inserted in order, a later row with the
    same key replaces the earlier one. *)
Fixpoint parse_lines (lines : list string)
    (acc : gmap RunGroupKey.t (CalibrationData.t F))
  : result (gmap RunGroupKey.t (CalibrationData.t F)) :=
  match lines with
  | [] => Ok acc
  | line :: rest =>
      let parts := row_parts line in
      if (1 <=? length parts)%nat then
        '(k, v) ← parse_row parts;
        parse_lines rest (<[k := v]> acc)
      else parse_lines rest acc
  end.

Definition parse_calibration (CALIBRATION : string)
  : result (gmap RunGroupKey.t (CalibrationData.t F)) :=
  parse_lines (Str.split "010" CALIBRATION) ∅.

End Calibration.

(** ** Thresholds (lines 608-640) *)

Section Thresholds.
Context (env : Env) {F : Type} `{PyFloat F}.

Definition one : F := float_of_int 1.

(** [1 - (1 - min_ratio) * (1 + 10.0 / count) - 1.0 / count] *)
Definition min_factor (cur : CalibrationData.t F) : result F :=
  q10 ← fdiv_int (float_lit 100 1) (CalibrationData.count cur);
  q1 ← fdiv_int (float_lit 10 1) (CalibrationData.count cur);
  mret (fsub (fsub one (fmul (fsub one (CalibrationData.min_ratio cur))
                             (fadd one q10)))
             q1).

(** [1 + (max_ratio - 1) * (1 + 10.0 / count) + 1.0 / count] *)
Definition max_factor (cur : CalibrationData.t F) : result F :=
  q10 ← fdiv_int (float_lit 100 1) (CalibrationData.count cur);
  q1 ← fdiv_int (float_lit 10 1) (CalibrationData.count cur);
  mret (fadd (fadd one (fmul (fsub (CalibrationData.max_ratio cur) one)
                             (fadd one q10)))
             q1).

Definition compute_criteria
    (calibrated_expected_tps : gmap RunGroupKey.t (CalibrationData.t F))
    (test : RunGroupConfig.t F) : result (Criteria.t F) :=
  match RunGroupConfig.expected_tps test with
  | Some expected =>
      Ok {| Criteria.expected_tps := expected;
            Criteria.min_tps := fmul expected (NOISE_LOWER_LIMIT env);
            Criteria.min_warn_tps := fmul expected NOISE_LOWER_LIMIT_WARN;
            Criteria.max_tps := fmul expected NOISE_UPPER_LIMIT;
            Criteria.max_warn_tps := fmul expected NOISE_UPPER_LIMIT_WARN |}
  | None =>
      match calibrated_expected_tps !! RunGroupConfig.key test with
      | None => Raise AssertionError
      | Some cur_calibration =>
          let e := CalibrationData.expected_tps cur_calibration in
          lo ← min_factor cur_calibration;
          let lo_warn := fpow (CalibrationData.min_ratio cur_calibration)
                              (float_lit 8 1) in
          hi ← max_factor cur_calibration;
          let hi_warn := fpow (CalibrationData.max_ratio cur_calibration)
                              (float_lit 8 1) in
          mret {| Criteria.expected_tps := e;
                  Criteria.min_tps := fmul e lo;
                  Criteria.min_warn_tps := fmul e lo_warn;
                  Criteria.max_tps := fmul e hi;
                  Criteria.max_warn_tps := fmul e hi_warn |}
      end
  end.

End Thresholds.

(** ** Result extraction (lines 386-463) *)

Section Extraction.
Context {F : Type} `{PyFloat F}.

Definition get_only {A} (values : list A) : result A :=
  match values with
  | [v] => Ok v
  | _ => Raise AssertionError
  end.

(** [values[-1]] *)
Definition last_match {A} (values : list A) : result A := Str.index values (-1).

Definition metric (prefix label : string) (neg : bool) (unit_ : string)
  : Re.pattern :=
  {| Re.before := prefix +:+ label; Re.minus := neg; Re.after := unit_ |}.

Definition only_float (p : Re.pattern) (output : string) : result F :=
  s ← get_only (Re.findall p output);
  py_float s.

Definition last_float (p : Re.pattern) (output : string) : result F :=
  s ← last_match (Re.findall p output);
  py_float s.

Definition extract_run_results (output prefix : string) (create_db : bool)
  : result (RunResults.t F) :=
  let zero := float_of_int 0 in
  if create_db then
    tps ← only_float
      (metric "Overall TPS: create_db: account creation: " "" false " txn/s")
      output;
    mret (RunResults.mk tps zero zero zero zero zero zero zero zero zero zero)
  else
    tps ← only_float (metric prefix " TPS: " false " txn/s") output;
    gps ← only_float (metric prefix " GPS: " false " gas/s") output;
    effective_gps ←
      only_float (metric prefix " effectiveGPS: " false " gas/s") output;
    io_gps ← only_float (metric prefix " ioGPS: " false " gas/s") output;
    execution_gps ←
      only_float (metric prefix " executionGPS: " false " gas/s") output;
    gpt ← only_float (metric prefix " GPT: " false " gas/txn") output;
    storage_fee_pt ←
      only_float (metric prefix " Storage fee: " true " octas/txn") output;
    output_bps ← only_float (metric prefix " output: " false " bytes/s") output;
    fraction_in_execution ←
      last_float (metric prefix " fraction of total: " false " in execution")
                 output;
    fraction_of_execution_in_vm ←
      last_float (metric prefix " fraction of execution " false " in VM")
                 output;
    fraction_in_commit ←
      last_float (metric prefix " fraction of total: " false " in commit")
                 output;
    mret (RunResults.mk tps gps effective_gps io_gps execution_gps gpt
            storage_fee_pt output_bps fraction_in_execution
            fraction_of_execution_in_vm fraction_in_commit).

(** [f"Staged execution: stage {i}:"] *)
Definition stage_prefix (i : nat) : string :=
  "Staged execution: stage " +:+ Builtins.str_of_nat i +:+ ":".

(** The loop [for i in itertools.count(): ...] of lines 689-694, which
    leaves at the first stage whose prefix is not in the output. [fuel]
    bounds the number of stages looked at; [stage_loop_fuel] below shows that
    the fuel [stage_node_results] gives is never used up. *)
Fixpoint stage_loop (fuel : nat) (output : string) (i : nat)
  : result (list (nat * RunResults.t F)) :=
  match fuel with
  | O => Ok []
  | S fuel' =>
      let prefix := stage_prefix i in
      if Str.contains prefix output then
        r ← extract_run_results output prefix false;
        rest ← stage_loop fuel' output (S i);
        mret ((i, r) :: rest)
      else Ok []
  end.

Definition stage_node_results (output : string)
  : result (list (nat * RunResults.t F)) :=
  stage_loop (2 + String.length output) output 0.

End Extraction.

(** ** The tables the script prints (lines 466-538)

    [print_table] builds the headers and the rows it hands to [tabulate].
    A cell is a string, an [int] or a [float]. The two roundings are
    parameters: [int(round(x))], which raises on an infinity or a NaN, and
    [round(x, ndigits)]. A field getter is any function of the results to
    a cell, which may raise. *)

Inductive Cell (F : Type) : Type :=
| CellStr (s : string)
| CellInt (n : Z)
| CellFloat (x : F).
Arguments CellStr {F}.
Arguments CellInt {F}.
Arguments CellFloat {F}.

Section PrintTable.
Context {F : Type} `{PyFloat F}.
Context (int_round : F -> result Z) (round_ndigits : F -> Z -> F).

Definition base_headers : list string :=
  ["transaction_type"; "module_working_set"; "executor"; "block_size";
   "expected t/s"].

Definition all_fields_headers : list string :=
  ["t/s"; "exe/total"; "vm/exe"; "commit/total"; "g/s"; "eff g/s"; "io g/s";
   "exe g/s"; "g/t"; "fee/t"; "out B/s"].

(** The headers, with the assertion of the branch [by_levels]. *)
Definition table_headers (by_levels : bool)
    (single_field : option (string * (RunResults.t F -> result (Cell F))))
    (number_of_execution_threads : list Z) : result (list string) :=
  let headers := base_headers in
  headers ←
    (if by_levels then
       let headers :=
         headers ++ ((fun num_threads => "exe_only " +:+ pretty num_threads)
                       <$> number_of_execution_threads) in
       assert_ (bool_decide (is_Some single_field));;
       mret headers
     else mret headers);
  match single_field with
  | Some (field_name, _) => mret (headers ++ [field_name])
  | None => mret (headers ++ all_fields_headers)
  end.

(** The cells of the levels: the field of the run with each number of
    threads, or a dash. *)
Fixpoint level_cells (field_getter : RunResults.t F -> result (Cell F))
    (number_of_threads_results : gmap Z (RunResults.t F))
    (number_of_execution_threads : list Z) : result (list (Cell F)) :=
  match number_of_execution_threads with
  | [] => mret []
  | num_threads :: rest =>
      cell ← match number_of_threads_results !! num_threads with
             | Some r => field_getter r
             | None => mret (CellStr "-")
             end;
      cells ← level_cells field_getter number_of_threads_results rest;
      mret (cell :: cells)
  end.

Definition all_fields_cells (r : RunResults.t F) : result (list (Cell F)) :=
  tps ← int_round (RunResults.tps r);
  gps ← int_round (RunResults.gps r);
  effective_gps ← int_round (RunResults.effective_gps r);
  io_gps ← int_round (RunResults.io_gps r);
  execution_gps ← int_round (RunResults.execution_gps r);
  gpt ← int_round (RunResults.gpt r);
  storage_fee_pt ← int_round (RunResults.storage_fee_pt r);
  output_bps ← int_round (RunResults.output_bps r);
  mret [CellInt tps;
        CellFloat (round_ndigits (RunResults.fraction_in_execution r) 3);
        CellFloat (round_ndigits (RunResults.fraction_of_execution_in_vm r) 3);
        CellFloat (round_ndigits (RunResults.fraction_in_commit r) 3);
        CellInt gps; CellInt effective_gps; CellInt io_gps;
        CellInt execution_gps; CellInt gpt; CellInt storage_fee_pt;
        CellInt output_bps].

Definition table_row (by_levels : bool)
    (single_field : option (string * (RunResults.t F -> result (Cell F))))
    (number_of_execution_threads : list Z) (result_ : RunGroupInstance.t F)
  : result (list (Cell F)) :=
  let row :=
    [CellStr (RunGroupKey.transaction_type (RunGroupInstance.key result_));
     CellInt (RunGroupKey.module_working_set_size
                (RunGroupInstance.key result_));
     CellStr (RunGroupKey.executor_type (RunGroupInstance.key result_));
     CellInt (RunGroupInstance.block_size result_);
     CellFloat (RunGroupInstance.expected_tps result_)] in
  row ←
    match by_levels, single_field with
    | true, Some (_, field_getter) =>
        cells ← level_cells field_getter
                  (RunGroupInstance.number_of_threads_results result_)
                  number_of_execution_threads;
        mret (row ++ cells)
    | _, _ => mret row
    end;
  match single_field with
  | Some (_, field_getter) =>
      cell ← field_getter (RunGroupInstance.single_node_result result_);
      mret (row ++ [cell])
  | None =>
      cells ← all_fields_cells (RunGroupInstance.single_node_result result_);
      mret (row ++ cells)
  end.

Fixpoint table_rows (by_levels : bool)
    (single_field : option (string * (RunResults.t F -> result (Cell F))))
    (number_of_execution_threads : list Z)
    (results : list (RunGroupInstance.t F)) : result (list (list (Cell F))) :=
  match results with
  | [] => mret []
  | result_ :: rest =>
      row ← table_row by_levels single_field number_of_execution_threads
              result_;
      rows ← table_rows by_levels single_field number_of_execution_threads
               rest;
      mret (row :: rows)
  end.

(** The headers and the rows handed to [tabulate]. *)
Definition print_table (results : list (RunGroupInstance.t F))
    (by_levels : bool)
    (single_field : option (string * (RunResults.t F -> result (Cell F))))
    (number_of_execution_threads : list Z)
  : result (list string * list (list (Cell F))) :=
  headers ← table_headers by_levels single_field number_of_execution_threads;
  rows ← table_rows by_levels single_field number_of_execution_threads
           results;
  mret (headers, rows).

(** A single field that is rounded to an [int], as
    [("t/s", lambda r: int(round(r.tps)))]. *)
Definition int_field (name : string) (get : RunResults.t F -> F)
  : option (string * (RunResults.t F -> result (Cell F))) :=
  Some (name, fun r => n ← int_round (get r); mret (CellInt n)).

(** A single field that is rounded to three digits, as
    [("exe/total", lambda r: round(r.fraction_in_execution, 3))]. *)
Definition rounded_field (name : string) (get : RunResults.t F -> F)
  : option (string * (RunResults.t F -> result (Cell F))) :=
  Some (name, fun r => mret (CellFloat (round_ndigits (get r) 3))).

(** The seven tables printed after a test (lines 747-784), with the
    default of the last argument. *)
Definition test_tables (env : Env) (results : list (RunGroupInstance.t F))
  : result (list (list string * list (list (Cell F)))) :=
  let threads := EXECUTION_ONLY_NUMBER_OF_THREADS env in
  t1 ← print_table results true (int_field "t/s" RunResults.tps) threads;
  t2 ← print_table results true (int_field "g/s" RunResults.gps) threads;
  t3 ← print_table results false (int_field "gas/txn" RunResults.gpt) threads;
  t4 ← print_table results false
         (int_field "storage fee/txn" RunResults.storage_fee_pt) threads;
  t5 ← print_table results true
         (rounded_field "exe/total" RunResults.fraction_in_execution) threads;
  t6 ← print_table results true
         (rounded_field "vm/exe" RunResults.fraction_of_execution_in_vm)
         threads;
  t7 ← print_table results false None threads;
  mret [t1; t2; t3; t4; t5; t6; t7].

End PrintTable.

(** ** External commands (lines 313-345)

    A command line is kept as a record of the values the script interpolates
    into it; the flags that depend on the environment only (build folder,
    database and pruner flags, feature flags) are left out. *)

Inductive Cmd : Type :=
| CargoBuild (package : string)
| MoveE2EBenchmark
| CreateDb (block_size execution_threads num_accounts : Z)
| RunExecutor (execution_threads : Z) (skip_commit : bool)
    (executor_type_str workload_args_str : string)
    (block_size module_working_set_size main_signer_accounts
       additional_dst_pool_accounts blocks : Z).

(** What a finished process leaves: its return code and the lines it wrote. *)
Record ProcResult : Type := {
  returncode : Z;
  stdout : list string;
}.

(** The outside world: the result of the command launched after [n] others. *)
Definition World : Type := nat -> Cmd -> ProcResult.

Definition newline : string := String "010" EmptyString.

(** [execute_command], after the process has finished. *)
Definition command_result (p : ProcResult) : result string :=
  let full_result := Str.join newline (stdout p) in
  if negb (returncode p =? 0) then Raise (CmdExecutionError (returncode p))
  else if Str.contains " ERROR " full_result then Raise (SystemExit 1)
  else Ok full_result.

(** ** The messages of the classifier (lines 787-810) *)

Inductive NoticeKind : Type :=
| Regression            (* "regression detected ..." *)
| PotentialRegression   (* "potential (but within normal noise) regression ..." *)
| Improvement           (* "perf improvement detected ..." *)
| PotentialImprovement. (* "potential (but within normal noise) perf improvement ..." *)

Record Notice (F : Type) : Type := {
  kind : NoticeKind;
  measured : F;
  expected_median : F;
  threshold : F;
  about : RunGroupKey.t;
}.
Arguments Build_Notice {F}.
Arguments kind {F}.
Arguments measured {F}.
Arguments expected_median {F}.
Arguments threshold {F}.
Arguments about {F}.

(** ** The state of the script *)

Record State (F : Type) : Type := {
  launched : list Cmd;
  results : list (RunGroupInstance.t F);
  warnings : list (Notice F);
  errors : list (Notice F);
}.
Arguments Build_State {F}.
Arguments launched {F}.
Arguments results {F}.
Arguments warnings {F}.
Arguments errors {F}.

Definition initial_state {F} : State F := Build_State [] [] [] [].

(** A statement: it changes the state and returns or raises. *)
Definition M (F A : Type) : Type := State F -> result A * State F.

#[global] Instance M_ret {F} : MRet (M F) := fun A a st => (Ok a, st).
#[global] Instance M_bind {F} : MBind (M F) := fun A B k m st =>
  match m st with
  | (Ok a, st') => k a st'
  | (Raise e, st') => (Raise e, st')
  end.

Definition lift {F A} (r : result A) : M F A := fun st => (r, st).

Section Script.
Context (env : Env) (world : World) {F : Type} `{PyFloat F}.

Definition execute_command (command : Cmd) : M F string := fun st =>
  let p := world (length (launched st)) command in
  (command_result p,
   Build_State (launched st ++ [command]) (results st) (warnings st)
               (errors st)).

Definition results_append (r : RunGroupInstance.t F) : M F unit := fun st =>
  (Ok tt, Build_State (launched st) (results st ++ [r]) (warnings st)
                      (errors st)).

Definition warnings_append (n : Notice F) : M F unit := fun st =>
  (Ok tt, Build_State (launched st) (results st) (warnings st ++ [n])
                      (errors st)).

Definition errors_append (n : Notice F) : M F unit := fun st =>
  (Ok tt, Build_State (launched st) (results st) (warnings st)
                      (errors st ++ [n])).

(** *** The classification (lines 787-810) *)

Definition classify (test : RunGroupConfig.t F) (criteria : Criteria.t F)
    (single_node_result : RunResults.t F) : M F unit :=
  let tps := RunResults.tps single_node_result in
  let text k th :=
    Build_Notice k tps (Criteria.expected_tps criteria) th
                 (RunGroupConfig.key test) in
  if flt tps (Criteria.min_tps criteria) then
    if negb (RunGroupConfig.waived test)
    then errors_append (text Regression (Criteria.min_tps criteria))
    else warnings_append (text Regression (Criteria.min_tps criteria))
  else if flt tps (Criteria.min_warn_tps criteria) then
    warnings_append (text PotentialRegression (Criteria.min_warn_tps criteria))
  else if negb (SKIP_PERF_IMPROVEMENT_NOTICE env)
          && fgt tps (Criteria.max_tps criteria) then
    if negb (RunGroupConfig.waived test)
    then errors_append (text Improvement (Criteria.max_tps criteria))
    else warnings_append (text Improvement (Criteria.max_tps criteria))
  else if negb (SKIP_PERF_IMPROVEMENT_NOTICE env)
          && fgt tps (Criteria.max_warn_tps criteria) then
    warnings_append
      (text PotentialImprovement (Criteria.max_warn_tps criteria))
  else mret tt.

(** *** Selection (lines 602-606): the two [continue] guards. *)

Definition selected (test : RunGroupConfig.t F) : bool :=
  flow_contains (RunGroupConfig.included_in test)
                (flow_value (SELECTED_FLOW env))
  && negb (SKIP_NATIVE env
           && bool_decide (RunGroupKey.executor_type (RunGroupConfig.key test)
                           = "native")).

(** *** The command line of a test (lines 642-672) *)

(** [x or y] on an optional string: [None] and the empty string are false. *)
Definition str_or (x : option string) (y : string) : string :=
  match x with
  | Some (String a r) => String a r
  | _ => y
  end.

(** [int(min([criteria.expected_tps, MAX_BLOCK_SIZE]))] *)
Definition cur_block_size_of (criteria : Criteria.t F) : result Z :=
  if flt (float_of_int (MAX_BLOCK_SIZE env)) (Criteria.expected_tps criteria)
  then Ok (MAX_BLOCK_SIZE env)
  else of_option OverflowError (int_of_float (Criteria.expected_tps criteria)).

Definition workload_args_str_of (test : RunGroupConfig.t F) : string :=
  let extra := RunGroupConfig.key_extra test in
  match RunGroupKeyExtra.transaction_type_override extra with
  | Some EmptyString => ""
  | o =>
      "--transaction-type "
      +:+ str_or o (RunGroupKey.transaction_type (RunGroupConfig.key test))
      +:+ " --transaction-weights "
      +:+ str_or (RunGroupKeyExtra.transaction_weights_override extra) "1"
  end.

Definition executor_type_str_of (test : RunGroupConfig.t F) : result string :=
  let ty := RunGroupKey.executor_type (RunGroupConfig.key test) in
  if bool_decide (ty = "VM") then Ok "--transactions-per-sender 1"
  else if bool_decide (ty = "native") then
    Ok "--use-native-executor --transactions-per-sender 1"
  else if bool_decide (ty = "sharded") then
    Ok ("--num-executor-shards "
        +:+ pretty (NUMBER_OF_EXECUTION_THREADS env) +:+ " "
        +:+ str_or (RunGroupKeyExtra.sharding_traffic_flags
                      (RunGroupConfig.key_extra test)) "")
  else Raise Exception_.

Definition test_db_command (test : RunGroupConfig.t F)
    (executor_type_str : string) (cur_block_size : Z)
    (execution_threads : Z) (skip_commit : bool) (blocks : Z) : Cmd :=
  RunExecutor execution_threads skip_commit executor_type_str
    (workload_args_str_of test) cur_block_size
    (RunGroupKey.module_working_set_size (RunGroupConfig.key test))
    (MAIN_SIGNER_ACCOUNTS env)
    (2 * MAX_BLOCK_SIZE env * NUM_BLOCKS env) blocks.

(** *** The body of the loop over [TESTS] for a selected test
        (lines 608-810) *)

(** The loop over [EXECUTION_ONLY_NUMBER_OF_THREADS] (lines 675-682). *)
Fixpoint detailed_runs (test : RunGroupConfig.t F) (executor_type_str : string)
    (cur_block_size : Z) (threads : list Z)
    (number_of_threads_results : gmap Z (RunResults.t F))
  : M F (gmap Z (RunResults.t F)) :=
  match threads with
  | [] => mret number_of_threads_results
  | execution_threads :: rest =>
      output ← execute_command
        (test_db_command test executor_type_str cur_block_size
           execution_threads true NUM_BLOCKS_DETAILED);
      r ← lift (extract_run_results output "Overall execution" false);
      detailed_runs test executor_type_str cur_block_size rest
        (<[execution_threads := r]> number_of_threads_results)
  end.

(** The key of the row of a stage (lines 708-713). *)
Definition stage_key (key : RunGroupKey.t) (stage : nat) : RunGroupKey.t :=
  RunGroupKey.mk
    (RunGroupKey.transaction_type key
     +:+ " [stage " +:+ Builtins.str_of_nat stage +:+ "]")
    (RunGroupKey.module_working_set_size key)
    (RunGroupKey.executor_type key).

Fixpoint append_stage_results (test : RunGroupConfig.t F)
    (criteria : Criteria.t F)
    (number_of_threads_results : gmap Z (RunResults.t F))
    (cur_block_size : Z) (stages : list (nat * RunResults.t F)) : M F unit :=
  match stages with
  | [] => mret tt
  | (stage, stage_node_result) :: rest =>
      results_append
        (RunGroupInstance.mk (stage_key (RunGroupConfig.key test) stage)
           stage_node_result number_of_threads_results cur_block_size
           (Criteria.expected_tps criteria));;
      append_stage_results test criteria number_of_threads_results
        cur_block_size rest
  end.

Definition run_test
    (calibrated_expected_tps : gmap RunGroupKey.t (CalibrationData.t F))
    (test : RunGroupConfig.t F) : M F unit :=
  criteria ← lift (compute_criteria env calibrated_expected_tps test);
  cur_block_size ← lift (cur_block_size_of criteria);
  executor_type_str ← lift (executor_type_str_of test);
  number_of_threads_results ←
    detailed_runs test executor_type_str cur_block_size
      (EXECUTION_ONLY_NUMBER_OF_THREADS env) ∅;
  output ← execute_command
    (test_db_command test executor_type_str cur_block_size
       (NUMBER_OF_EXECUTION_THREADS env) false (NUM_BLOCKS env));
  single_node_result ← lift (extract_run_results output "Overall" false);
  stages ← lift (stage_node_results output);
  results_append
    (RunGroupInstance.mk (RunGroupConfig.key test) single_node_result
       number_of_threads_results cur_block_size
       (Criteria.expected_tps criteria));;
  append_stage_results test criteria number_of_threads_results cur_block_size
    stages;;
  classify test criteria single_node_result.

(** The loop over [TESTS] (lines 598-810). *)
Fixpoint run_tests
    (calibrated_expected_tps : gmap RunGroupKey.t (CalibrationData.t F))
    (tests : list (RunGroupConfig.t F)) : M F unit :=
  match tests with
  | [] => mret tt
  | test :: rest =>
      (if selected test then run_test calibrated_expected_tps test
       else mret tt);;
      run_tests calibrated_expected_tps rest
  end.

(** *** The prerequisite benchmark (lines 546-558)

    The build is outside the [try]; the bare [except] catches every failure
    of the run, the [exit(1)] of an error line included. *)
Definition try_move_e2e_benchmark : M F bool := fun st =>
  match execute_command MoveE2EBenchmark st with
  | (Ok _, st') => (Ok false, st')
  | (Raise _, st') =>
      if bool_decide (SELECTED_FLOW env = LAND_BLOCKING)
      then (Raise (SystemExit 1), st')
      else (Ok true, st')
  end.

Definition move_e2e_benchmark : M F bool :=
  if SKIP_MOVE_E2E env then mret false
  else
    execute_command (CargoBuild "aptos-move-e2e-benchmark");;
    try_move_e2e_benchmark.

(** *** The [with] block (lines 545-810) *)
Definition benchmark_block (CALIBRATION : string)
    (TESTS : list (RunGroupConfig.t F)) : M F bool :=
  move_e2e_benchmark_failed ← move_e2e_benchmark;
  calibrated_expected_tps ← lift (parse_calibration CALIBRATION);
  execute_command (CargoBuild "aptos-executor-benchmark");;
  output ← execute_command
    (CreateDb (MAX_BLOCK_SIZE env) (NUMBER_OF_EXECUTION_THREADS env)
              (NUM_ACCOUNTS env));
  warmup ← lift (extract_run_results output "Overall" true);
  results_append
    (RunGroupInstance.mk (RunGroupKey.of_type "warmup") warmup ∅
       (MAX_BLOCK_SIZE env) (float_of_int 0));;
  run_tests calibrated_expected_tps TESTS;;
  mret move_e2e_benchmark_failed.

(** *** The whole script, with its exit status (lines 39-46, 541-839)

    An uncaught exception ends the interpreter with status 1, [exit(n)] with
    status [n], the end of the script with status 0. *)
Record Outcome : Type := {
  exit_status : Z;
  (** the exception or [exit] that ended the script before its last lines *)
  aborted : option PyError;
  move_e2e_benchmark_failed : bool;
  final : State F;
}.

Definition status_of (e : PyError) : Z :=
  match e with
  | SystemExit code => code
  | _ => 1
  end.

Definition script (CALIBRATION : string) (TESTS : list (RunGroupConfig.t F))
  : Outcome :=
  if negb (bool_decide (SOURCE env ∈ ["ADHOC"; "CI"; "LOCAL"])) then
    Build_Outcome 1 (Some (SystemExit 1)) false initial_state
  else
    match benchmark_block CALIBRATION TESTS initial_state with
    | (Raise e, st) => Build_Outcome (status_of e) (Some e) false st
    | (Ok failed, st) =>
        match errors st with
        | _ :: _ => Build_Outcome 1 None failed st
        | [] =>
            if failed then Build_Outcome 1 None failed st
            else Build_Outcome 0 None failed st
        end
    end.

End Script.

(** ** Floats read as real numbers

    The instance of [PyFloat] on which the order of the thresholds is
    stated: every operation is the exact one. [float(s)] reads decimal
    notation without exponent; [pow] of a base that is not positive is 0
    (Python gives 0.0 for the base 0.0 and leaves the floats for a negative
    base). *)

Module RealFloat.

Local Open Scope R_scope.

Definition lit (m : Z) (k : nat) : R := IZR m / IZR (10 ^ Z.of_nat k).

(** digits and the number of digits read *)
Fixpoint digits (acc : Z) (n : nat) (s : string) : Z * nat * string :=
  match s with
  | String c r =>
      if Str.is_digit c
      then digits (10 * acc + Builtins.digit_value c)%Z (S n) r
      else (acc, n, s)
  | EmptyString => (acc, n, s)
  end.

(** [digits* [. digits*]] with at least one digit: mantissa and scale *)
Definition unsigned_decimal (s : string) : option (Z * nat) :=
  let '(ip, ni, s1) := digits 0 0 s in
  match s1 with
  | EmptyString => if (ni =? 0)%nat then None else Some (ip, 0%nat)
  | String "." s2 =>
      let '(m, nf, s3) := digits ip 0 s2 in
      match s3 with
      | EmptyString => if ((ni + nf)%nat =? 0)%nat then None else Some (m, nf)
      | _ => None
      end
  | _ => None
  end.

Definition decimal (s : string) : option (Z * nat) :=
  match Str.strip s with
  | String "-" r => (fun p => (- p.1, p.2)%Z) <$> unsigned_decimal r
  | String "+" r => unsigned_decimal r
  | t => unsigned_decimal t
  end.

Definition of_str (s : string) : option R :=
  (fun p => lit p.1 p.2) <$> decimal s.

Definition lt (x y : R) : bool := if Rlt_dec x y then true else false.

Definition pow (x y : R) : R := if Rlt_dec 0 x then Rpower x y else 0.

(** truncation towards zero *)
Definition trunc (x : R) : Z :=
  if Rle_dec 0 x then Int_part x else (- Int_part (- x))%Z.

#[global] Instance real_float : PyFloat R := {|
  float_of_int := IZR;
  float_lit := lit;
  float_of_str := of_str;
  fadd := Rplus;
  fsub := Rminus;
  fmul := Rmult;
  fdiv := Rdiv;
  fpow := pow;
  flt := lt;
  int_of_float := fun x => Some (trunc x);
|}.

End RealFloat.

(** ** The catalog (lines 160-288) *)

(** The calibration table, with its tabs and line ends. *)
Definition CALIBRATION : string := "
no-op	1	VM	15	0.922	1.06	42737.7
no-op	1000	VM	15	0.879	1.024	23373.9
apt-fa-transfer	1	VM	15	0.934	1.068	29963.1
account-generation	1	VM	15	0.871	1.016	24567.9
account-resource32-b	1	VM	8	0.879	1.048	38063.3
modify-global-resource	1	VM	15	0.971	1.023	2839.5
modify-global-resource	100	VM	8	0.927	1.015	37424.8
publish-package	1	VM	15	0.963	1.036	143.4
mix_publish_transfer	1	VM	15	0.968	1.048	2175
batch100-transfer	1	VM	15	0.88	1.014	770.5
vector-picture30k	1	VM	15	0.98	1.025	110.6
vector-picture30k	100	VM	8	0.894	1.029	2033.8
smart-table-picture30-k-with200-change	1	VM	15	0.974	1.062	21.5
smart-table-picture30-k-with200-change	100	VM	8	0.983	1.038	411.5
modify-global-resource-agg-v2	1	VM	15	0.867	1.082	38997.7
modify-global-flag-agg-v2	1	VM	8	0.989	1.008	5648.5
modify-global-bounded-agg-v2	1	VM	8	0.942	1.02	10303.1
modify-global-milestone-agg-v2	1	VM	8	0.957	1.017	29851.6
resource-groups-global-write-tag1-kb	1	VM	15	0.869	1.052	9391.5
resource-groups-global-write-and-read-tag1-kb	1	VM	8	0.963	1.008	6432.7
resource-groups-sender-write-tag1-kb	1	VM	8	0.982	1.086	20121.2
resource-groups-sender-multi-change1-kb	1	VM	15	0.857	1.065	16862.9
token-v1ft-mint-and-transfer	1	VM	8	0.962	1.035	1292.6
token-v1ft-mint-and-transfer	100	VM	8	0.918	1.025	18747.7
token-v1nft-mint-and-transfer-sequential	1	VM	8	0.973	1.023	805.5
token-v1nft-mint-and-transfer-sequential	100	VM	8	0.902	1.015	13333.2
coin-init-and-mint	1	VM	8	0.878	1.036	31056.8
coin-init-and-mint	100	VM	8	0.906	1.032	25868.8
fungible-asset-mint	1	VM	15	0.874	1.019	28045.4
fungible-asset-mint	100	VM	8	0.928	1.047	21876
no-op5-signers	1	VM	8	0.897	1.056	42970.1
token-v2-ambassador-mint	1	VM	15	0.942	1.031	17842.6
token-v2-ambassador-mint	100	VM	8	0.944	1.042	16270.3
liquidity-pool-swap	1	VM	15	0.968	1.024	972.4
liquidity-pool-swap	100	VM	8	0.964	1.043	11297.1
liquidity-pool-swap-stable	1	VM	8	0.955	1.03	936.3
liquidity-pool-swap-stable	100	VM	8	0.949	1.04	11116.3
deserialize-u256	1	VM	8	0.935	1.043	41589.9
no-op-fee-payer	1	VM	15	0.97	1.044	2124.5
no-op-fee-payer	100	VM	8	0.934	1.023	28717.2
".

Definition DEFAULT_MODULE_WORKING_SET_SIZE : Z := 100.

Definition TESTS {F : Type} `{PyFloat F} : list (RunGroupConfig.t F) := [
  RunGroupConfig.mk (RunGroupKey.mk "no-op" 1 "VM")
    (LAND_BLOCKING_AND_C) None RunGroupKeyExtra.default false;
  RunGroupConfig.mk (RunGroupKey.mk "no-op" 1000 "VM")
    (LAND_BLOCKING_AND_C) None RunGroupKeyExtra.default false;
  RunGroupConfig.mk (RunGroupKey.mk "apt-fa-transfer" 1 "VM")
    (flow_or (flow_or (LAND_BLOCKING_AND_C) (flow_value REPRESENTATIVE)) (flow_value MAINNET)) None RunGroupKeyExtra.default false;
  RunGroupConfig.mk (RunGroupKey.mk "apt-fa-transfer" 1 "native")
    (LAND_BLOCKING_AND_C) None RunGroupKeyExtra.default false;
  RunGroupConfig.mk (RunGroupKey.mk "account-generation" 1 "VM")
    (flow_or (flow_or (LAND_BLOCKING_AND_C) (flow_value REPRESENTATIVE)) (flow_value MAINNET)) None RunGroupKeyExtra.default false;
  RunGroupConfig.mk (RunGroupKey.mk "account-generation" 1 "native")
    (flow_value CONTINUOUS) None RunGroupKeyExtra.default false;
  RunGroupConfig.mk (RunGroupKey.mk "account-resource32-b" 1 "VM")
    (flow_value CONTINUOUS) None RunGroupKeyExtra.default false;
  RunGroupConfig.mk (RunGroupKey.mk "modify-global-resource" 1 "VM")
    (flow_or (LAND_BLOCKING_AND_C) (flow_value REPRESENTATIVE)) None RunGroupKeyExtra.default false;
  RunGroupConfig.mk (RunGroupKey.mk "modify-global-resource" DEFAULT_MODULE_WORKING_SET_SIZE "VM")
    (flow_value CONTINUOUS) None RunGroupKeyExtra.default false;
  RunGroupConfig.mk (RunGroupKey.mk "publish-package" 1 "VM")
    (flow_or (flow_or (LAND_BLOCKING_AND_C) (flow_value REPRESENTATIVE)) (flow_value MAINNET)) None RunGroupKeyExtra.default false;
  RunGroupConfig.mk (RunGroupKey.mk "mix_publish_transfer" 1 "VM")
    (LAND_BLOCKING_AND_C) None (RunGroupKeyExtra.mk (Some "publish-package apt-fa-transfer") (Some "1 500") None) false;
  RunGroupConfig.mk (RunGroupKey.mk "batch100-transfer" 1 "VM")
    (LAND_BLOCKING_AND_C) None RunGroupKeyExtra.default false;
  RunGroupConfig.mk (RunGroupKey.mk "batch100-transfer" 1 "native")
    (flow_value CONTINUOUS) None RunGroupKeyExtra.default false;
  RunGroupConfig.mk (RunGroupKey.mk "vector-picture40" 1 "VM")
    (0) (Some (float_of_int 100)) RunGroupKeyExtra.default true;
  RunGroupConfig.mk (RunGroupKey.mk "vector-picture40" DEFAULT_MODULE_WORKING_SET_SIZE "VM")
    (0) (Some (float_of_int 1000)) RunGroupKeyExtra.default true;
  RunGroupConfig.mk (RunGroupKey.mk "vector-picture30k" 1 "VM")
    (LAND_BLOCKING_AND_C) None RunGroupKeyExtra.default false;
  RunGroupConfig.mk (RunGroupKey.mk "vector-picture30k" DEFAULT_MODULE_WORKING_SET_SIZE "VM")
    (flow_value CONTINUOUS) None RunGroupKeyExtra.default false;
  RunGroupConfig.mk (RunGroupKey.mk "smart-table-picture30-k-with200-change" 1 "VM")
    (LAND_BLOCKING_AND_C) None RunGroupKeyExtra.default false;
  RunGroupConfig.mk (RunGroupKey.mk "smart-table-picture30-k-with200-change" DEFAULT_MODULE_WORKING_SET_SIZE "VM")
    (flow_value CONTINUOUS) None RunGroupKeyExtra.default false;
  RunGroupConfig.mk (RunGroupKey.mk "modify-global-resource-agg-v2" 1 "VM")
    (flow_or (flow_value AGG_V2) (LAND_BLOCKING_AND_C)) None RunGroupKeyExtra.default false;
  RunGroupConfig.mk (RunGroupKey.mk "modify-global-resource-agg-v2" DEFAULT_MODULE_WORKING_SET_SIZE "VM")
    (flow_value AGG_V2) (Some (float_of_int 10000)) RunGroupKeyExtra.default true;
  RunGroupConfig.mk (RunGroupKey.mk "modify-global-flag-agg-v2" 1 "VM")
    (flow_or (flow_value AGG_V2) (flow_value CONTINUOUS)) None RunGroupKeyExtra.default false;
  RunGroupConfig.mk (RunGroupKey.mk "modify-global-flag-agg-v2" DEFAULT_MODULE_WORKING_SET_SIZE "VM")
    (flow_value AGG_V2) (Some (float_of_int 10000)) RunGroupKeyExtra.default true;
  RunGroupConfig.mk (RunGroupKey.mk "modify-global-bounded-agg-v2" 1 "VM")
    (flow_or (flow_value AGG_V2) (flow_value CONTINUOUS)) None RunGroupKeyExtra.default false;
  RunGroupConfig.mk (RunGroupKey.mk "modify-global-bounded-agg-v2" DEFAULT_MODULE_WORKING_SET_SIZE "VM")
    (flow_value AGG_V2) (Some (float_of_int 10000)) RunGroupKeyExtra.default true;
  RunGroupConfig.mk (RunGroupKey.mk "modify-global-milestone-agg-v2" 1 "VM")
    (flow_or (flow_value AGG_V2) (flow_value CONTINUOUS)) None RunGroupKeyExtra.default false;
  RunGroupConfig.mk (RunGroupKey.mk "resource-groups-global-write-tag1-kb" 1 "VM")
    (flow_or (LAND_BLOCKING_AND_C) (flow_value RESOURCE_GROUPS)) None RunGroupKeyExtra.default false;
  RunGroupConfig.mk (RunGroupKey.mk "resource-groups-global-write-tag1-kb" DEFAULT_MODULE_WORKING_SET_SIZE "VM")
    (flow_value RESOURCE_GROUPS) (Some (float_of_int 8000)) RunGroupKeyExtra.default true;
  RunGroupConfig.mk (RunGroupKey.mk "resource-groups-global-write-and-read-tag1-kb" 1 "VM")
    (flow_or (flow_value CONTINUOUS) (flow_value RESOURCE_GROUPS)) None RunGroupKeyExtra.default false;
  RunGroupConfig.mk (RunGroupKey.mk "resource-groups-global-write-and-read-tag1-kb" DEFAULT_MODULE_WORKING_SET_SIZE "VM")
    (flow_value RESOURCE_GROUPS) (Some (float_of_int 8000)) RunGroupKeyExtra.default true;
  RunGroupConfig.mk (RunGroupKey.mk "resource-groups-sender-write-tag1-kb" 1 "VM")
    (flow_or (flow_value CONTINUOUS) (flow_value RESOURCE_GROUPS)) None RunGroupKeyExtra.default false;
  RunGroupConfig.mk (RunGroupKey.mk "resource-groups-sender-write-tag1-kb" DEFAULT_MODULE_WORKING_SET_SIZE "VM")
    (flow_value RESOURCE_GROUPS) (Some (float_of_int 8000)) RunGroupKeyExtra.default true;
  RunGroupConfig.mk (RunGroupKey.mk "resource-groups-sender-multi-change1-kb" 1 "VM")
    (flow_or (LAND_BLOCKING_AND_C) (flow_value RESOURCE_GROUPS)) None RunGroupKeyExtra.default false;
  RunGroupConfig.mk (RunGroupKey.mk "resource-groups-sender-multi-change1-kb" DEFAULT_MODULE_WORKING_SET_SIZE "VM")
    (flow_value RESOURCE_GROUPS) (Some (float_of_int 8000)) RunGroupKeyExtra.default true;
  RunGroupConfig.mk (RunGroupKey.mk "token-v1ft-mint-and-transfer" 1 "VM")
    (flow_value CONTINUOUS) None RunGroupKeyExtra.default false;
  RunGroupConfig.mk (RunGroupKey.mk "token-v1ft-mint-and-transfer" DEFAULT_MODULE_WORKING_SET_SIZE "VM")
    (flow_value CONTINUOUS) None RunGroupKeyExtra.default false;
  RunGroupConfig.mk (RunGroupKey.mk "token-v1nft-mint-and-transfer-sequential" 1 "VM")
    (flow_value CONTINUOUS) None RunGroupKeyExtra.default false;
  RunGroupConfig.mk (RunGroupKey.mk "token-v1nft-mint-and-transfer-sequential" DEFAULT_MODULE_WORKING_SET_SIZE "VM")
    (flow_value CONTINUOUS) None RunGroupKeyExtra.default false;
  RunGroupConfig.mk (RunGroupKey.mk "token-v1nft-mint-and-transfer-parallel" 1 "VM")
    (0) (Some (float_of_int 1300)) RunGroupKeyExtra.default true;
  RunGroupConfig.mk (RunGroupKey.mk "token-v1nft-mint-and-transfer-parallel" DEFAULT_MODULE_WORKING_SET_SIZE "VM")
    (0) (Some (float_of_int 5300)) RunGroupKeyExtra.default true;
  RunGroupConfig.mk (RunGroupKey.mk "coin-init-and-mint" 1 "VM")
    (flow_value CONTINUOUS) None RunGroupKeyExtra.default false;
  RunGroupConfig.mk (RunGroupKey.mk "coin-init-and-mint" DEFAULT_MODULE_WORKING_SET_SIZE "VM")
    (flow_value CONTINUOUS) None RunGroupKeyExtra.default false;
  RunGroupConfig.mk (RunGroupKey.mk "fungible-asset-mint" 1 "VM")
    (LAND_BLOCKING_AND_C) None RunGroupKeyExtra.default false;
  RunGroupConfig.mk (RunGroupKey.mk "fungible-asset-mint" DEFAULT_MODULE_WORKING_SET_SIZE "VM")
    (flow_value CONTINUOUS) None RunGroupKeyExtra.default false;
  RunGroupConfig.mk (RunGroupKey.mk "no-op5-signers" 1 "VM")
    (flow_value CONTINUOUS) None RunGroupKeyExtra.default false;
  RunGroupConfig.mk (RunGroupKey.mk "token-v2-ambassador-mint" 1 "VM")
    (flow_or (flow_or (LAND_BLOCKING_AND_C) (flow_value REPRESENTATIVE)) (flow_value MAINNET)) None RunGroupKeyExtra.default false;
  RunGroupConfig.mk (RunGroupKey.mk "token-v2-ambassador-mint" DEFAULT_MODULE_WORKING_SET_SIZE "VM")
    (flow_value CONTINUOUS) None RunGroupKeyExtra.default false;
  RunGroupConfig.mk (RunGroupKey.mk "liquidity-pool-swap" 1 "VM")
    (flow_or (LAND_BLOCKING_AND_C) (flow_value REPRESENTATIVE)) None RunGroupKeyExtra.default false;
  RunGroupConfig.mk (RunGroupKey.mk "liquidity-pool-swap" DEFAULT_MODULE_WORKING_SET_SIZE "VM")
    (flow_value CONTINUOUS) None RunGroupKeyExtra.default false;
  RunGroupConfig.mk (RunGroupKey.mk "liquidity-pool-swap-stable" 1 "VM")
    (flow_value CONTINUOUS) None RunGroupKeyExtra.default false;
  RunGroupConfig.mk (RunGroupKey.mk "liquidity-pool-swap-stable" DEFAULT_MODULE_WORKING_SET_SIZE "VM")
    (flow_value CONTINUOUS) None RunGroupKeyExtra.default false;
  RunGroupConfig.mk (RunGroupKey.mk "deserialize-u256" 1 "VM")
    (flow_value CONTINUOUS) None RunGroupKeyExtra.default false;
  RunGroupConfig.mk (RunGroupKey.mk "no-op-fee-payer" 1 "VM")
    (LAND_BLOCKING_AND_C) None RunGroupKeyExtra.default false;
  RunGroupConfig.mk (RunGroupKey.mk "no-op-fee-payer" DEFAULT_MODULE_WORKING_SET_SIZE "VM")
    (flow_value CONTINUOUS) None RunGroupKeyExtra.default false;
  RunGroupConfig.mk (RunGroupKey.mk "coin_transfer_connected_components" 1 "sharded")
    (flow_value REPRESENTATIVE) (Some (float_of_int 50000)) (RunGroupKeyExtra.mk (Some "") None (Some "--connected-tx-grps 5000")) true;
  RunGroupConfig.mk (RunGroupKey.mk "coin_transfer_hotspot" 1 "sharded")
    (flow_value REPRESENTATIVE) (Some (float_of_int 50000)) (RunGroupKeyExtra.mk (Some "") None (Some "--hotspot-probability 0.8")) true;
  RunGroupConfig.mk (RunGroupKey.mk "apt-fa-transfer" 1 "VM")
    (flow_value MAINNET_LARGE_DB) (Some (float_of_int 20000)) RunGroupKeyExtra.default false;
  RunGroupConfig.mk (RunGroupKey.mk "account-generation" 1 "VM")
    (flow_value MAINNET_LARGE_DB) (Some (float_of_int 15000)) RunGroupKeyExtra.default false;
  RunGroupConfig.mk (RunGroupKey.mk "publish-package" 1 "VM")
    (flow_value MAINNET_LARGE_DB) (Some (float_of_int 60)) RunGroupKeyExtra.default false;
  RunGroupConfig.mk (RunGroupKey.mk "token-v2-ambassador-mint" 1 "VM")
    (flow_value MAINNET_LARGE_DB) (Some (float_of_int 6800)) RunGroupKeyExtra.default false
].

(** The environment in which none of the variables the script reads is
    set. *)
Definition default_env : Env := {|
  FLOW := LAND_BLOCKING;
  SOURCE := "LOCAL";
  MAX_BLOCK_SIZE := 10000;
  NUM_BLOCKS := 15;
  NUM_INIT_ACCOUNTS := None;
  NUMBER_OF_EXECUTION_THREADS := 32;
  DETAILED := false;
  DISABLE_FA_APT := false;
  HIDE_OUTPUT := false;
  SKIP_MOVE_E2E := false;
|}.

Definition with_flow (env : Env) (flow : FlowTag) : Env := {|
  FLOW := flow;
  SOURCE := SOURCE env;
  MAX_BLOCK_SIZE := MAX_BLOCK_SIZE env;
  NUM_BLOCKS := NUM_BLOCKS env;
  NUM_INIT_ACCOUNTS := NUM_INIT_ACCOUNTS env;
  NUMBER_OF_EXECUTION_THREADS := NUMBER_OF_EXECUTION_THREADS env;
  DETAILED := DETAILED env;
  DISABLE_FA_APT := DISABLE_FA_APT env;
  HIDE_OUTPUT := HIDE_OUTPUT env;
  SKIP_MOVE_E2E := SKIP_MOVE_E2E env;
|}.

(** ** The specification's wording of the thresholds and of the classifier

    These definitions follow the text of the specification (sections 4.2 and
    4.4), not the script; the theorems below compare the script with them. *)

Declare Scope pyfloat_scope.
Delimit Scope pyfloat_scope with pyf.
Infix "+" := fadd : pyfloat_scope.
Infix "-" := fsub : pyfloat_scope.
Infix "*" := fmul : pyfloat_scope.
Infix "/" := fdiv : pyfloat_scope.
Infix "^" := fpow : pyfloat_scope.
Infix "<?" := flt : pyfloat_scope.
Infix ">?" := fgt : pyfloat_scope.

Module Spec.
Section Spec.
Context {F : Type} `{PyFloat F}.

(** Case (b), calibrated. *)
Definition calibrated_criteria (entry : CalibrationData.t F) : Criteria.t F :=
  let expected_tps := CalibrationData.expected_tps entry in
  let min_ratio := CalibrationData.min_ratio entry in
  let max_ratio := CalibrationData.max_ratio entry in
  let count := float_of_int (CalibrationData.count entry) in
  let _1 := float_of_int 1 in
  let _1_0 := float_lit 10 1 in
  let _10 := float_lit 100 1 in
  let _0_8 := float_lit 8 1 in
  {| Criteria.expected_tps := expected_tps;
     Criteria.min_tps :=
       expected_tps * (_1 - (_1 - min_ratio) * (_1 + _10 / count)
                       - _1_0 / count);
     Criteria.min_warn_tps := expected_tps * min_ratio ^ _0_8;
     Criteria.max_tps :=
       expected_tps * (_1 + (max_ratio - _1) * (_1 + _10 / count)
                       + _1_0 / count);
     Criteria.max_warn_tps := expected_tps * max_ratio ^ _0_8 |}%pyf.

(** Case (a), static override. *)
Definition static_criteria (env : Env) (expected_tps : F) : Criteria.t F :=
  {| Criteria.expected_tps := expected_tps;
     Criteria.min_tps := expected_tps * NOISE_LOWER_LIMIT env;
     Criteria.min_warn_tps := expected_tps * float_lit 9 1;
     Criteria.max_tps := expected_tps * float_lit 115 2;
     Criteria.max_warn_tps := expected_tps * float_lit 105 2 |}%pyf.

(** The tiers of section 4.4, in their order of precedence. *)
Inductive Tier : Type :=
| TierRegression
| TierSoftLow
| TierImprovement
| TierSoftHigh
| TierPass.

Definition tier (suppressed : bool) (criteria : Criteria.t F) (tps : F) : Tier :=
  if (tps <? Criteria.min_tps criteria)%pyf then TierRegression
  else if (tps <? Criteria.min_warn_tps criteria)%pyf then TierSoftLow
  else if negb suppressed && (tps >? Criteria.max_tps criteria)%pyf
  then TierImprovement
  else if negb suppressed && (tps >? Criteria.max_warn_tps criteria)%pyf
  then TierSoftHigh
  else TierPass.

Inductive Report : Type :=
| HardError (k : NoticeKind) (threshold : F)
| Warning (k : NoticeKind) (threshold : F)
| NoReport.

(** What each tier reports for a test that is or is not waived. *)
Definition report (waived : bool) (criteria : Criteria.t F) (t : Tier)
  : Report :=
  match t with
  | TierRegression =>
      if waived then Warning Regression (Criteria.min_tps criteria)
      else HardError Regression (Criteria.min_tps criteria)
  | TierSoftLow =>
      Warning PotentialRegression (Criteria.min_warn_tps criteria)
  | TierImprovement =>
      if waived then Warning Improvement (Criteria.max_tps criteria)
      else HardError Improvement (Criteria.max_tps criteria)
  | TierSoftHigh =>
      Warning PotentialImprovement (Criteria.max_warn_tps criteria)
  | TierPass => NoReport
  end.

(** The lists after a report about the measurement [tps] of [key]. *)
Definition record (key : RunGroupKey.t) (criteria : Criteria.t F) (tps : F)
    (r : Report) (st : State F) : State F :=
  let notice k th :=
    Build_Notice k tps (Criteria.expected_tps criteria) th key in
  match r with
  | HardError k th =>
      Build_State (launched st) (results st) (warnings st)
                  (errors st ++ [notice k th])
  | Warning k th =>
      Build_State (launched st) (results st) (warnings st ++ [notice k th])
                  (errors st)
  | NoReport => st
  end.

(** The MAINNET family of flows. *)
Definition mainnet_family (flow : FlowTag) : Prop :=
  flow = MAINNET ∨ flow = MAINNET_LARGE_DB.

End Spec.
End Spec.

(** ** The thresholds: calibrated entries and static overrides *)

Section ThresholdFacts.
Context {F : Type} `{PyFloat F}.

Lemma compute_criteria_calibrated (env : Env)
    (calibrated_expected_tps : gmap RunGroupKey.t (CalibrationData.t F))
    (test : RunGroupConfig.t F) (entry : CalibrationData.t F) :
  RunGroupConfig.expected_tps test = None →
  calibrated_expected_tps !! RunGroupConfig.key test = Some entry →
  CalibrationData.count entry ≠ 0 →
  compute_criteria env calibrated_expected_tps test
  = Ok (Spec.calibrated_criteria entry).
Proof.
  intros Hnone Hentry Hcount.
  unfold compute_criteria. rewrite Hnone, Hentry.
  unfold min_factor, max_factor, fdiv_int.
  destruct (Z.eqb_spec (CalibrationData.count entry) 0) as [Hz|_];
    [contradiction|].
  reflexivity.
Qed.

Lemma compute_criteria_override (env : Env)
    (calibrated_expected_tps : gmap RunGroupKey.t (CalibrationData.t F))
    (test : RunGroupConfig.t F) (expected : F) :
  RunGroupConfig.expected_tps test = Some expected →
  compute_criteria env calibrated_expected_tps test
  = Ok (Spec.static_criteria env expected).
Proof. intros Hsome. unfold compute_criteria. rewrite Hsome. reflexivity. Qed.

(** C1. For a test without override whose key resolves to a calibration entry
    with [count >= 1], the criteria computed by the script are exactly the
    ones of the specification's formulas: the entry's expected tps, the two
    hard bounds widened by [1 + 10/count] and [1/count], and the two warning
    bounds with the ratios raised to the power 0.8. *)
Theorem calibrated_criteria_exact (env : Env)
    (calibrated_expected_tps : gmap RunGroupKey.t (CalibrationData.t F))
    (test : RunGroupConfig.t F) (entry : CalibrationData.t F) :
  RunGroupConfig.expected_tps test = None →
  calibrated_expected_tps !! RunGroupConfig.key test = Some entry →
  1 ≤ CalibrationData.count entry →
  compute_criteria env calibrated_expected_tps test
  = Ok (Spec.calibrated_criteria entry).
Proof.
  intros Hnone Hentry Hcount.
  apply compute_criteria_calibrated; [assumption|assumption|lia].
Qed.

(** A count of zero does not produce criteria: the division raises. *)
Lemma calibrated_criteria_count_0 (env : Env)
    (calibrated_expected_tps : gmap RunGroupKey.t (CalibrationData.t F))
    (test : RunGroupConfig.t F) (entry : CalibrationData.t F) :
  RunGroupConfig.expected_tps test = None →
  calibrated_expected_tps !! RunGroupConfig.key test = Some entry →
  CalibrationData.count entry = 0 →
  compute_criteria env calibrated_expected_tps test = Raise ZeroDivisionError.
Proof.
  intros Hnone Hentry Hcount.
  unfold compute_criteria. rewrite Hnone, Hentry.
  unfold min_factor, fdiv_int. rewrite Hcount. reflexivity.
Qed.

(** C4. For a test with a static override the criteria are the override
    times the fixed multipliers, whatever the calibration table holds: the
    result is the same for every table, with or without an entry for the
    key of the test. *)
Theorem override_criteria_exact (env : Env)
    (calibrated_expected_tps : gmap RunGroupKey.t (CalibrationData.t F))
    (test : RunGroupConfig.t F) (expected : F) :
  RunGroupConfig.expected_tps test = Some expected →
  compute_criteria env calibrated_expected_tps test
  = Ok (Spec.static_criteria env expected)
  ∧ ∀ other : gmap RunGroupKey.t (CalibrationData.t F),
      compute_criteria env other test
      = compute_criteria env calibrated_expected_tps test.
Proof.
  intros Hsome. split.
  - apply compute_criteria_override. assumption.
  - intros other. rewrite !(compute_criteria_override _ _ _ _ Hsome).
    reflexivity.
Qed.

(** The lower limit is 0.98 in the MAINNET family and 0.8 elsewhere. *)
Lemma NOISE_LOWER_LIMIT_value (env : Env) :
  NOISE_LOWER_LIMIT env
  = if bool_decide (Spec.mainnet_family (SELECTED_FLOW env))
    then float_lit 98 2 else float_lit 8 1.
Proof.
  unfold NOISE_LOWER_LIMIT, IS_MAINNET, Spec.mainnet_family.
  destruct (SELECTED_FLOW env); reflexivity.
Qed.

End ThresholdFacts.

(** ** The classifier *)

Section ClassifierFacts.
Context (env : Env) (world : World) {F : Type} `{PyFloat F}.

Lemma SKIP_PERF_IMPROVEMENT_NOTICE_iff :
  SKIP_PERF_IMPROVEMENT_NOTICE env = true
  ↔ Spec.mainnet_family (SELECTED_FLOW env).
Proof.
  unfold SKIP_PERF_IMPROVEMENT_NOTICE, IS_MAINNET, Spec.mainnet_family.
  destruct (SELECTED_FLOW env); simpl; split; intros Hx;
    try reflexivity; try discriminate; auto;
    destruct Hx; discriminate.
Qed.

Lemma classify_run (test : RunGroupConfig.t F)
    (criteria : Criteria.t F) (single_node_result : RunResults.t F)
    (st : State F) :
  classify env test criteria single_node_result st
  = (Ok tt,
     Spec.record (RunGroupConfig.key test) criteria
       (RunResults.tps single_node_result)
       (Spec.report (RunGroupConfig.waived test) criteria
          (Spec.tier (SKIP_PERF_IMPROVEMENT_NOTICE env) criteria
             (RunResults.tps single_node_result)))
       st).
Proof.
  unfold classify, Spec.tier.
  destruct (flt _ (Criteria.min_tps criteria)).
  { simpl. destruct (RunGroupConfig.waived test); reflexivity. }
  destruct (flt _ (Criteria.min_warn_tps criteria)); [reflexivity|].
  destruct (negb (SKIP_PERF_IMPROVEMENT_NOTICE env)
            && fgt _ (Criteria.max_tps criteria)).
  { simpl. destruct (RunGroupConfig.waived test); reflexivity. }
  destruct (negb (SKIP_PERF_IMPROVEMENT_NOTICE env)
            && fgt _ (Criteria.max_warn_tps criteria)); reflexivity.
Qed.

(** C2. The classification of a measurement is the report of the first tier
    that matches, in the order regression, soft-low, improvement, soft-high,
    pass: a regression or an improvement is an error unless the test is
    waived and a warning otherwise, the soft tiers are warnings, a pass
    records nothing; the two improvement tiers are looked at only when the
    notice is not suppressed, and it is suppressed exactly in the flows
    MAINNET and MAINNET_LARGE_DB. *)
Theorem classify_first_matching_tier (test : RunGroupConfig.t F)
    (criteria : Criteria.t F) (single_node_result : RunResults.t F)
    (st : State F) :
  let tps := RunResults.tps single_node_result in
  classify env test criteria single_node_result st
  = (Ok tt,
     Spec.record (RunGroupConfig.key test) criteria tps
       (Spec.report (RunGroupConfig.waived test) criteria
          (Spec.tier (SKIP_PERF_IMPROVEMENT_NOTICE env) criteria tps))
       st)
  ∧ (SKIP_PERF_IMPROVEMENT_NOTICE env = true
     ↔ Spec.mainnet_family (SELECTED_FLOW env)).
Proof.
  intros tps. split.
  - apply classify_run.
  - apply SKIP_PERF_IMPROVEMENT_NOTICE_iff.
Qed.

(** The classifier launches nothing and leaves the table of results. *)
Lemma classify_frame (test : RunGroupConfig.t F) (criteria : Criteria.t F)
    (r : RunResults.t F) (st : State F) :
  launched (classify env test criteria r st).2 = launched st
  ∧ results (classify env test criteria r st).2 = results st.
Proof.
  unfold classify.
  repeat match goal with
         | |- context [if ?b then _ else _] => destruct b
         end; split; reflexivity.
Qed.

End ClassifierFacts.

(** ** Selection of the tests of a flow *)

Section SelectionFacts.
Context {F : Type} `{PyFloat F}.

(** The position of the bit of a tag. *)
Definition flow_bit (t : FlowTag) : Z :=
  match t with
  | LAND_BLOCKING => 0
  | CONTINUOUS => 1
  | REPRESENTATIVE => 2
  | MAINNET => 3
  | MAINNET_LARGE_DB => 4
  | AGG_V2 => 5
  | RESOURCE_GROUPS => 6
  end.

(** Membership of a tag in a set of tags, as the specification reads the
    flag value (section 9): the bit of the tag is set. *)
Definition member (t : FlowTag) (s : Flow) : Prop :=
  Z.testbit s (flow_bit t) = true.

Lemma flow_value_pow2 (t : FlowTag) : flow_value t = 2 ^ flow_bit t.
Proof. destruct t; reflexivity. Qed.

Lemma land_pow2 (i m : Z) :
  0 ≤ i → Z.land (2 ^ i) m = if Z.testbit m i then 2 ^ i else 0.
Proof.
  intros Hi. apply Z.bits_inj'. intros n Hn.
  rewrite Z.land_spec, Z.pow2_bits_eqb by assumption.
  destruct (Z.eqb_spec i n) as [->|Hne].
  - destruct (Z.testbit m n) eqn:Hm; simpl.
    + rewrite Z.pow2_bits_eqb, Z.eqb_refl by assumption. reflexivity.
    + rewrite Z.bits_0. reflexivity.
  - simpl. destruct (Z.testbit m i).
    + rewrite Z.pow2_bits_eqb by assumption.
      symmetry. apply Z.eqb_neq. assumption.
    + rewrite Z.bits_0. reflexivity.
Qed.

Lemma flow_contains_member (s : Flow) (t : FlowTag) :
  flow_contains s (flow_value t) = true ↔ member t s.
Proof.
  unfold flow_contains, member. rewrite flow_value_pow2.
  assert (0 ≤ flow_bit t) as Hi by (destruct t; simpl; lia).
  rewrite land_pow2 by assumption.
  assert (0 < 2 ^ flow_bit t) by (apply Z.pow_pos_nonneg; lia).
  destruct (Z.testbit s (flow_bit t)).
  - rewrite Z.eqb_refl. tauto.
  - split; [|discriminate]. intros Heq. apply Z.eqb_eq in Heq. lia.
Qed.

(** The union of two sets of tags has the members of both. *)
Lemma member_flow_or (t : FlowTag) (a b : Flow) :
  member t (flow_or a b) ↔ member t a ∨ member t b.
Proof.
  unfold member, flow_or. rewrite Z.lor_spec. apply orb_true_iff.
Qed.

(** C5, as the script has it. A test is executed exactly when the active
    flow is a member of its [included_in] set and the test is not a native
    executor test skipped because [DISABLE_FA_APT] is unset. *)
Theorem selected_iff_member_and_not_skipped (env : Env)
    (test : RunGroupConfig.t F) :
  selected env test = true
  ↔ member (SELECTED_FLOW env) (RunGroupConfig.included_in test)
    ∧ ¬ (DISABLE_FA_APT env = false
         ∧ RunGroupKey.executor_type (RunGroupConfig.key test) = "native").
Proof.
  unfold selected, SKIP_NATIVE.
  rewrite andb_true_iff, flow_contains_member, negb_true_iff.
  rewrite andb_false_iff, negb_false_iff, bool_decide_eq_false.
  split; intros [Hm Hs]; split; try assumption.
  - intros [Hd Hn]. destruct Hs as [Hs|Hs]; congruence.
  - destruct (DISABLE_FA_APT env); [left; reflexivity|].
    right. intros Hn. apply Hs. split; [reflexivity|assumption].
Qed.

(** The loop runs the body for the selected tests and passes the others. *)
Lemma run_tests_cons (env : Env) (world : World)
    (tbl : gmap RunGroupKey.t (CalibrationData.t F))
    (test : RunGroupConfig.t F) (rest : list (RunGroupConfig.t F))
    (st : State F) :
  run_tests env world tbl (test :: rest) st
  = if selected env test then
      match run_test env world tbl test st with
      | (Ok _, st') => run_tests env world tbl rest st'
      | (Raise e, st') => (Raise e, st')
      end
    else run_tests env world tbl rest st.
Proof.
  simpl. unfold mbind, M_bind.
  destruct (selected env test); [|reflexivity].
  destruct (run_test env world tbl test st) as [[[]|e] st']; reflexivity.
Qed.

End SelectionFacts.

(** ** The order of the thresholds, on the real numbers *)

Module Order.
Import RealFloat.
Local Open Scope R_scope.

(** The invariant the specification gives for [Criteria] (section 3). *)
Definition ordered (c : Criteria.t R) : Prop :=
  Criteria.min_tps c <= Criteria.min_warn_tps c
  ∧ Criteria.min_warn_tps c <= Criteria.expected_tps c
  ∧ Criteria.expected_tps c <= Criteria.max_warn_tps c
  ∧ Criteria.max_warn_tps c <= Criteria.max_tps c.

(** The order the script gives a static override in the MAINNET family: the
    hard lower bound (0.98) lies above the warning bound (0.9). *)
Definition ordered_mainnet_override (c : Criteria.t R) : Prop :=
  Criteria.min_warn_tps c <= Criteria.min_tps c
  ∧ Criteria.min_tps c <= Criteria.expected_tps c
  ∧ Criteria.expected_tps c <= Criteria.max_warn_tps c
  ∧ Criteria.max_warn_tps c <= Criteria.max_tps c.

(** The invariant of a calibration entry (section 3). *)
Definition well_formed (entry : CalibrationData.t R) : Prop :=
  0 <= CalibrationData.expected_tps entry
  ∧ (1 ≤ CalibrationData.count entry)%Z
  ∧ 0 < CalibrationData.min_ratio entry <= 1
  ∧ 1 <= CalibrationData.max_ratio entry.

(** Unfold the decimal literals and compute their powers of ten. *)
Ltac lit_norm :=
  unfold lit;
  repeat match goal with
         | |- context [IZR (?a ^ ?b)%Z] =>
             let v := eval vm_compute in (a ^ b)%Z in
             change (a ^ b)%Z with v
         end.

Lemma lit_100_1 : lit 100 1 = 10.
Proof. lit_norm. lra. Qed.
Lemma lit_10_1 : lit 10 1 = 1.
Proof. lit_norm. lra. Qed.
Lemma lit_8_1 : lit 8 1 = 8 / 10.
Proof. lit_norm. lra. Qed.
Lemma lit_9_1 : lit 9 1 = 9 / 10.
Proof. lit_norm. lra. Qed.
Lemma lit_98_2 : lit 98 2 = 98 / 100.
Proof. lit_norm. lra. Qed.
Lemma lit_115_2 : lit 115 2 = 115 / 100.
Proof. lit_norm. lra. Qed.
Lemma lit_105_2 : lit 105 2 = 105 / 100.
Proof. lit_norm. lra. Qed.

Lemma Rpower_1_l (c : R) : Rpower 1 c = 1.
Proof. unfold Rpower. rewrite ln_1, Rmult_0_r. apply exp_0. Qed.

Lemma Rpower_pos (x c : R) : 0 < Rpower x c.
Proof. unfold Rpower. apply exp_pos. Qed.

Lemma Rpower_split (x c : R) :
  0 < x → x = Rpower x c * Rpower x (1 - c).
Proof.
  intros Hx. rewrite <- Rpower_plus.
  replace (c + (1 - c)) with 1 by lra.
  symmetry. apply Rpower_1. assumption.
Qed.

(** A ratio below one moves towards one, and not past it. *)
Lemma Rpower_low (m c : R) :
  0 <= c <= 1 → 0 < m <= 1 → m <= Rpower m c <= 1.
Proof.
  intros Hc Hm.
  assert (Rpower m c <= 1) as Ha.
  { pose proof (Rle_Rpower_l m 1 c) as Hle.
    rewrite Rpower_1_l in Hle. apply Hle; lra. }
  assert (Rpower m (1 - c) <= 1) as Hb.
  { pose proof (Rle_Rpower_l m 1 (1 - c)) as Hle.
    rewrite Rpower_1_l in Hle. apply Hle; lra. }
  split; [|assumption].
  pose proof (Rpower_pos m c) as Hpa.
  pose proof (Rpower_pos m (1 - c)) as Hpb.
  pose proof (Rpower_split m c (proj1 Hm)) as Hs.
  nra.
Qed.

(** A ratio above one moves towards one, and not past it. *)
Lemma Rpower_high (m c : R) :
  0 <= c <= 1 → 1 <= m → 1 <= Rpower m c <= m.
Proof.
  intros Hc Hm.
  assert (1 <= Rpower m c) as Ha.
  { pose proof (Rle_Rpower_l 1 m c) as Hle.
    rewrite Rpower_1_l in Hle. apply Hle; lra. }
  assert (1 <= Rpower m (1 - c)) as Hb.
  { pose proof (Rle_Rpower_l 1 m (1 - c)) as Hle.
    rewrite Rpower_1_l in Hle. apply Hle; lra. }
  split; [assumption|].
  assert (0 < m) as Hpos by lra.
  pose proof (Rpower_split m c Hpos) as Hs.
  nra.
Qed.

Lemma pow_low (m : R) : 0 < m <= 1 → m <= pow m (lit 8 1) <= 1.
Proof.
  intros Hm. unfold pow. destruct (Rlt_dec 0 m) as [_|Hn]; [|lra].
  apply Rpower_low; [rewrite lit_8_1; lra|assumption].
Qed.

Lemma pow_high (m : R) : 1 <= m → 1 <= pow m (lit 8 1) <= m.
Proof.
  intros Hm. unfold pow. destruct (Rlt_dec 0 m) as [_|Hn]; [|lra].
  apply Rpower_high; [rewrite lit_8_1; lra|assumption].
Qed.

(** The calibrated criteria of a well-formed entry are ordered. *)
Lemma calibrated_ordered (entry : CalibrationData.t R) :
  well_formed entry → ordered (Spec.calibrated_criteria entry).
Proof.
  intros (He & Hc & Hlo & Hhi).
  destruct entry as [e n lo hi]; simpl in *.
  pose proof (pow_low lo Hlo) as Hpl.
  pose proof (pow_high hi Hhi) as Hph.
  assert (1 <= IZR n) as Hn by (apply IZR_le; assumption).
  assert (0 < / IZR n <= 1) as Hinv.
  { split; [apply Rinv_0_lt_compat; lra|].
    rewrite <- Rinv_1. apply Rinv_le_contravar; lra. }
  unfold ordered, Spec.calibrated_criteria; simpl.
  rewrite lit_100_1, lit_10_1. unfold Rdiv.
  generalize dependent (pow lo (lit 8 1)). intros pl Hpl.
  generalize dependent (pow hi (lit 8 1)). intros ph Hph.
  generalize dependent (/ IZR n). intros q Hq.
  assert (0 <= (1 - lo) * q) as Hlq by (apply Rmult_le_pos; lra).
  assert (0 <= (hi - 1) * q) as Hhq by (apply Rmult_le_pos; lra).
  repeat split.
  - apply Rmult_le_compat_l; [assumption|]. lra.
  - rewrite <- (Rmult_1_r e) at 2.
    apply Rmult_le_compat_l; [assumption|]. lra.
  - rewrite <- (Rmult_1_r e) at 1.
    apply Rmult_le_compat_l; [assumption|]. lra.
  - apply Rmult_le_compat_l; [assumption|]. lra.
Qed.

(** The calibrated criteria in ordinary notation, for positive ratios. *)
Lemma calibrated_criteria_real (entry : CalibrationData.t R) :
  let e := CalibrationData.expected_tps entry in
  let n := IZR (CalibrationData.count entry) in
  let lo := CalibrationData.min_ratio entry in
  let hi := CalibrationData.max_ratio entry in
  0 < lo → 0 < hi →
  Spec.calibrated_criteria entry
  = {| Criteria.expected_tps := e;
       Criteria.min_tps := e * (1 - (1 - lo) * (1 + 10 / n) - 1 / n);
       Criteria.min_warn_tps := e * Rpower lo (8 / 10);
       Criteria.max_tps := e * (1 + (hi - 1) * (1 + 10 / n) + 1 / n);
       Criteria.max_warn_tps := e * Rpower hi (8 / 10) |}.
Proof.
  intros e n lo hi Hlo Hhi. unfold Spec.calibrated_criteria.
  cbn [fadd fsub fmul fdiv fpow float_of_int float_lit real_float].
  fold e n lo hi. rewrite lit_100_1, lit_10_1, lit_8_1. unfold pow.
  destruct (Rlt_dec 0 lo); [|contradiction].
  destruct (Rlt_dec 0 hi); [|contradiction].
  reflexivity.
Qed.
Lemma static_ordered (env : Env) (e : R) :
  0 <= e → IS_MAINNET env = false → ordered (Spec.static_criteria env e).
Proof.
  intros He Hm. unfold ordered, Spec.static_criteria, NOISE_LOWER_LIMIT.
  rewrite Hm. simpl. rewrite lit_8_1, lit_9_1, lit_115_2, lit_105_2.
  repeat split; nra.
Qed.

Lemma static_ordered_mainnet (env : Env) (e : R) :
  0 <= e → IS_MAINNET env = true →
  ordered_mainnet_override (Spec.static_criteria env e).
Proof.
  intros He Hm.
  unfold ordered_mainnet_override, Spec.static_criteria, NOISE_LOWER_LIMIT.
  rewrite Hm. simpl. rewrite lit_98_2, lit_9_1, lit_115_2, lit_105_2.
  repeat split; nra.
Qed.

(** C3, as the script has it. The criteria of a calibrated test with a
    well-formed entry, and of a static override that is not negative in a
    flow outside the MAINNET family, satisfy
    [min_tps <= min_warn_tps <= expected_tps <= max_warn_tps <= max_tps].
    For a static override in MAINNET or MAINNET_LARGE_DB the two lower
    bounds are the other way round:
    [min_warn_tps <= min_tps <= expected_tps <= max_warn_tps <= max_tps]. *)
Theorem criteria_order (env : Env)
    (calibrated_expected_tps : gmap RunGroupKey.t (CalibrationData.t R))
    (test : RunGroupConfig.t R) (criteria : Criteria.t R) :
  compute_criteria env calibrated_expected_tps test = Ok criteria →
  (∀ e, RunGroupConfig.expected_tps test = Some e → 0 <= e) →
  (∀ entry, RunGroupConfig.expected_tps test = None →
     calibrated_expected_tps !! RunGroupConfig.key test = Some entry →
     well_formed entry) →
  match RunGroupConfig.expected_tps test with
  | Some _ =>
      if IS_MAINNET env then ordered_mainnet_override criteria
      else ordered criteria
  | None => ordered criteria
  end.
Proof.
  intros Hc Hover Hentry.
  destruct (RunGroupConfig.expected_tps test) as [e|] eqn:He.
  - rewrite (compute_criteria_override env _ test e He) in Hc.
    injection Hc as <-.
    specialize (Hover e eq_refl).
    destruct (IS_MAINNET env) eqn:Hm.
    + apply static_ordered_mainnet; assumption.
    + apply static_ordered; assumption.
  - unfold compute_criteria in Hc. rewrite He in Hc.
    destruct (calibrated_expected_tps !! RunGroupConfig.key test)
      as [entry|] eqn:Hl; [|discriminate].
    specialize (Hentry entry eq_refl eq_refl).
    assert (Hcount : CalibrationData.count entry ≠ 0%Z)
      by (destruct Hentry as (_ & Hcount & _); lia).
    pose proof (compute_criteria_calibrated env calibrated_expected_tps test
                  entry He Hl Hcount) as Heq.
    unfold compute_criteria in Heq. rewrite He, Hl in Heq.
    rewrite Heq in Hc. injection Hc as <-.
    apply calibrated_ordered. assumption.
Qed.

End Order.

(** ** Result extraction: one match, or the last match *)

Section ExtractionFacts.
Context {F : Type} `{PyFloat F}.

(** The pattern has exactly one match in the output, which reads as [v]. *)
Definition only_is (p : Re.pattern) (output : string) (v : F) : Prop :=
  ∃ s, Re.findall p output = [s] ∧ float_of_str s = Some v.

(** The pattern has at least one match in the output, the last of which
    reads as [v]. *)
Definition last_is (p : Re.pattern) (output : string) (v : F) : Prop :=
  ∃ l s, Re.findall p output = l ++ [s] ∧ float_of_str s = Some v.

(** The eight rates, looked up with [get_only]. *)
Definition rate_patterns (prefix : string) : list Re.pattern := [
  metric prefix " TPS: " false " txn/s";
  metric prefix " GPS: " false " gas/s";
  metric prefix " effectiveGPS: " false " gas/s";
  metric prefix " ioGPS: " false " gas/s";
  metric prefix " executionGPS: " false " gas/s";
  metric prefix " GPT: " false " gas/txn";
  metric prefix " Storage fee: " true " octas/txn";
  metric prefix " output: " false " bytes/s"
].

(** The three timing fractions, looked up with [[-1]]. *)
Definition fraction_patterns (prefix : string) : list Re.pattern := [
  metric prefix " fraction of total: " false " in execution";
  metric prefix " fraction of execution " false " in VM";
  metric prefix " fraction of total: " false " in commit"
].

(** What the extractor requires of the output, metric by metric. *)
Definition extracted (output prefix : string) (r : RunResults.t F) : Prop :=
  only_is (metric prefix " TPS: " false " txn/s") output (RunResults.tps r)
  ∧ only_is (metric prefix " GPS: " false " gas/s") output (RunResults.gps r)
  ∧ only_is (metric prefix " effectiveGPS: " false " gas/s") output
      (RunResults.effective_gps r)
  ∧ only_is (metric prefix " ioGPS: " false " gas/s") output
      (RunResults.io_gps r)
  ∧ only_is (metric prefix " executionGPS: " false " gas/s") output
      (RunResults.execution_gps r)
  ∧ only_is (metric prefix " GPT: " false " gas/txn") output
      (RunResults.gpt r)
  ∧ only_is (metric prefix " Storage fee: " true " octas/txn") output
      (RunResults.storage_fee_pt r)
  ∧ only_is (metric prefix " output: " false " bytes/s") output
      (RunResults.output_bps r)
  ∧ last_is (metric prefix " fraction of total: " false " in execution")
      output (RunResults.fraction_in_execution r)
  ∧ last_is (metric prefix " fraction of execution " false " in VM")
      output (RunResults.fraction_of_execution_in_vm r)
  ∧ last_is (metric prefix " fraction of total: " false " in commit")
      output (RunResults.fraction_in_commit r).

Lemma get_only_Ok {A} (values : list A) (v : A) :
  get_only values = Ok v ↔ values = [v].
Proof.
  destruct values as [|a [|b l]]; simpl; split; intros Hx;
    try discriminate; congruence.
Qed.

Lemma last_match_Ok {A} (values : list A) (v : A) :
  last_match values = Ok v ↔ ∃ l, values = l ++ [v].
Proof.
  unfold last_match, Str.index.
  induction values as [|a values _] using rev_ind.
  - simpl. split; [discriminate|].
    intros [l Hl]. destruct l; discriminate.
  - rewrite length_app. simpl.
    replace (-1 <? 0) with true by reflexivity.
    set (n := Z.of_nat (length values + 1)).
    assert (-1 + n = Z.of_nat (length values)) as Hj by (unfold n; lia).
    rewrite Hj.
    destruct (Z.ltb_spec (Z.of_nat (length values)) 0) as [Hneg|_]; [lia|].
    destruct (Z.leb_spec n (Z.of_nat (length values))) as [Hge|_];
      [unfold n in Hge; lia|].
    simpl. rewrite Nat2Z.id, list_lookup_middle by reflexivity. simpl.
    split.
    + intros [= <-]. exists values. reflexivity.
    + intros [l Hl]. apply app_inj_tail in Hl as [_ <-]. reflexivity.
Qed.

Lemma py_float_Ok (s : string) (v : F) :
  py_float s = Ok v ↔ float_of_str s = Some v.
Proof.
  unfold py_float. destruct (float_of_str s); simpl; split; intros Hx;
    try discriminate; congruence.
Qed.

Lemma only_float_Ok (p : Re.pattern) (output : string) (v : F) :
  only_float p output = Ok v ↔ only_is p output v.
Proof.
  unfold only_float, only_is, mbind, result_bind, Py.bind.
  destruct (get_only (Re.findall p output)) as [s|e] eqn:Hg.
  - apply get_only_Ok in Hg. rewrite py_float_Ok. split.
    + intros Hs. exists s. split; assumption.
    + intros (s' & Hfind & Hs). congruence.
  - split; [discriminate|]. intros (s & Hfind & _).
    apply get_only_Ok in Hfind. congruence.
Qed.

Lemma last_float_Ok (p : Re.pattern) (output : string) (v : F) :
  last_float p output = Ok v ↔ last_is p output v.
Proof.
  unfold last_float, last_is, mbind, result_bind, Py.bind.
  destruct (last_match (Re.findall p output)) as [s|e] eqn:Hg.
  - apply last_match_Ok in Hg as [l Hl]. rewrite py_float_Ok. split.
    + intros Hs. exists l, s. split; assumption.
    + intros (l' & s' & Hfind & Hs). rewrite Hl in Hfind.
      apply app_inj_tail in Hfind as [_ ->]. assumption.
  - split; [discriminate|]. intros (l & s & Hfind & _).
    assert (last_match (Re.findall p output) = Ok s) as Hok
      by (apply last_match_Ok; exists l; assumption).
    congruence.
Qed.

(** The extractor succeeds exactly on the outputs with one match for each
    rate and at least one match for each fraction. *)
Lemma extract_run_results_Ok (output prefix : string) (r : RunResults.t F) :
  extract_run_results output prefix false = Ok r ↔ extracted output prefix r.
Proof.
  unfold extract_run_results, extracted, mbind, result_bind, Py.bind, mret,
    result_ret.
  rewrite <- !only_float_Ok, <- !last_float_Ok.
  repeat match goal with
         | |- context [match ?m with Ok _ => _ | Raise _ => _ end] =>
             destruct m
         end;
    try (split; [discriminate | intros Hx; decompose [and] Hx; discriminate]).
  split.
  - intros [= <-]. simpl. repeat split; reflexivity.
  - intros Hx. decompose [and] Hx. destruct r; simpl in *. congruence.
Qed.

Lemma only_is_length (p : Re.pattern) (output : string) (v : F) :
  only_is p output v → length (Re.findall p output) = 1%nat.
Proof. intros (s & -> & _). reflexivity. Qed.

Lemma last_is_nonempty (p : Re.pattern) (output : string) (v : F) :
  last_is p output v → Re.findall p output ≠ [].
Proof. intros (l & s & -> & _). destruct l; discriminate. Qed.

(** C7, as the script has it. The extractor returns a result exactly when
    each of the eight rates has one matching line and each of the three
    timing fractions has at least one, of which the last is taken. Zero or
    several matches of a rate, and no match of a fraction, end the
    extraction with an exception. *)
Theorem extraction_one_match_or_last (output prefix : string) :
  (∀ r, extract_run_results output prefix false = Ok r
        ↔ extracted output prefix r)
  ∧ (∀ p, p ∈ rate_patterns prefix →
          length (Re.findall p output) ≠ 1%nat →
          ∃ e, extract_run_results (F:=F) output prefix false = Raise e)
  ∧ (∀ p, p ∈ fraction_patterns prefix →
          Re.findall p output = [] →
          ∃ e, extract_run_results (F:=F) output prefix false = Raise e).
Proof.
  split; [intros r; apply extract_run_results_Ok|].
  split; intros p Hp Hbad.
  all: destruct (extract_run_results output prefix false) as [r|e] eqn:Hr;
    [exfalso|exists e; reflexivity].
  all: apply extract_run_results_Ok in Hr; unfold extracted in Hr.
  all: decompose [and] Hr; clear Hr.
  all: unfold rate_patterns, fraction_patterns in Hp.
  all: repeat match goal with
              | Hin : _ ∈ _ :: _ |- _ =>
                  apply elem_of_cons in Hin as [->|Hin]
              | Hin : _ ∈ [] |- _ =>
                  apply elem_of_nil in Hin; contradiction
              end.
  all: first [ apply Hbad; eapply only_is_length; eassumption
             | match goal with
               | Hl : last_is _ _ _ |- _ =>
                   apply last_is_nonempty in Hl; contradiction
               end ].
Qed.

(** With [create_db] the one throughput line of the warm-up is looked up
    with [get_only]; the other fields are zero. *)
Lemma extract_run_results_create_db (output prefix : string)
    (r : RunResults.t F) :
  extract_run_results output prefix true = Ok r
  ↔ ∃ tps,
      only_is (metric "Overall TPS: create_db: account creation: " ""
                 false " txn/s") output tps
      ∧ r = let zero := float_of_int 0 in
            RunResults.mk tps zero zero zero zero zero zero zero zero zero
                          zero.
Proof.
  unfold extract_run_results, mbind, result_bind, Py.bind, mret, result_ret.
  split.
  - destruct (only_float _ output) as [tps|e] eqn:Ho; [|discriminate].
    intros [= <-]. exists tps. split; [|reflexivity].
    apply only_float_Ok. assumption.
  - intros (tps & Ho & ->). apply only_float_Ok in Ho. rewrite Ho.
    reflexivity.
Qed.

End ExtractionFacts.

(** ** Parsing the calibration table *)

Section CalibrationFacts.
Context {F : Type} `{PyFloat F}.

(** The fields of a line, for the lines that have one. *)
Definition row_of_line (line : string) : option (list string) :=
  let parts := row_parts line in
  if (1 <=? length parts)%nat then Some parts else None.

Definition insert_row (m : gmap RunGroupKey.t (CalibrationData.t F))
    (kv : RunGroupKey.t * CalibrationData.t F)
  : gmap RunGroupKey.t (CalibrationData.t F) :=
  <[kv.1 := kv.2]> m.

(** Each row of the text parses to the row of [rows] at its place. *)
Definition rows_of (lines : list string)
    (rows : list (RunGroupKey.t * CalibrationData.t F)) : Prop :=
  Forall2 (fun parts kv => parse_row parts = Ok kv)
          (omap row_of_line lines) rows.

Lemma parse_lines_cons (line : string) (lines : list string)
    (acc : gmap RunGroupKey.t (CalibrationData.t F)) :
  parse_lines (line :: lines) acc
  = if (1 <=? length (row_parts line))%nat
    then '(k, v) ← parse_row (row_parts line);
         parse_lines lines (<[k := v]> acc)
    else parse_lines lines acc.
Proof. reflexivity. Qed.

Lemma parse_lines_Ok (lines : list string)
    (acc tbl : gmap RunGroupKey.t (CalibrationData.t F)) :
  parse_lines lines acc = Ok tbl
  ↔ ∃ rows, rows_of lines rows ∧ tbl = foldl insert_row acc rows.
Proof.
  unfold rows_of. revert acc.
  induction lines as [|line lines IH]; intros acc.
  - simpl. split.
    + intros [= <-]. exists []. split; [constructor|reflexivity].
    + intros (rows & Hrows & ->). inversion Hrows. reflexivity.
  - rewrite parse_lines_cons.
    change (omap row_of_line (line :: lines))
      with (match row_of_line line with
            | Some parts => parts :: omap row_of_line lines
            | None => omap row_of_line lines
            end).
    unfold row_of_line at 1.
    destruct (1 <=? length (row_parts line))%nat.
    + unfold mbind, result_bind, Py.bind.
      destruct (parse_row (row_parts line)) as [[k v]|e] eqn:Hrow.
      * simpl. rewrite IH. split.
        -- intros (rows & Hrows & ->). exists ((k, v) :: rows).
           split; [constructor; assumption|reflexivity].
        -- intros (rows & Hrows & ->). inversion Hrows as [|? kv ? rows' Hkv Hrest];
             subst. rewrite Hrow in Hkv. injection Hkv as <-.
           exists rows'. split; [assumption|reflexivity].
      * split; [discriminate|].
        intros (rows & Hrows & _). inversion Hrows as [|? kv ? rows' Hkv Hrest].
        congruence.
    + apply IH.
Qed.

Lemma foldl_insert_row_other
    (rows : list (RunGroupKey.t * CalibrationData.t F))
    (acc : gmap RunGroupKey.t (CalibrationData.t F)) (k : RunGroupKey.t) :
  k ∉ rows.*1 → foldl insert_row acc rows !! k = acc !! k.
Proof.
  revert acc. induction rows as [|[k' v'] rows IH]; intros acc Hk; simpl.
  - reflexivity.
  - simpl in Hk. apply not_elem_of_cons in Hk as [Hne Hk].
    rewrite IH by assumption. unfold insert_row. simpl.
    apply lookup_insert_ne. congruence.
Qed.

Lemma foldl_insert_row_last
    (before after : list (RunGroupKey.t * CalibrationData.t F))
    (acc : gmap RunGroupKey.t (CalibrationData.t F))
    (k : RunGroupKey.t) (v : CalibrationData.t F) :
  k ∉ after.*1 →
  foldl insert_row acc (before ++ (k, v) :: after) !! k = Some v.
Proof.
  intros Hk. rewrite foldl_app. simpl.
  rewrite foldl_insert_row_other by assumption.
  unfold insert_row. simpl. apply lookup_insert_eq.
Qed.

(** A row of seven fields is accepted as soon as its numbers read; the
    ratios are not compared with one. *)
Lemma parse_row_seven (t w x c lo hi e : string) (mws n : Z) (a b v : F) :
  Builtins.int_of_str w = Some mws →
  Builtins.int_of_str c = Some n →
  float_of_str lo = Some a →
  float_of_str hi = Some b →
  float_of_str e = Some v →
  parse_row [t; w; x; c; lo; hi; e]
  = Ok (RunGroupKey.mk t mws x, CalibrationData.mk v n a b).
Proof.
  intros Hw Hc Hlo Hhi He. unfold parse_row, py_int, py_float. simpl.
  rewrite Hw. simpl. rewrite He. simpl. rewrite Hc. simpl.
  rewrite Hlo. simpl. rewrite Hhi. reflexivity.
Qed.

(** C10. When every row of the calibration text reads on its own, the text
    parses, rows with the same key included; the table maps a key to the
    statistics of the last row that has it; and a row is read whatever its
    ratios are. *)
Theorem duplicate_rows_last_wins (CALIBRATION : string)
    (rows : list (RunGroupKey.t * CalibrationData.t F)) :
  rows_of (Str.split "010" CALIBRATION) rows →
  (∃ tbl, parse_calibration CALIBRATION = Ok tbl
          ∧ ∀ before k v after,
              rows = before ++ (k, v) :: after →
              k ∉ after.*1 →
              tbl !! k = Some v)
  ∧ (∀ (t w x c lo hi e : string) (mws n : Z) (a b v : F),
       Builtins.int_of_str w = Some mws →
       Builtins.int_of_str c = Some n →
       float_of_str lo = Some a →
       float_of_str hi = Some b →
       float_of_str e = Some v →
       parse_row [t; w; x; c; lo; hi; e]
       = Ok (RunGroupKey.mk t mws x, CalibrationData.mk v n a b)).
Proof.
  intros Hrows. split; [|apply parse_row_seven].
  exists (foldl insert_row ∅ rows). split.
  - unfold parse_calibration. apply parse_lines_Ok.
    exists rows. split; [assumption|reflexivity].
  - intros before k v after -> Hk. apply foldl_insert_row_last. assumption.
Qed.

End CalibrationFacts.

(** ** The loop over the stages ends

    Two different stage prefixes never start at the same place of the
    output: the prefix of stage [i] is the fixed text, the digits of [i] and
    a colon. The stages found are therefore no more than the places of the
    output, and the fuel of [stage_node_results] is never used up. *)

Module StrFacts.

Fixpoint drop (n : nat) (s : string) : string :=
  match n, s with
  | S k, String _ r => drop k r
  | _, _ => s
  end.

Fixpoint colon_free (s : string) : bool :=
  match s with
  | EmptyString => true
  | String c r => negb (Ascii.eqb c ":") && colon_free r
  end.

Lemma strip_prefix_app (a b s : string) :
  Str.strip_prefix (a +:+ b) s
  = Str.strip_prefix a s ≫= Str.strip_prefix b.
Proof.
  revert s. induction a as [|c a IH]; intros s.
  - reflexivity.
  - change (String c a +:+ b) with (String c (a +:+ b)).
    destruct s as [|d s]; simpl; [reflexivity|].
    destruct (Ascii.eqb c d); [apply IH|reflexivity].
Qed.

Lemma find_Some (needle s : string) (p : nat) :
  Str.find needle s = Some p →
  (p ≤ String.length s)%nat ∧ Str.startswith (drop p s) needle = true.
Proof.
  revert p. induction s as [|c s IH]; intros p; simpl.
  - destruct (Str.startswith EmptyString needle) eqn:Hs; [|discriminate].
    intros [= <-]. split; [lia|]. assumption.
  - destruct (Str.startswith (String c s) needle) eqn:Hs.
    + intros [= <-]. split; [lia|]. assumption.
    + destruct (Str.find needle s) as [q|] eqn:Hf; [|discriminate].
      intros [= <-]. destruct (IH q eq_refl) as [Hle Hst].
      split; [lia|]. assumption.
Qed.

(** Two colon-free texts, each followed by a colon, that start the same
    string are the same text. *)
Lemma app_nil (s : string) : EmptyString +:+ s = s.
Proof. reflexivity. Qed.

Lemma app_cons (c : ascii) (a s : string) :
  String c a +:+ s = String c (a +:+ s).
Proof. reflexivity. Qed.

Lemma strip_prefix_cons (c x : ascii) (p t : string) :
  Str.strip_prefix (String c p) (String x t)
  = if Ascii.eqb c x then Str.strip_prefix p t else None.
Proof. reflexivity. Qed.

Lemma colon_free_cons (c : ascii) (s : string) :
  colon_free (String c s) = negb (Ascii.eqb c ":") && colon_free s.
Proof. reflexivity. Qed.

Ltac str_norm H :=
  repeat first [ rewrite app_nil in H | rewrite app_cons in H
               | rewrite strip_prefix_cons in H
               | rewrite colon_free_cons in H ].

Lemma colon_terminated_inj (a b t : string) :
  colon_free a = true → colon_free b = true →
  is_Some (Str.strip_prefix (a +:+ ":") t) →
  is_Some (Str.strip_prefix (b +:+ ":") t) →
  a = b.
Proof.
  revert b t. induction a as [|c a IH]; intros [|d b] [|x t] Ha Hb;
    intros [u Hu] [w Hw]; try discriminate; try reflexivity;
    str_norm Hu; str_norm Hw; str_norm Ha; str_norm Hb.
  - (* a is empty: its colon is the first character of b *)
    destruct (Ascii.eqb_spec ":" x) as [<-|]; [|discriminate].
    destruct (Ascii.eqb_spec d ":") as [->|]; [simpl in Hb|]; discriminate.
  - destruct (Ascii.eqb_spec ":" x) as [<-|]; [|discriminate].
    destruct (Ascii.eqb_spec c ":") as [->|]; [simpl in Ha|]; discriminate.
  - destruct (Ascii.eqb_spec c x) as [->|]; [|discriminate].
    destruct (Ascii.eqb_spec d x) as [->|]; [|discriminate].
    apply andb_true_iff in Ha as [_ Ha]. apply andb_true_iff in Hb as [_ Hb].
    f_equal. apply (IH b t Ha Hb); eexists; eassumption.
Qed.

Lemma pretty_N_char_colon_free (x : N) :
  Ascii.eqb (pretty_N_char x) ":" = false.
Proof. unfold pretty_N_char. repeat case_match; reflexivity. Qed.

Lemma pretty_N_go_colon_free (x : N) (s : string) :
  colon_free s = true → colon_free (pretty_N_go x s) = true.
Proof.
  revert s. induction (N.lt_wf_0 x) as [x _ IH]; intros s Hs.
  assert (x = 0 ∨ 0 < x)%N as [->|Hpos] by lia.
  - rewrite pretty_N_go_0. assumption.
  - rewrite pretty_N_go_step by assumption.
    apply IH; [apply N.div_lt; lia|].
    simpl. rewrite pretty_N_char_colon_free. assumption.
Qed.

Lemma str_of_nat_colon_free (i : nat) :
  colon_free (Builtins.str_of_nat i) = true.
Proof.
  unfold Builtins.str_of_nat, pretty, pretty_nat, pretty, pretty_N.
  case_decide; [reflexivity|].
  apply pretty_N_go_colon_free. reflexivity.
Qed.

End StrFacts.

Section StageLoopFacts.
Context {F : Type} `{PyFloat F}.

(** The place of the first occurrence of the prefix of a stage. *)
Definition stage_place (output : string) (i : nat) : nat :=
  default 0%nat (Str.find (stage_prefix i) output).

Lemma stage_place_inj (output : string) (i j : nat) :
  Str.contains (stage_prefix i) output = true →
  Str.contains (stage_prefix j) output = true →
  stage_place output i = stage_place output j →
  i = j.
Proof.
  unfold Str.contains, stage_place.
  destruct (Str.find (stage_prefix i) output) as [p|] eqn:Hi; [|discriminate].
  destruct (Str.find (stage_prefix j) output) as [q|] eqn:Hj; [|discriminate].
  intros _ _. simpl. intros <-.
  apply StrFacts.find_Some in Hi as [_ Hi].
  apply StrFacts.find_Some in Hj as [_ Hj].
  unfold Str.startswith, stage_prefix in Hi, Hj.
  rewrite StrFacts.strip_prefix_app in Hi, Hj.
  destruct (Str.strip_prefix "Staged execution: stage "
              (StrFacts.drop p output)) as [t|]; [|discriminate].
  cbn [mbind option_bind] in Hi, Hj.
  assert (is_Some (Str.strip_prefix (Builtins.str_of_nat i +:+ ":") t))
    as Hsi by (destruct (Str.strip_prefix (Builtins.str_of_nat i +:+ ":") t);
               [eexists; reflexivity|discriminate]).
  assert (is_Some (Str.strip_prefix (Builtins.str_of_nat j +:+ ":") t))
    as Hsj by (destruct (Str.strip_prefix (Builtins.str_of_nat j +:+ ":") t);
               [eexists; reflexivity|discriminate]).
  apply (inj Builtins.str_of_nat).
  apply (StrFacts.colon_terminated_inj _ _ t);
    auto using StrFacts.str_of_nat_colon_free.
Qed.

Lemma stage_place_bound (output : string) (i : nat) :
  (stage_place output i ≤ String.length output)%nat.
Proof.
  unfold stage_place.
  destruct (Str.find (stage_prefix i) output) as [p|] eqn:Hi; simpl; [|lia].
  apply StrFacts.find_Some in Hi as [Hle _]. assumption.
Qed.

(** No more stages than places. *)
Lemma stages_bounded (output : string) (n : nat) :
  (∀ j, (j < n)%nat → Str.contains (stage_prefix j) output = true) →
  (n ≤ S (String.length output))%nat.
Proof.
  intros Hall.
  assert (NoDup (stage_place output <$> seq 0 n)) as Hnd.
  { apply NoDup_fmap_2_strong; [|apply NoDup_seq].
    intros i j Hi%elem_of_seq Hj%elem_of_seq Heq.
    apply (stage_place_inj output); [apply Hall; lia..|assumption]. }
  assert (stage_place output <$> seq 0 n ⊆+ seq 0 (S (String.length output)))
    as Hsub.
  { apply NoDup_submseteq; [assumption|].
    intros p (j & -> & _)%list_elem_of_fmap. apply elem_of_seq.
    pose proof (stage_place_bound output j). lia. }
  apply submseteq_length in Hsub.
  rewrite length_fmap, !length_seq in Hsub. assumption.
Qed.

(** Fuel beyond the first stage that is absent changes nothing. *)
Lemma stage_loop_more (output : string) (fuel k i : nat) :
  (∃ j, (j < fuel)%nat ∧ Str.contains (stage_prefix (i + j)) output = false) →
  stage_loop (F:=F) (fuel + k) output i = stage_loop fuel output i.
Proof.
  revert i. induction fuel as [|fuel IH]; intros i (j & Hj & Hout); [lia|].
  simpl. destruct (Str.contains (stage_prefix i) output) eqn:Hi;
    [|reflexivity].
  destruct j as [|j].
  { rewrite Nat.add_0_r in Hout. congruence. }
  rewrite IH; [reflexivity|].
  exists j. split; [lia|]. rewrite <- Hout. f_equal. f_equal. lia.
Qed.

Lemma stages_all_or_gap (output : string) (n : nat) :
  (∀ j, (j < n)%nat → Str.contains (stage_prefix j) output = true)
  ∨ (∃ j, (j < n)%nat ∧ Str.contains (stage_prefix j) output = false).
Proof.
  induction n as [|n [Hall|(j & Hj & Hgap)]].
  - left. intros j Hj. lia.
  - destruct (Str.contains (stage_prefix n) output) eqn:Hn.
    + left. intros j Hj. destruct (decide (j = n)) as [->|Hne];
        [assumption|apply Hall; lia].
    + right. exists n. split; [lia|assumption].
  - right. exists j. split; [lia|assumption].
Qed.

(** The fuel of [stage_node_results] is enough: more fuel gives the same
    list of stages. *)
Lemma stage_loop_fuel (output : string) (k : nat) :
  stage_loop (F:=F) (2 + String.length output + k) output 0
  = stage_node_results output.
Proof.
  unfold stage_node_results. apply stage_loop_more.
  destruct (stages_all_or_gap output (2 + String.length output))
    as [Hall|Hex]; [|exact Hex].
  apply stages_bounded in Hall. lia.
Qed.

End StageLoopFacts.

(** ** The stages found in an output *)

Section StageFacts.
Context {F : Type} `{PyFloat F}.

(** The stages of a list are numbered from [i] on, each with the result
    extracted under its own prefix, and the stage after the last one is not
    in the output. *)
Definition stages_from (output : string) (i : nat)
    (stages : list (nat * RunResults.t F)) : Prop :=
  stages.*1 = seq i (length stages)
  ∧ Forall (fun s => Str.contains (stage_prefix s.1) output = true
                     ∧ extract_run_results output (stage_prefix s.1) false
                       = Ok s.2) stages
  ∧ Str.contains (stage_prefix (i + length stages)) output = false.

Lemma stage_loop_S (output : string) (fuel i : nat) :
  stage_loop (F:=F) (S fuel) output i
  = if Str.contains (stage_prefix i) output then
      r ← extract_run_results output (stage_prefix i) false;
      rest ← stage_loop fuel output (S i);
      mret ((i, r) :: rest)
    else Ok [].
Proof. reflexivity. Qed.

Lemma stage_loop_Ok (output : string) (fuel i : nat)
    (stages : list (nat * RunResults.t F)) :
  (∃ j, (j < fuel)%nat ∧ Str.contains (stage_prefix (i + j)) output = false) →
  stage_loop fuel output i = Ok stages →
  stages_from output i stages.
Proof.
  unfold stages_from.
  revert i stages. induction fuel as [|fuel IH];
    intros i stages (j & Hj & Hgap); [lia|].
  rewrite stage_loop_S.
  destruct (Str.contains (stage_prefix i) output) eqn:Hi.
  - unfold mbind, result_bind, Py.bind, mret, result_ret.
    destruct (extract_run_results output (stage_prefix i) false)
      as [r|e] eqn:Hr; [|intros [=]].
    destruct (stage_loop fuel output (S i)) as [rest|e] eqn:Hrest;
      [|intros [=]].
    intros [= <-].
    destruct j as [|j]; [rewrite Nat.add_0_r in Hgap; congruence|].
    destruct (IH (S i) rest) as (Hnum & Hall & Hend); [|assumption|].
    { exists j. split; [lia|]. rewrite <- Hgap. do 2 f_equal. lia. }
    simpl. repeat split.
    + f_equal. assumption.
    + constructor; [split; assumption|assumption].
    + rewrite <- Hend. do 2 f_equal. lia.
  - intros [= <-]. simpl. rewrite Nat.add_0_r.
    repeat split; [constructor|assumption].
Qed.

Lemma stage_node_results_Ok (output : string)
    (stages : list (nat * RunResults.t F)) :
  stage_node_results output = Ok stages → stages_from output 0 stages.
Proof.
  unfold stage_node_results. apply stage_loop_Ok.
  destruct (stages_all_or_gap output (2 + String.length output))
    as [Hall|Hex]; [|exact Hex].
  apply stages_bounded in Hall. lia.
Qed.

End StageFacts.

(** ** The script, statement by statement *)

Section ScriptFacts.
Context (env : Env) (world : World) {F : Type} `{PyFloat F}.

Lemma bind_run {A B} (m : M F A) (k : A → M F B) (st : State F) :
  (m ≫= k) st
  = match m st with
    | (Ok a, st') => k a st'
    | (Raise e, st') => (Raise e, st')
    end.
Proof. reflexivity. Qed.

Lemma lift_bind_run {A B} (r : result A) (k : A → M F B) (st : State F) :
  (lift r ≫= k) st
  = match r with
    | Ok a => k a st
    | Raise e => (Raise e, st)
    end.
Proof. rewrite bind_run. unfold lift. destruct r; reflexivity. Qed.

(** The state after the rows of the stages have been appended. *)
Definition stage_rows (test : RunGroupConfig.t F) (criteria : Criteria.t F)
    (number_of_threads_results : gmap Z (RunResults.t F))
    (cur_block_size : Z) (stages : list (nat * RunResults.t F))
  : list (RunGroupInstance.t F) :=
  (fun s => RunGroupInstance.mk (stage_key (RunGroupConfig.key test) s.1) s.2
              number_of_threads_results cur_block_size
              (Criteria.expected_tps criteria)) <$> stages.

Lemma append_stage_results_run (test : RunGroupConfig.t F)
    (criteria : Criteria.t F) (ntr : gmap Z (RunResults.t F)) (b : Z)
    (stages : list (nat * RunResults.t F)) (st : State F) :
  append_stage_results test criteria ntr b stages st
  = (Ok tt,
     Build_State (launched st)
       (results st ++ stage_rows test criteria ntr b stages)
       (warnings st) (errors st)).
Proof.
  revert st. induction stages as [|[i r] stages IH]; intros st.
  - simpl. unfold stage_rows. simpl. rewrite app_nil_r.
    destruct st; reflexivity.
  - simpl. rewrite bind_run. unfold results_append at 1.
    rewrite IH. simpl. unfold stage_rows. simpl.
    rewrite <- app_assoc. reflexivity.
Qed.

Lemma detailed_runs_cons (test : RunGroupConfig.t F) (ex : string) (b : Z)
    (t : Z) (threads : list Z) (ntr : gmap Z (RunResults.t F)) :
  detailed_runs env world test ex b (t :: threads) ntr
  = (output ← execute_command world
       (test_db_command env test ex b t true NUM_BLOCKS_DETAILED);
     r ← lift (extract_run_results output "Overall execution" false);
     detailed_runs env world test ex b threads (<[t := r]> ntr)).
Proof. reflexivity. Qed.

(** The detailed runs launch commands and touch neither the table of
    results nor the warnings and errors. *)
Lemma detailed_runs_frame (test : RunGroupConfig.t F) (ex : string) (b : Z)
    (threads : list Z) (ntr : gmap Z (RunResults.t F)) (st st' : State F)
    (out : result (gmap Z (RunResults.t F))) :
  detailed_runs env world test ex b threads ntr st = (out, st') →
  results st' = results st
  ∧ warnings st' = warnings st
  ∧ errors st' = errors st.
Proof.
  revert ntr st. induction threads as [|t threads IH]; intros ntr st.
  - intros [= <- <-]. repeat split.
  - rewrite detailed_runs_cons, bind_run.
    unfold execute_command at 1.
    destruct (command_result _) as [output|e];
      [|intros [= <- <-]; repeat split].
    rewrite lift_bind_run.
    destruct (extract_run_results output "Overall execution" false)
      as [r|e]; [|intros [= <- <-]; repeat split].
    intros Hrun. apply IH in Hrun. exact Hrun.
Qed.

(** The body of the loop for a test whose steps all succeed: the row of the
    overall result and one row per stage are appended, and the overall
    result alone is classified. *)
Lemma run_test_success
    (tbl : gmap RunGroupKey.t (CalibrationData.t F))
    (test : RunGroupConfig.t F) (st st1 : State F)
    (criteria : Criteria.t F) (b : Z) (ex : string)
    (ntr : gmap Z (RunResults.t F)) (output : string)
    (r : RunResults.t F) (stages : list (nat * RunResults.t F)) :
  compute_criteria env tbl test = Ok criteria →
  cur_block_size_of env criteria = Ok b →
  executor_type_str_of env test = Ok ex →
  detailed_runs env world test ex b (EXECUTION_ONLY_NUMBER_OF_THREADS env)
    ∅ st = (Ok ntr, st1) →
  command_result
    (world (length (launched st1))
       (test_db_command env test ex b (NUMBER_OF_EXECUTION_THREADS env)
          false (NUM_BLOCKS env))) = Ok output →
  extract_run_results output "Overall" false = Ok r →
  stage_node_results output = Ok stages →
  run_test env world tbl test st
  = classify env test criteria r
      (Build_State
         (launched st1
          ++ [test_db_command env test ex b (NUMBER_OF_EXECUTION_THREADS env)
                false (NUM_BLOCKS env)])
         (results st1
          ++ RunGroupInstance.mk (RunGroupConfig.key test) r ntr b
               (Criteria.expected_tps criteria)
             :: stage_rows test criteria ntr b stages)
         (warnings st1) (errors st1)).
Proof.
  intros Hc Hb Hex Hd Hcmd Hr Hs. unfold run_test.
  rewrite lift_bind_run, Hc, lift_bind_run, Hb, lift_bind_run, Hex.
  rewrite bind_run, Hd, bind_run. unfold execute_command at 1.
  rewrite Hcmd. cbv beta iota.
  rewrite lift_bind_run, Hr, lift_bind_run, Hs.
  rewrite bind_run. unfold results_append at 1. cbv beta iota.
  rewrite bind_run, append_stage_results_run. cbv beta iota.
  cbn [launched results warnings errors].
  rewrite <- app_assoc. reflexivity.
Qed.

(** A selected test with neither override nor calibration entry: the
    assertion fails before anything is launched or recorded for it. *)
Lemma run_test_unconfigured
    (tbl : gmap RunGroupKey.t (CalibrationData.t F))
    (test : RunGroupConfig.t F) (st : State F) :
  RunGroupConfig.expected_tps test = None →
  tbl !! RunGroupConfig.key test = None →
  run_test env world tbl test st = (Raise AssertionError, st).
Proof.
  intros Hnone Hkey. unfold run_test, compute_criteria.
  rewrite Hnone, Hkey, lift_bind_run. reflexivity.
Qed.

Lemma run_tests_app
    (tbl : gmap RunGroupKey.t (CalibrationData.t F))
    (before rest : list (RunGroupConfig.t F)) (st : State F) :
  run_tests env world tbl (before ++ rest) st
  = match run_tests env world tbl before st with
    | (Ok _, st') => run_tests env world tbl rest st'
    | (Raise e, st') => (Raise e, st')
    end.
Proof.
  revert st. induction before as [|t before IH]; intros st.
  - reflexivity.
  - change ((t :: before) ++ rest) with (t :: (before ++ rest)).
    rewrite !run_tests_cons.
    destruct (selected env t); [|apply IH].
    destruct (run_test env world tbl t st) as [[[]|e] st'];
      [apply IH|reflexivity].
Qed.

(** C6, as the script has it. For a test whose steps succeed, the stages
    found in the output are the stages 0, 1, ... up to the first one whose
    prefix is absent, each with the result extracted under its own prefix;
    each is recorded as a row of the table of results under the key of the
    test with the stage number added to the transaction type, with the
    expected tps and block size of the test. The rows are not classified:
    the warnings and errors of the test are the report of the tier of the
    overall result alone. *)
Theorem stage_results_recorded_not_classified
    (tbl : gmap RunGroupKey.t (CalibrationData.t F))
    (test : RunGroupConfig.t F) (st st1 : State F)
    (criteria : Criteria.t F) (b : Z) (ex : string)
    (ntr : gmap Z (RunResults.t F)) (output : string)
    (r : RunResults.t F) (stages : list (nat * RunResults.t F)) :
  compute_criteria env tbl test = Ok criteria →
  cur_block_size_of env criteria = Ok b →
  executor_type_str_of env test = Ok ex →
  detailed_runs env world test ex b (EXECUTION_ONLY_NUMBER_OF_THREADS env)
    ∅ st = (Ok ntr, st1) →
  command_result
    (world (length (launched st1))
       (test_db_command env test ex b (NUMBER_OF_EXECUTION_THREADS env)
          false (NUM_BLOCKS env))) = Ok output →
  extract_run_results output "Overall" false = Ok r →
  stage_node_results output = Ok stages →
  stages_from output 0 stages
  ∧ run_test env world tbl test st
    = (Ok tt,
       Spec.record (RunGroupConfig.key test) criteria (RunResults.tps r)
         (Spec.report (RunGroupConfig.waived test) criteria
            (Spec.tier (SKIP_PERF_IMPROVEMENT_NOTICE env) criteria
               (RunResults.tps r)))
         (Build_State
            (launched st1
             ++ [test_db_command env test ex b
                   (NUMBER_OF_EXECUTION_THREADS env) false (NUM_BLOCKS env)])
            (results st
             ++ RunGroupInstance.mk (RunGroupConfig.key test) r ntr b
                  (Criteria.expected_tps criteria)
                :: ((fun s =>
                       RunGroupInstance.mk
                         (stage_key (RunGroupConfig.key test) s.1) s.2 ntr b
                         (Criteria.expected_tps criteria)) <$> stages))
            (warnings st) (errors st))).
Proof.
  intros Hc Hb Hex Hd Hcmd Hr Hs.
  split; [apply stage_node_results_Ok; exact Hs|].
  rewrite (run_test_success tbl test st st1 criteria b ex ntr output r stages)
    by assumption.
  rewrite classify_run.
  apply detailed_runs_frame in Hd as (-> & -> & ->). reflexivity.
Qed.

End ScriptFacts.

(** ** Every exception of the script ends it with status 1

    The script calls [exit] with 1 only, and an uncaught exception gives the
    interpreter the status 1. *)

Section ExitStatus.
Context (env : Env) (world : World) {F : Type} `{PyFloat F}.

Definition raises_fatal {A} (r : result A) : Prop :=
  ∀ e, r = Raise e → status_of e = 1.

Definition runs_fatal {A} (m : M F A) : Prop :=
  ∀ st e st', m st = (Raise e, st') → status_of e = 1.

Lemma raises_fatal_Ok {A} (a : A) : raises_fatal (Ok a).
Proof. intros e [=]. Qed.

Lemma raises_fatal_mret {A} (a : A) : raises_fatal (mret a).
Proof. intros e [=]. Qed.

Lemma raises_fatal_Raise {A} (e : PyError) :
  status_of e = 1 → raises_fatal (Raise (A:=A) e).
Proof. intros He e' [= <-]. assumption. Qed.

Lemma raises_fatal_bind {A B} (r : result A) (k : A → result B) :
  raises_fatal r → (∀ a, raises_fatal (k a)) → raises_fatal (r ≫= k).
Proof.
  intros Hr Hk e. destruct r as [a|e']; simpl.
  - apply Hk.
  - intros [= <-]. apply Hr. reflexivity.
Qed.

Lemma raises_fatal_of_option {A} (e : PyError) (o : option A) :
  status_of e = 1 → raises_fatal (of_option e o).
Proof. intros He. destruct o; [apply raises_fatal_Ok|]. intros e' [= <-]. exact He. Qed.

Lemma raises_fatal_index {A} (l : list A) (i : Z) :
  raises_fatal (Str.index l i).
Proof.
  unfold Str.index. destruct (_ || _).
  - apply raises_fatal_Raise. reflexivity.
  - apply raises_fatal_of_option. reflexivity.
Qed.

Lemma raises_fatal_py_int (s : string) : raises_fatal (py_int s).
Proof. apply raises_fatal_of_option. reflexivity. Qed.

Lemma raises_fatal_py_float (s : string) : raises_fatal (py_float (F:=F) s).
Proof. apply raises_fatal_of_option. reflexivity. Qed.

Create HintDb fatal.
#[local] Hint Resolve raises_fatal_Ok raises_fatal_mret raises_fatal_index
  raises_fatal_py_int raises_fatal_py_float : fatal.

(** Peel the binds of a computation off, closing each step with the hints. *)
Ltac fatal_steps :=
  repeat first
    [ progress cbv zeta
    | solve [auto with fatal]
    | apply raises_fatal_bind; [|intros ?]
    | apply raises_fatal_Raise; reflexivity
    | apply raises_fatal_of_option; reflexivity ].

Lemma raises_fatal_parse_row (parts : list string) :
  raises_fatal (parse_row (F:=F) parts).
Proof. unfold parse_row. fatal_steps. Qed.

Lemma raises_fatal_parse_lines (lines : list string)
    (acc : gmap RunGroupKey.t (CalibrationData.t F)) :
  raises_fatal (parse_lines lines acc).
Proof.
  revert acc. induction lines as [|line lines IH]; intros acc.
  - apply raises_fatal_Ok.
  - rewrite parse_lines_cons.
    destruct (1 <=? length (row_parts line))%nat; [|apply IH].
    apply raises_fatal_bind; [apply raises_fatal_parse_row|].
    intros [k v]. apply IH.
Qed.

Lemma raises_fatal_fdiv_int (x : F) (n : Z) : raises_fatal (fdiv_int x n).
Proof. unfold fdiv_int. destruct (n =? 0); fatal_steps. Qed.

#[local] Hint Resolve raises_fatal_parse_row raises_fatal_parse_lines
  raises_fatal_fdiv_int : fatal.

Lemma raises_fatal_compute_criteria
    (tbl : gmap RunGroupKey.t (CalibrationData.t F))
    (test : RunGroupConfig.t F) :
  raises_fatal (compute_criteria env tbl test).
Proof.
  unfold compute_criteria.
  destruct (RunGroupConfig.expected_tps test); [apply raises_fatal_Ok|].
  destruct (tbl !! RunGroupConfig.key test);
    [|apply raises_fatal_Raise; reflexivity].
  unfold min_factor, max_factor. fatal_steps.
Qed.

Lemma raises_fatal_cur_block_size_of (criteria : Criteria.t F) :
  raises_fatal (cur_block_size_of env criteria).
Proof. unfold cur_block_size_of. destruct (flt _ _); fatal_steps. Qed.

Lemma raises_fatal_executor_type_str_of (test : RunGroupConfig.t F) :
  raises_fatal (executor_type_str_of env test).
Proof.
  unfold executor_type_str_of. repeat case_bool_decide; fatal_steps.
Qed.

Lemma raises_fatal_get_only {A} (values : list A) :
  raises_fatal (get_only values).
Proof. destruct values as [|a [|b l]]; simpl; fatal_steps. Qed.

#[local] Hint Resolve raises_fatal_get_only : fatal.

Lemma raises_fatal_only_float (p : Re.pattern) (output : string) :
  raises_fatal (only_float (F:=F) p output).
Proof. unfold only_float. fatal_steps. Qed.

Lemma raises_fatal_last_float (p : Re.pattern) (output : string) :
  raises_fatal (last_float (F:=F) p output).
Proof. unfold last_float, last_match. fatal_steps. Qed.

#[local] Hint Resolve raises_fatal_only_float raises_fatal_last_float : fatal.

Lemma raises_fatal_extract_run_results (output prefix : string)
    (create_db : bool) :
  raises_fatal (extract_run_results (F:=F) output prefix create_db).
Proof. unfold extract_run_results. destruct create_db; fatal_steps. Qed.

#[local] Hint Resolve raises_fatal_extract_run_results : fatal.

Lemma raises_fatal_stage_loop (fuel : nat) (output : string) (i : nat) :
  raises_fatal (stage_loop (F:=F) fuel output i).
Proof.
  revert i. induction fuel as [|fuel IH]; intros i.
  - apply raises_fatal_Ok.
  - rewrite stage_loop_S. destruct (Str.contains _ _); [|apply raises_fatal_Ok].
    apply raises_fatal_bind; [auto with fatal|]. intros r.
    apply raises_fatal_bind; [apply IH|]. intros rest. apply raises_fatal_mret.
Qed.

Lemma raises_fatal_stage_node_results (output : string) :
  raises_fatal (stage_node_results (F:=F) output).
Proof. apply raises_fatal_stage_loop. Qed.

Lemma raises_fatal_command_result (p : ProcResult) :
  raises_fatal (command_result p).
Proof.
  unfold command_result. destruct (negb _); [fatal_steps|].
  destruct (Str.contains _ _); fatal_steps.
Qed.

(** The same for the statements. *)

Lemma runs_fatal_mret {A} (a : A) : runs_fatal (mret a).
Proof. intros st e st' [=]. Qed.

Lemma runs_fatal_lift {A} (r : result A) :
  raises_fatal r → runs_fatal (lift r).
Proof. intros Hr st e st' [= -> _]. apply Hr. reflexivity. Qed.

Lemma runs_fatal_bind {A B} (m : M F A) (k : A → M F B) :
  runs_fatal m → (∀ a, runs_fatal (k a)) → runs_fatal (m ≫= k).
Proof.
  intros Hm Hk st e st'. rewrite bind_run.
  destruct (m st) as [[a|e'] st1] eqn:Hrun.
  - apply Hk.
  - intros [= <- <-]. eapply Hm. exact Hrun.
Qed.

Lemma runs_fatal_execute_command (command : Cmd) :
  runs_fatal (execute_command world command).
Proof.
  intros st e st'. unfold execute_command. intros [= Hr _].
  eapply raises_fatal_command_result. exact Hr.
Qed.

Lemma runs_fatal_results_append (r : RunGroupInstance.t F) :
  runs_fatal (results_append r).
Proof. intros st e st' [=]. Qed.

Lemma runs_fatal_classify (test : RunGroupConfig.t F)
    (criteria : Criteria.t F) (r : RunResults.t F) :
  runs_fatal (classify env test criteria r).
Proof.
  intros st e st'. unfold classify.
  repeat match goal with
         | |- context [if ?b then _ else _] => destruct b
         end; intros [=].
Qed.

Lemma runs_fatal_detailed_runs (test : RunGroupConfig.t F) (ex : string)
    (b : Z) (threads : list Z) (ntr : gmap Z (RunResults.t F)) :
  runs_fatal (detailed_runs env world test ex b threads ntr).
Proof.
  revert ntr. induction threads as [|t threads IH]; intros ntr.
  - apply runs_fatal_mret.
  - rewrite detailed_runs_cons.
    apply runs_fatal_bind; [apply runs_fatal_execute_command|]. intros output.
    apply runs_fatal_bind; [|intros r; apply IH].
    apply runs_fatal_lift. auto with fatal.
Qed.

Lemma runs_fatal_append_stage_results (test : RunGroupConfig.t F)
    (criteria : Criteria.t F) (ntr : gmap Z (RunResults.t F)) (b : Z)
    (stages : list (nat * RunResults.t F)) :
  runs_fatal (append_stage_results test criteria ntr b stages).
Proof.
  intros st e st'. rewrite append_stage_results_run. intros [=].
Qed.

Lemma runs_fatal_run_test
    (tbl : gmap RunGroupKey.t (CalibrationData.t F))
    (test : RunGroupConfig.t F) :
  runs_fatal (run_test env world tbl test).
Proof.
  unfold run_test.
  repeat first
    [ apply runs_fatal_classify
    | apply runs_fatal_bind; [|intros ?] ];
    auto using runs_fatal_lift, raises_fatal_compute_criteria,
      raises_fatal_cur_block_size_of, raises_fatal_executor_type_str_of,
      runs_fatal_detailed_runs, runs_fatal_execute_command,
      raises_fatal_extract_run_results, raises_fatal_stage_node_results,
      runs_fatal_results_append, runs_fatal_append_stage_results.
Qed.

Lemma runs_fatal_run_tests
    (tbl : gmap RunGroupKey.t (CalibrationData.t F))
    (tests : list (RunGroupConfig.t F)) :
  runs_fatal (run_tests env world tbl tests).
Proof.
  induction tests as [|test tests IH]; [apply runs_fatal_mret|].
  simpl. apply runs_fatal_bind; [|intros []; exact IH].
  destruct (selected env test);
    [apply runs_fatal_run_test|apply runs_fatal_mret].
Qed.

Lemma runs_fatal_move_e2e_benchmark : runs_fatal (move_e2e_benchmark env world).
Proof.
  unfold move_e2e_benchmark.
  destruct (SKIP_MOVE_E2E env); [apply runs_fatal_mret|].
  apply runs_fatal_bind; [apply runs_fatal_execute_command|]. intros _.
  intros st e st'. unfold try_move_e2e_benchmark.
  destruct (execute_command world MoveE2EBenchmark st) as [[o|e'] st1].
  - intros [=].
  - case_bool_decide; [|intros [=]]. intros [= <- _]. reflexivity.
Qed.

Lemma runs_fatal_benchmark_block (CALIBRATION : string)
    (TESTS : list (RunGroupConfig.t F)) :
  runs_fatal (benchmark_block env world CALIBRATION TESTS).
Proof.
  unfold benchmark_block.
  repeat first
    [ apply runs_fatal_mret
    | apply runs_fatal_bind; [|intros ?] ];
    auto using runs_fatal_lift, runs_fatal_move_e2e_benchmark,
      raises_fatal_parse_lines, runs_fatal_execute_command,
      raises_fatal_extract_run_results, runs_fatal_results_append,
      runs_fatal_run_tests.
  apply runs_fatal_lift. unfold parse_calibration. auto with fatal.
Qed.

End ExitStatus.

(** ** The run as a whole *)

Section RunFacts.
Context (env : Env) (world : World) {F : Type} `{PyFloat F}.

(** The statements of the [with] block before the loop over the tests:
    the prerequisite benchmark, the calibration table, the build, the
    creation of the database and the row of the warm-up. *)
Definition before_tests (CALIBRATION : string)
  : M F (bool * gmap RunGroupKey.t (CalibrationData.t F)) :=
  move_e2e_benchmark_failed ← move_e2e_benchmark env world;
  calibrated_expected_tps ← lift (parse_calibration CALIBRATION);
  execute_command world (CargoBuild "aptos-executor-benchmark");;
  output ← execute_command world
    (CreateDb (MAX_BLOCK_SIZE env) (NUMBER_OF_EXECUTION_THREADS env)
              (NUM_ACCOUNTS env));
  warmup ← lift (extract_run_results output "Overall" true);
  results_append
    (RunGroupInstance.mk (RunGroupKey.of_type "warmup") warmup ∅
       (MAX_BLOCK_SIZE env) (float_of_int 0));;
  mret (move_e2e_benchmark_failed, calibrated_expected_tps).

(** The statements of the [with] block after the prerequisite benchmark. *)
Definition after_prerequisite (CALIBRATION : string)
    (TESTS : list (RunGroupConfig.t F)) (move_e2e_benchmark_failed : bool)
  : M F bool :=
  calibrated_expected_tps ← lift (parse_calibration CALIBRATION);
  execute_command world (CargoBuild "aptos-executor-benchmark");;
  output ← execute_command world
    (CreateDb (MAX_BLOCK_SIZE env) (NUMBER_OF_EXECUTION_THREADS env)
              (NUM_ACCOUNTS env));
  warmup ← lift (extract_run_results output "Overall" true);
  results_append
    (RunGroupInstance.mk (RunGroupKey.of_type "warmup") warmup ∅
       (MAX_BLOCK_SIZE env) (float_of_int 0));;
  run_tests env world calibrated_expected_tps TESTS;;
  mret move_e2e_benchmark_failed.

Lemma benchmark_block_after_prerequisite (CALIBRATION : string)
    (TESTS : list (RunGroupConfig.t F)) :
  benchmark_block env world CALIBRATION TESTS
  = move_e2e_benchmark env world ≫= after_prerequisite CALIBRATION TESTS.
Proof. reflexivity. Qed.

Lemma benchmark_block_before_tests (CALIBRATION : string)
    (TESTS : list (RunGroupConfig.t F)) (st : State F) :
  benchmark_block env world CALIBRATION TESTS st
  = match before_tests CALIBRATION st with
    | (Ok (failed, tbl), st') =>
        match run_tests env world tbl TESTS st' with
        | (Ok _, st'') => (Ok failed, st'')
        | (Raise e, st'') => (Raise e, st'')
        end
    | (Raise e, st') => (Raise e, st')
    end.
Proof.
  unfold benchmark_block, before_tests. rewrite !bind_run.
  destruct (move_e2e_benchmark env world st) as [[failed|e] st1];
    [|reflexivity].
  rewrite !lift_bind_run.
  destruct (parse_calibration CALIBRATION) as [tbl|e]; [|reflexivity].
  rewrite !bind_run.
  destruct (execute_command world _ st1) as [[o|e] st2]; [|reflexivity].
  rewrite !bind_run.
  destruct (execute_command world _ st2) as [[output|e] st3]; [|reflexivity].
  rewrite !lift_bind_run.
  destruct (extract_run_results output "Overall" true) as [warmup|e];
    [|reflexivity].
  rewrite !bind_run. unfold results_append. cbv beta iota.
  rewrite bind_run. unfold mret, M_ret. cbv beta iota.
  destruct (run_tests env world tbl TESTS _) as [[[]|e] st4]; reflexivity.
Qed.

Definition source_recognized : Prop :=
  SOURCE env ∈ ["ADHOC"; "CI"; "LOCAL"].

Lemma script_run (CALIBRATION : string) (TESTS : list (RunGroupConfig.t F)) :
  source_recognized →
  script env world CALIBRATION TESTS
  = match benchmark_block env world CALIBRATION TESTS initial_state with
    | (Raise e, st) => Build_Outcome (status_of e) (Some e) false st
    | (Ok failed, st) =>
        match errors st with
        | _ :: _ => Build_Outcome 1 None failed st
        | [] =>
            if failed then Build_Outcome 1 None failed st
            else Build_Outcome 0 None failed st
        end
    end.
Proof.
  intros Hs. unfold script. rewrite bool_decide_eq_true_2 by exact Hs.
  reflexivity.
Qed.

(** The status is 0 exactly when the script reaches its end with no error
    recorded and the prerequisite benchmark not failed. *)
Lemma exit_status_nonzero_iff (CALIBRATION : string)
    (TESTS : list (RunGroupConfig.t F)) :
  let out := script env world CALIBRATION TESTS in
  exit_status out ≠ 0
  ↔ aborted out ≠ None
    ∨ errors (final out) ≠ []
    ∨ move_e2e_benchmark_failed out = true.
Proof.
  cbv zeta. unfold script.
  destruct (negb (bool_decide _)).
  { simpl. split; [intros _; left; discriminate|intros _; lia]. }
  destruct (benchmark_block env world CALIBRATION TESTS initial_state)
    as [[failed|e] st] eqn:Hrun.
  - destruct (errors st) as [|n l] eqn:Herr.
    + destruct failed; simpl; rewrite Herr.
      * split; [intros _; right; right; reflexivity|intros _; lia].
      * split; [intros Hx; contradiction|].
        intros [Hx|[Hx|Hx]]; congruence.
    + simpl. rewrite Herr.
      split; [intros _; right; left; discriminate|intros _; lia].
  - simpl. apply runs_fatal_benchmark_block in Hrun. rewrite Hrun.
    split; [intros _; left; discriminate|intros _; lia].
Qed.

(** C8, as the script has it. When the loop reaches a selected test with
    neither override nor calibration entry, the assertion fails and ends
    the script with status 1: no command is launched and no result, warning
    or error is recorded for this test or a later one. What ran before it
    (the prerequisite benchmark, the build, the creation of the database,
    the earlier tests) has left the state [st1]. *)
Theorem unconfigured_test_aborts (CALIBRATION : string)
    (before rest : list (RunGroupConfig.t F)) (test : RunGroupConfig.t F)
    (failed : bool) (tbl : gmap RunGroupKey.t (CalibrationData.t F))
    (st0 st1 : State F) :
  source_recognized →
  before_tests CALIBRATION initial_state = (Ok (failed, tbl), st0) →
  run_tests env world tbl before st0 = (Ok tt, st1) →
  selected env test = true →
  RunGroupConfig.expected_tps test = None →
  tbl !! RunGroupConfig.key test = None →
  run_test env world tbl test st1 = (Raise AssertionError, st1)
  ∧ script env world CALIBRATION (before ++ test :: rest)
    = Build_Outcome 1 (Some AssertionError) false st1.
Proof.
  intros Hs Hbefore Hearlier Hsel Hnone Hkey.
  pose proof (run_test_unconfigured env world tbl test st1 Hnone Hkey) as Ht.
  split; [exact Ht|].
  rewrite script_run by exact Hs.
  rewrite benchmark_block_before_tests, Hbefore, run_tests_app, Hearlier.
  rewrite run_tests_cons, Hsel, Ht. reflexivity.
Qed.

(** The state after the prerequisite benchmark has been built and run. *)
Definition after_move_e2e : State F :=
  Build_State [CargoBuild "aptos-move-e2e-benchmark"; MoveE2EBenchmark]
              [] [] [].

Lemma move_e2e_benchmark_fails (e : PyError) (o : string) :
  SKIP_MOVE_E2E env = false →
  command_result (world 0%nat (CargoBuild "aptos-move-e2e-benchmark")) = Ok o →
  command_result (world 1%nat MoveE2EBenchmark) = Raise e →
  move_e2e_benchmark env world initial_state
  = if bool_decide (SELECTED_FLOW env = LAND_BLOCKING)
    then (Raise (SystemExit 1), after_move_e2e)
    else (Ok true, after_move_e2e).
Proof.
  intros Hskip Hbuild Hrun. unfold move_e2e_benchmark. rewrite Hskip.
  rewrite bind_run. unfold execute_command at 1. simpl. rewrite Hbuild.
  unfold try_move_e2e_benchmark, execute_command. simpl. rewrite Hrun.
  case_bool_decide; reflexivity.
Qed.

(** C9, as the script has it. The exit status is not 0 exactly when an
    exception or [exit] ended the script early (process, extraction or
    configuration error, strict prerequisite failure), or an unwaived
    classification error was recorded, or the prerequisite benchmark
    failed; the list of warnings plays no part. A failure of the
    prerequisite benchmark ends the script at once in the flow LAND_BLOCKING
    and nowhere else: in the other flows the rest of the block runs from
    the state the failure left, and the status is 1 whatever it does. *)
Theorem exit_status_and_prerequisite (CALIBRATION : string)
    (TESTS : list (RunGroupConfig.t F)) :
  let out := script env world CALIBRATION TESTS in
  (exit_status out ≠ 0
   ↔ aborted out ≠ None
     ∨ errors (final out) ≠ []
     ∨ move_e2e_benchmark_failed out = true)
  ∧ (∀ (e : PyError) (o : string),
       source_recognized →
       SKIP_MOVE_E2E env = false →
       command_result (world 0%nat (CargoBuild "aptos-move-e2e-benchmark"))
       = Ok o →
       command_result (world 1%nat MoveE2EBenchmark) = Raise e →
       if bool_decide (SELECTED_FLOW env = LAND_BLOCKING) then
         out = Build_Outcome 1 (Some (SystemExit 1)) false after_move_e2e
       else
         exit_status out = 1
         ∧ final out
           = (after_prerequisite CALIBRATION TESTS true after_move_e2e).2
         ∧ (∀ st, after_prerequisite CALIBRATION TESTS true after_move_e2e
                  = (Ok true, st) →
                  aborted out = None
                  ∧ move_e2e_benchmark_failed out = true)).
Proof.
  cbv zeta. split; [apply exit_status_nonzero_iff|].
  intros e o Hs Hskip Hbuild Hrun.
  rewrite script_run by exact Hs.
  rewrite benchmark_block_after_prerequisite, bind_run.
  rewrite (move_e2e_benchmark_fails e o Hskip Hbuild Hrun).
  case_bool_decide as Hflow; [reflexivity|].
  destruct (after_prerequisite CALIBRATION TESTS true after_move_e2e)
    as [[failed|e'] st] eqn:Hafter.
  - assert (failed = true) as ->.
    { unfold after_prerequisite in Hafter.
      repeat match type of Hafter with
             | (lift ?r ≫= _) _ = _ =>
                 rewrite lift_bind_run in Hafter; destruct r; [|discriminate]
             | (?m ≫= _) ?s = _ =>
                 rewrite bind_run in Hafter;
                 destruct (m s) as [[?|?] ?]; [|discriminate]
             end.
      injection Hafter as <- _. reflexivity. }
    destruct (errors st) as [|n l] eqn:Herr; simpl;
      (split; [reflexivity|split; [reflexivity|]]);
      intros st' _; split; reflexivity.
  - simpl. split; [|split; [reflexivity|intros st' [=]]].
    + eapply runs_fatal_bind in Hafter; [exact Hafter| |].
      * apply runs_fatal_lift. apply raises_fatal_parse_lines.
      * intros tbl. repeat first
          [ apply runs_fatal_mret
          | apply runs_fatal_bind; [|intros ?] ];
          auto using runs_fatal_lift, runs_fatal_execute_command,
            raises_fatal_extract_run_results, runs_fatal_results_append,
            runs_fatal_run_tests.
Qed.

End RunFacts.

(** ** Concrete runs, on the real-number instance *)

Module Examples.
Import RealFloat.

(** Decide the comparisons of real constants left in the goal. *)
Ltac decide_comparisons :=
  repeat match goal with
         | |- context [Rlt_dec ?a ?b] =>
             destruct (Rlt_dec a b); try (exfalso; lra)
         end.

(** *** The catalog *)

(** The table the script builds from [CALIBRATION]. *)
Definition calibrated_table : gmap RunGroupKey.t (CalibrationData.t R) :=
  match parse_calibration CALIBRATION with
  | Ok tbl => tbl
  | Raise _ => ∅
  end.

Definition is_Ok {A} (r : result A) : bool :=
  match r with
  | Ok _ => true
  | Raise _ => false
  end.

Lemma calibration_parses : parse_calibration CALIBRATION = Ok calibrated_table.
Proof.
  assert (is_Ok (parse_calibration (F:=R) CALIBRATION) = true) as Hok
    by (vm_compute; reflexivity).
  unfold calibrated_table.
  destruct (parse_calibration CALIBRATION); [reflexivity|discriminate].
Qed.

Lemma calibrated_table_size : size calibrated_table = 40%nat.
Proof. vm_compute. reflexivity. Qed.

(** The first test of the catalog and its row of the table. *)
Definition no_op : RunGroupConfig.t R :=
  RunGroupConfig.mk (RunGroupKey.of_type "no-op") LAND_BLOCKING_AND_C None
    RunGroupKeyExtra.default false.

Definition no_op_entry : CalibrationData.t R :=
  CalibrationData.mk (lit 427377 1) 15 (lit 922 3) (lit 106 2).

Lemma no_op_in_catalog : TESTS !! 0%nat = Some no_op.
Proof. reflexivity. Qed.

Lemma no_op_calibrated :
  calibrated_table !! RunGroupConfig.key no_op = Some no_op_entry.
Proof. vm_compute. reflexivity. Qed.

Lemma no_op_entry_well_formed : Order.well_formed no_op_entry.
Proof.
  unfold Order.well_formed, no_op_entry. simpl. Order.lit_norm.
  repeat split; try lra. lia.
Qed.

(** *** The rows of the calibration table are well formed *)

(** The invariant of an entry, checked on the decimal numerals of its row:
    [m / 10^k] is compared with one by comparing [m] with [10^k]. *)
Definition numeral_check (p : Z → Z → bool) (s : string) : bool :=
  match decimal s with
  | Some (m, k) => p m (10 ^ Z.of_nat k)
  | None => false
  end.

Definition row_well_formed (parts : list string) : bool :=
  match Str.index parts CALIBRATED_TPS_INDEX,
        Str.index parts CALIBRATED_COUNT_INDEX,
        Str.index parts CALIBRATED_MIN_RATIO_INDEX,
        Str.index parts CALIBRATED_MAX_RATIO_INDEX with
  | Ok e, Ok c, Ok lo, Ok hi =>
      numeral_check (fun m d => 0 <=? m) e
      && match Builtins.int_of_str c with
         | Some n => 1 <=? n
         | None => false
         end
      && numeral_check (fun m d => (0 <? m) && (m <=? d)) lo
      && numeral_check (fun m d => d <=? m) hi
  | _, _, _, _ => false
  end.

Lemma pow10_pos (k : nat) : (0 < IZR (10 ^ Z.of_nat k))%R.
Proof. apply IZR_lt. apply Z.pow_pos_nonneg; lia. Qed.

Lemma lit_nonneg (m : Z) (k : nat) : 0 ≤ m → (0 <= lit m k)%R.
Proof.
  intros Hm. unfold lit. apply Rmult_le_pos; [apply IZR_le; assumption|].
  left. apply Rinv_0_lt_compat, pow10_pos.
Qed.

Lemma lit_pos (m : Z) (k : nat) : 0 < m → (0 < lit m k)%R.
Proof.
  intros Hm. unfold lit. apply Rmult_lt_0_compat; [apply IZR_lt; assumption|].
  apply Rinv_0_lt_compat, pow10_pos.
Qed.

Lemma lit_le_1 (m : Z) (k : nat) : m ≤ 10 ^ Z.of_nat k → (lit m k <= 1)%R.
Proof.
  intros Hm. unfold lit. pose proof (pow10_pos k) as Hd.
  apply IZR_le in Hm.
  apply (Rmult_le_reg_r (IZR (10 ^ Z.of_nat k))); [assumption|].
  unfold Rdiv. rewrite Rmult_assoc, Rinv_l by lra. lra.
Qed.

Lemma lit_ge_1 (m : Z) (k : nat) : 10 ^ Z.of_nat k ≤ m → (1 <= lit m k)%R.
Proof.
  intros Hm. unfold lit. pose proof (pow10_pos k) as Hd.
  apply IZR_le in Hm.
  apply (Rmult_le_reg_r (IZR (10 ^ Z.of_nat k))); [assumption|].
  unfold Rdiv. rewrite Rmult_assoc, Rinv_l by lra. lra.
Qed.

Lemma numeral_check_of_str (p : Z → Z → bool) (s : string) (x : R) :
  numeral_check p s = true → of_str s = Some x →
  ∃ m k, x = lit m k ∧ p m (10 ^ Z.of_nat k) = true.
Proof.
  unfold numeral_check, of_str.
  destruct (decimal s) as [[m k]|]; [|discriminate].
  simpl. intros Hp [= <-]. exists m, k. split; [reflexivity|assumption].
Qed.

Lemma row_well_formed_sound (parts : list string)
    (k : RunGroupKey.t) (v : CalibrationData.t R) :
  row_well_formed parts = true → parse_row parts = Ok (k, v) →
  Order.well_formed v.
Proof.
  unfold row_well_formed, parse_row, py_int, py_float.
  unfold mbind, result_bind, Py.bind, mret, result_ret.
  destruct (Str.index parts 0); [|discriminate].
  destruct (Str.index parts 1); [|intros _ [=]].
  destruct (of_option ValueError (Builtins.int_of_str _)); [|intros _ [=]].
  destruct (Str.index parts 2); [|intros _ [=]].
  destruct (Str.index parts CALIBRATED_TPS_INDEX) as [e|]; [|discriminate].
  destruct (Str.index parts CALIBRATED_COUNT_INDEX) as [c|];
    [|destruct (of_option _ _); [discriminate|intros _ [=]]].
  destruct (Str.index parts CALIBRATED_MIN_RATIO_INDEX) as [lo|];
    [|discriminate].
  destruct (Str.index parts CALIBRATED_MAX_RATIO_INDEX) as [hi|];
    [|discriminate].
  intros Hcheck.
  apply andb_true_iff in Hcheck as [Hcheck Hhi].
  apply andb_true_iff in Hcheck as [Hcheck Hlo].
  apply andb_true_iff in Hcheck as [He Hc].
  simpl.
  destruct (of_str e) as [xe|] eqn:Hxe; [|intros [=]]. simpl.
  destruct (Builtins.int_of_str c) as [n|]; [|discriminate]. simpl.
  destruct (of_str lo) as [xlo|] eqn:Hxlo; [|intros [=]]. simpl.
  destruct (of_str hi) as [xhi|] eqn:Hxhi; [|intros [=]]. simpl.
  intros [= _ <-].
  destruct (numeral_check_of_str _ _ _ He Hxe) as (m1 & k1 & -> & H1).
  destruct (numeral_check_of_str _ _ _ Hlo Hxlo) as (m2 & k2 & -> & H2).
  destruct (numeral_check_of_str _ _ _ Hhi Hxhi) as (m3 & k3 & -> & H3).
  apply andb_true_iff in H2 as [H2a H2b].
  unfold Order.well_formed. simpl. repeat split.
  - apply lit_nonneg. lia.
  - lia.
  - apply lit_pos. lia.
  - apply lit_le_1. lia.
  - apply lit_ge_1. lia.
Qed.

Lemma foldl_insert_row_lookup
    (rows : list (RunGroupKey.t * CalibrationData.t R))
    (acc : gmap RunGroupKey.t (CalibrationData.t R))
    (k : RunGroupKey.t) (v : CalibrationData.t R) :
  foldl insert_row acc rows !! k = Some v →
  (k, v) ∈ rows ∨ acc !! k = Some v.
Proof.
  revert acc. induction rows as [|[k' v'] rows IH]; intros acc; simpl.
  - auto.
  - intros Hl. apply IH in Hl as [Hin|Hacc].
    + left. apply elem_of_cons. auto.
    + unfold insert_row in Hacc. simpl in Hacc.
      destruct (decide (k' = k)) as [->|Hne].
      * rewrite lookup_insert_eq in Hacc. injection Hacc as ->.
        left. apply elem_of_cons. auto.
      * rewrite lookup_insert_ne in Hacc by assumption. auto.
Qed.

Lemma rows_well_formed (lines : list string)
    (rows : list (RunGroupKey.t * CalibrationData.t R)) :
  rows_of lines rows →
  forallb (fun line => match row_of_line line with
                       | Some parts => row_well_formed parts
                       | None => true
                       end) lines = true →
  Forall (fun kv => Order.well_formed kv.2) rows.
Proof.
  unfold rows_of. revert rows.
  induction lines as [|line lines IH]; intros rows Hrows Hall.
  - inversion Hrows. constructor.
  - simpl in Hall. apply andb_true_iff in Hall as [Hline Hall].
    change (omap row_of_line (line :: lines))
      with (match row_of_line line with
            | Some parts => parts :: omap row_of_line lines
            | None => omap row_of_line lines
            end) in Hrows.
    destruct (row_of_line line) as [parts|]; [|apply IH; assumption].
    inversion Hrows as [|? [k v] ? rows' Hkv Hrest]; subst.
    constructor; [|apply IH; assumption].
    apply (row_well_formed_sound parts k v); assumption.
Qed.

(** Every row of the calibration table of the script satisfies the
    invariant of an entry. *)
Lemma calibrated_table_well_formed (k : RunGroupKey.t)
    (entry : CalibrationData.t R) :
  calibrated_table !! k = Some entry → Order.well_formed entry.
Proof.
  intros Hl.
  pose proof calibration_parses as Hparse. unfold parse_calibration in Hparse.
  apply parse_lines_Ok in Hparse as (rows & Hrows & Htbl).
  rewrite Htbl in Hl.
  apply foldl_insert_row_lookup in Hl as [Hin|Hempty];
    [|rewrite lookup_empty in Hempty; discriminate].
  assert (Forall (fun kv => Order.well_formed kv.2) rows) as Hwf.
  { apply (rows_well_formed _ _ Hrows). vm_compute. reflexivity. }
  rewrite Forall_forall in Hwf. apply (Hwf (k, entry)). assumption.
Qed.

(** Whatever the flow, the criteria of a calibrated test of the catalog
    are ordered. *)
Lemma catalog_calibrated_ordered (env : Env) (test : RunGroupConfig.t R)
    (criteria : Criteria.t R) :
  RunGroupConfig.expected_tps test = None →
  compute_criteria env calibrated_table test = Ok criteria →
  Order.ordered criteria.
Proof.
  intros Hnone Hc. unfold compute_criteria in Hc. rewrite Hnone in Hc.
  destruct (calibrated_table !! RunGroupConfig.key test) as [entry|] eqn:Hl;
    [|discriminate].
  pose proof (calibrated_table_well_formed _ _ Hl) as Hwf.
  assert (CalibrationData.count entry ≠ 0) as Hn
    by (destruct Hwf as (_ & Hn & _); lia).
  pose proof (compute_criteria_calibrated env calibrated_table test entry
                Hnone Hl Hn) as Heq.
  unfold compute_criteria in Heq. rewrite Hnone, Hl in Heq.
  rewrite Heq in Hc. injection Hc as <-.
  apply Order.calibrated_ordered. assumption.
Qed.


(** The native executor test of the catalog, in the land-blocking flow. *)
Definition apt_fa_transfer_native : RunGroupConfig.t R :=
  RunGroupConfig.mk (RunGroupKey.mk "apt-fa-transfer" 1 "native")
    LAND_BLOCKING_AND_C None RunGroupKeyExtra.default false.

Lemma apt_fa_transfer_native_in_catalog :
  TESTS !! 3%nat = Some apt_fa_transfer_native.
Proof. reflexivity. Qed.

(** The test of the catalog with a static override for the large
    database. *)
Definition apt_fa_transfer_large_db : RunGroupConfig.t R :=
  RunGroupConfig.mk (RunGroupKey.of_type "apt-fa-transfer")
    (flow_value MAINNET_LARGE_DB) (Some (IZR 20000))
    RunGroupKeyExtra.default false.

Lemma apt_fa_transfer_large_db_in_catalog :
  TESTS !! 56%nat = Some apt_fa_transfer_large_db.
Proof. reflexivity. Qed.

Definition large_db_env : Env := with_flow default_env MAINNET_LARGE_DB.

(** *** C1, C3, C4: thresholds *)

Lemma calibrated_criteria_exact_witness :
  compute_criteria default_env calibrated_table no_op
  = Ok (Spec.calibrated_criteria no_op_entry).
Proof.
  apply calibrated_criteria_exact.
  - reflexivity.
  - vm_compute. reflexivity.
  - simpl. lia.
Defined.

Lemma override_criteria_exact_witness :
  compute_criteria large_db_env calibrated_table apt_fa_transfer_large_db
  = Ok (Spec.static_criteria large_db_env (IZR 20000))
  ∧ ∀ other : gmap RunGroupKey.t (CalibrationData.t R),
      compute_criteria large_db_env other apt_fa_transfer_large_db
      = compute_criteria large_db_env calibrated_table
          apt_fa_transfer_large_db.
Proof. apply override_criteria_exact. reflexivity. Defined.

(** The key of the overridden test has a row in the table all the same. *)
Lemma override_key_is_calibrated :
  is_Some (calibrated_table !! RunGroupConfig.key apt_fa_transfer_large_db).
Proof. vm_compute. eexists. reflexivity. Qed.

Lemma criteria_order_witness :
  Order.ordered (Spec.calibrated_criteria no_op_entry).
Proof.
  apply (Order.criteria_order default_env calibrated_table no_op).
  - apply compute_criteria_calibrated.
    + reflexivity.
    + vm_compute. reflexivity.
    + simpl. lia.
  - intros e [=].
  - intros entry _ Hentry.
    assert (entry = no_op_entry) as ->.
    { pose proof no_op_calibrated as Hno. rewrite Hno in Hentry.
      injection Hentry as <-. reflexivity. }
    apply no_op_entry_well_formed.
Defined.

(** C3 fails for the static override of the large-database flow: the hard
    lower bound 0.98 * 20000 is above the warning bound 0.9 * 20000. *)
Lemma mainnet_override_not_ordered :
  ∃ criteria,
    compute_criteria large_db_env calibrated_table apt_fa_transfer_large_db
    = Ok criteria
    ∧ ¬ Order.ordered criteria.
Proof.
  eexists. split; [reflexivity|].
  unfold Order.ordered. simpl. unfold NOISE_LOWER_LIMIT. simpl.
  Order.lit_norm. intros (Hle & _). lra.
Qed.

(** *** The worked example of the specification *)

(** Section 8: expected 1000,
    15 runs, ratios 0.90 and 1.10. *)
Definition spec_entry : CalibrationData.t R :=
  CalibrationData.mk (IZR 1000) 15 (lit 90 2) (lit 110 2).

Lemma spec_example_min_tps :
  Criteria.min_tps (Spec.calibrated_criteria spec_entry) = (2300 / 3)%R.
Proof.
  unfold Spec.calibrated_criteria, spec_entry.
  cbn [fadd fsub fmul fdiv fpow float_of_int float_lit real_float
       Criteria.min_tps CalibrationData.expected_tps CalibrationData.count
       CalibrationData.min_ratio].
  Order.lit_norm. lra.
Qed.

(** A measurement of 800 is above the hard bound 766.66 and below the
    warning bound 1000 * 0.9^0.8, which is at least 900: a soft-low
    warning. *)
Lemma spec_example_tier :
  Spec.tier false (Spec.calibrated_criteria spec_entry) (IZR 800)
  = Spec.TierSoftLow.
Proof.
  unfold Spec.tier. rewrite spec_example_min_tps.
  cbn [flt real_float]. unfold lt at 1.
  destruct (Rlt_dec 800 (2300 / 3)) as [Hlt|_]; [exfalso; lra|].
  assert (lt 800 (Criteria.min_warn_tps (Spec.calibrated_criteria spec_entry))
          = true) as ->; [|reflexivity].
  unfold Spec.calibrated_criteria, spec_entry.
  cbn [fmul fpow float_lit real_float Criteria.min_warn_tps
       CalibrationData.expected_tps CalibrationData.min_ratio].
  assert (0 < lit 90 2 <= 1)%R as Hr by (Order.lit_norm; lra).
  pose proof (Order.pow_low _ Hr) as [Hp _].
  assert (lit 90 2 = 9 / 10)%R as Hl by (Order.lit_norm; lra).
  rewrite Hl in Hp at 1.
  unfold lt. destruct (Rlt_dec _ _) as [_|Hn]; [reflexivity|].
  exfalso. apply Hn. lra.
Qed.

(** *** C5: selection *)

(** C5 fails for the native executor test of the catalog in the default
    environment: the flow is a member of its set, and the test is passed
    over, whatever the world and the state. *)
Lemma native_test_not_executed :
  member (SELECTED_FLOW default_env)
         (RunGroupConfig.included_in apt_fa_transfer_native)
  ∧ selected default_env apt_fa_transfer_native = false
  ∧ ∀ (world : World) tbl (st : State R),
      run_tests default_env world tbl [apt_fa_transfer_native] st
      = (Ok tt, st).
Proof. repeat split. Qed.

(** With [DISABLE_FA_APT] set the same test is selected; it has neither
    override nor calibration entry. *)
Definition fa_apt_disabled_env : Env := {|
  FLOW := LAND_BLOCKING;
  SOURCE := "LOCAL";
  MAX_BLOCK_SIZE := 10000;
  NUM_BLOCKS := 15;
  NUM_INIT_ACCOUNTS := None;
  NUMBER_OF_EXECUTION_THREADS := 32;
  DETAILED := false;
  DISABLE_FA_APT := true;
  HIDE_OUTPUT := false;
  SKIP_MOVE_E2E := false;
|}.

Lemma native_test_unconfigured :
  selected fa_apt_disabled_env apt_fa_transfer_native = true
  ∧ RunGroupConfig.expected_tps apt_fa_transfer_native = None
  ∧ calibrated_table !! RunGroupConfig.key apt_fa_transfer_native = None.
Proof.
  split; [reflexivity|]. split; [reflexivity|]. vm_compute. reflexivity.
Qed.

(** *** The text the benchmark prints *)

Definition line (s : string) : string := s +:+ newline.

(** The eleven metric lines under a prefix. *)
Definition metrics_lines (prefix tps : string) : list string := [
  line (prefix +:+ " TPS: " +:+ tps +:+ " txn/s");
  line (prefix +:+ " GPS: 250000.0 gas/s");
  line (prefix +:+ " effectiveGPS: 260000.5 gas/s");
  line (prefix +:+ " ioGPS: 90000.0 gas/s");
  line (prefix +:+ " executionGPS: 160000.0 gas/s");
  line (prefix +:+ " GPT: 12.5 gas/txn");
  line (prefix +:+ " Storage fee: -3.0 octas/txn");
  line (prefix +:+ " output: 4096.0 bytes/s");
  line (prefix +:+ " fraction of total: 0.75 in execution");
  line (prefix +:+ " fraction of execution 0.5 in VM");
  line (prefix +:+ " fraction of total: 0.25 in commit")
].

(** The record extracted from [metrics_lines] with throughput [tps]. *)
Definition metrics (tps : R) : RunResults.t R :=
  RunResults.mk tps (lit 2500000 1) (lit 2600005 1) (lit 900000 1)
    (lit 1600000 1) (lit 125 1) (lit (-30) 1) (lit 40960 1) (lit 75 2)
    (lit 5 1) (lit 25 2).

Definition create_db_stdout : list string :=
  [line "Overall TPS: create_db: account creation: 25000.0 txn/s"].

(** A run whose overall throughput is the expected one and whose only stage
    is two hundred times slower. *)
Definition staged_stdout : list string :=
  metrics_lines "Overall" "20000.0"
  ++ metrics_lines "Staged execution: stage 0:" "100.0".

Definition staged_output : string := Str.join newline staged_stdout.

(** Every command succeeds; the benchmark prints [staged_stdout]. *)
Definition staged_world : World := fun _ command =>
  match command with
  | CreateDb _ _ _ => {| returncode := 0; stdout := create_db_stdout |}
  | RunExecutor _ _ _ _ _ _ _ _ _ =>
      {| returncode := 0; stdout := staged_stdout |}
  | _ => {| returncode := 0; stdout := [] |}
  end.

Lemma staged_overall :
  extract_run_results staged_output "Overall" false
  = Ok (metrics (lit 200000 1)).
Proof. vm_compute. reflexivity. Qed.

Lemma staged_stages :
  stage_node_results staged_output = Ok [(0%nat, metrics (lit 1000 1))].
Proof. vm_compute. reflexivity. Qed.

Lemma large_db_block_size :
  cur_block_size_of large_db_env
    (Spec.static_criteria large_db_env (IZR 20000)) = Ok 10000.
Proof.
  unfold cur_block_size_of. simpl. unfold lt.
  destruct (Rlt_dec 10000 20000) as [_|Hn]; [reflexivity|lra].
Qed.

(** *** C6: stages *)

Definition large_db_command : Cmd :=
  test_db_command large_db_env apt_fa_transfer_large_db
    "--transactions-per-sender 1" 10000 32 false 15.

Lemma stage_results_recorded_not_classified_witness :
  stages_from staged_output 0 [(0%nat, metrics (lit 1000 1))]
  ∧ run_test large_db_env staged_world calibrated_table
      apt_fa_transfer_large_db initial_state
    = (Ok tt,
       Build_State [large_db_command]
         [RunGroupInstance.mk (RunGroupKey.of_type "apt-fa-transfer")
            (metrics (lit 200000 1)) ∅ 10000 (IZR 20000);
          RunGroupInstance.mk
            (RunGroupKey.of_type "apt-fa-transfer [stage 0]")
            (metrics (lit 1000 1)) ∅ 10000 (IZR 20000)]
         [] []).
Proof.
  pose proof (stage_results_recorded_not_classified large_db_env staged_world
                calibrated_table apt_fa_transfer_large_db initial_state
                initial_state (Spec.static_criteria large_db_env (IZR 20000))
                10000 "--transactions-per-sender 1" ∅ staged_output
                (metrics (lit 200000 1)) [(0%nat, metrics (lit 1000 1))])
    as Hthm.
  destruct Hthm as [Hstages Hrun].
  - reflexivity.
  - exact large_db_block_size.
  - reflexivity.
  - reflexivity.
  - vm_compute. reflexivity.
  - exact staged_overall.
  - exact staged_stages.
  - split; [exact Hstages|]. rewrite Hrun. f_equal.
    unfold Spec.tier. simpl. unfold lt, NOISE_LOWER_LIMIT. simpl.
    Order.lit_norm. decide_comparisons. reflexivity.
Defined.

(** C6 fails on this run: the stage is measured at 100 tps, below the hard
    lower bound of the unwaived test, and the run records neither an error
    nor a warning. *)
Lemma stage_regression_not_reported :
  let criteria := Spec.static_criteria large_db_env (IZR 20000) in
  let out := run_test large_db_env staged_world calibrated_table
               apt_fa_transfer_large_db initial_state in
  compute_criteria large_db_env calibrated_table apt_fa_transfer_large_db
  = Ok criteria
  ∧ stage_node_results staged_output = Ok [(0%nat, metrics (lit 1000 1))]
  ∧ flt (RunResults.tps (metrics (lit 1000 1))) (Criteria.min_tps criteria)
    = true
  ∧ RunGroupConfig.waived apt_fa_transfer_large_db = false
  ∧ out.1 = Ok tt ∧ errors out.2 = [] ∧ warnings out.2 = [].
Proof.
  cbv zeta. split; [reflexivity|]. split; [exact staged_stages|].
  split; [|split; [reflexivity|]].
  - simpl. unfold lt, NOISE_LOWER_LIMIT. simpl. Order.lit_norm.
    decide_comparisons. reflexivity.
  - vm_compute. decide_comparisons. repeat split.
Qed.

(** *** C7: extraction *)

(** An output with the line of the execution fraction printed twice. *)
Definition repeated_fraction_stdout : list string :=
  line "Overall fraction of total: 0.5 in execution"
  :: metrics_lines "Overall" "20000.0".

Definition repeated_fraction_output : string :=
  Str.join newline repeated_fraction_stdout.

(** C7 fails on this output: the metric has two matching lines and the
    extraction returns, with the value of the last one. *)
Lemma repeated_fraction_line_accepted :
  Re.findall (metric "Overall" " fraction of total: " false " in execution")
             repeated_fraction_output
  = ["0.5"; "0.75"]
  ∧ extract_run_results repeated_fraction_output "Overall" false
    = Ok (metrics (lit 200000 1)).
Proof. split; vm_compute; reflexivity. Qed.

(** A rate printed twice is refused. *)
Lemma repeated_rate_line_refused :
  extract_run_results (F:=R)
    (Str.join newline
       (line "Overall TPS: 1.0 txn/s" :: metrics_lines "Overall" "20000.0"))
    "Overall" false
  = Raise AssertionError.
Proof. vm_compute. reflexivity. Qed.

(** *** C8: a test with neither override nor calibration entry *)

(** A test added to the catalog without override, before its row of the
    calibration table exists. *)
Definition uncalibrated : RunGroupConfig.t R :=
  RunGroupConfig.mk (RunGroupKey.of_type "vector-picture40")
    LAND_BLOCKING_AND_C None RunGroupKeyExtra.default false.

(** The state when the loop over the tests starts, in the default
    environment and a world where every command succeeds. *)
Definition state_before_tests : State R :=
  Build_State
    [CargoBuild "aptos-move-e2e-benchmark"; MoveE2EBenchmark;
     CargoBuild "aptos-executor-benchmark"; CreateDb 10000 32 2000000]
    [RunGroupInstance.mk (RunGroupKey.of_type "warmup")
       (RunResults.mk (lit 250000 1) 0 0 0 0 0 0 0 0 0 0)%R ∅ 10000 0%R]
    [] [].

Lemma default_source_recognized : source_recognized default_env.
Proof. unfold source_recognized. simpl. set_solver. Qed.

Lemma default_before_tests :
  before_tests default_env staged_world CALIBRATION initial_state
  = (Ok (false, calibrated_table), state_before_tests).
Proof.
  unfold before_tests. rewrite bind_run.
  replace (move_e2e_benchmark default_env staged_world initial_state)
    with (Ok false : result bool, after_move_e2e (F:=R))
    by (vm_compute; reflexivity).
  rewrite lift_bind_run, calibration_parses.
  generalize calibrated_table. intros tbl. vm_compute. reflexivity.
Qed.

Lemma unconfigured_test_aborts_witness :
  run_test default_env staged_world calibrated_table uncalibrated
    state_before_tests
  = (Raise AssertionError, state_before_tests)
  ∧ script default_env staged_world CALIBRATION ([] ++ uncalibrated :: [])
    = Build_Outcome 1 (Some AssertionError) false state_before_tests.
Proof.
  apply (unconfigured_test_aborts default_env staged_world CALIBRATION []
           [] uncalibrated false calibrated_table state_before_tests
           state_before_tests).
  - exact default_source_recognized.
  - exact default_before_tests.
  - reflexivity.
  - reflexivity.
  - reflexivity.
  - vm_compute. reflexivity.
Defined.

(** C8 fails on this run: when the assertion fails, four processes have
    been launched. *)
Lemma assertion_after_processes_launched :
  let out := script default_env staged_world CALIBRATION [uncalibrated] in
  aborted out = Some AssertionError
  ∧ launched (final out)
    = [CargoBuild "aptos-move-e2e-benchmark"; MoveE2EBenchmark;
       CargoBuild "aptos-executor-benchmark"; CreateDb 10000 32 2000000].
Proof. vm_compute. split; reflexivity. Qed.

(** *** C9: the exit status *)

(** The creation of the database ends with return code 1. *)
Definition failing_db_world : World := fun n command =>
  match command with
  | CreateDb _ _ _ => {| returncode := 1; stdout := [] |}
  | _ => staged_world n command
  end.

(** C9 fails on this run: the status is 1 with no classification error
    recorded and the prerequisite benchmark passed. *)
Lemma process_error_exit_status :
  let out := script default_env failing_db_world CALIBRATION TESTS in
  exit_status out = 1
  ∧ aborted out = Some (CmdExecutionError 1)
  ∧ errors (final out) = []
  ∧ move_e2e_benchmark_failed out = false
  ∧ MoveE2EBenchmark ∈ launched (final out).
Proof. vm_compute. repeat split. set_solver. Qed.

(** The prerequisite benchmark ends with return code 1. *)
Definition failing_e2e_world : World := fun n command =>
  match command with
  | MoveE2EBenchmark => {| returncode := 1; stdout := [] |}
  | _ => staged_world n command
  end.

(** In the land-blocking flow the script ends at once. *)
Lemma prerequisite_failure_land_blocking :
  script (F:=R) default_env failing_e2e_world CALIBRATION TESTS
  = Build_Outcome 1 (Some (SystemExit 1)) false after_move_e2e.
Proof. vm_compute. reflexivity. Qed.

(** In the continuous flow the database is created and the loop over the
    tests runs (here over an empty catalog); the status is 1 at the end. *)
Lemma prerequisite_failure_continuous :
  let out := script (F:=R) (with_flow default_env CONTINUOUS)
               failing_e2e_world CALIBRATION [] in
  exit_status out = 1
  ∧ aborted out = None
  ∧ move_e2e_benchmark_failed out = true
  ∧ launched (final out)
    = [CargoBuild "aptos-move-e2e-benchmark"; MoveE2EBenchmark;
       CargoBuild "aptos-executor-benchmark"; CreateDb 10000 32 2000000].
Proof. vm_compute. repeat split. Qed.

(** *** C10: rows with the same key *)

Definition tab : string := String CALIBRATION_SEPARATOR EmptyString.

(** Two rows for the same key; the ratios of the second are on the wrong
    sides of one. *)
Definition two_rows : string :=
  Str.join newline [
    Str.join tab ["no-op"; "1"; "VM"; "15"; "0.922"; "1.06"; "42737.7"];
    Str.join tab ["no-op"; "1"; "VM"; "8"; "1.5"; "0.5"; "100"]
  ].

Definition second_row : CalibrationData.t R :=
  CalibrationData.mk (lit 100 0) 8 (lit 15 1) (lit 5 1).

Lemma two_rows_parsed :
  rows_of (Str.split "010" two_rows)
    [(RunGroupKey.of_type "no-op", no_op_entry);
     (RunGroupKey.of_type "no-op", second_row)].
Proof.
  unfold rows_of.
  replace (omap row_of_line (Str.split "010" two_rows))
    with [["no-op"; "1"; "VM"; "15"; "0.922"; "1.06"; "42737.7"];
          ["no-op"; "1"; "VM"; "8"; "1.5"; "0.5"; "100"]]
    by (vm_compute; reflexivity).
  constructor; [vm_compute; reflexivity|].
  constructor; [vm_compute; reflexivity|].
  constructor.
Qed.

Lemma duplicate_rows_last_wins_witness :
  ∃ tbl, parse_calibration two_rows = Ok tbl
         ∧ tbl !! RunGroupKey.of_type "no-op" = Some second_row.
Proof.
  destruct (duplicate_rows_last_wins two_rows _ two_rows_parsed)
    as [(tbl & Hparse & Hlast) _].
  exists tbl. split; [exact Hparse|].
  apply (Hlast [(RunGroupKey.of_type "no-op", no_op_entry)] _ _ []).
  - reflexivity.
  - apply not_elem_of_nil.
Defined.

End Examples.

(** * Further properties of the script

    ** What a statement adds to the state *)

Section Effects.
Context (env : Env) (world : World) {F : Type} `{PyFloat F}.

Definition is_run_executor (c : Cmd) : Prop :=
  match c with
  | RunExecutor _ _ _ _ _ _ _ _ _ => True
  | _ => False
  end.

(** A benchmark run of [test]: the run that is measured, with the
    configured number of threads and blocks, or a detailed run, with one of
    the numbers of threads of the detailed runs and without commit; both
    with the block size of the criteria of the test. *)
Definition run_of (tbl : gmap RunGroupKey.t (CalibrationData.t F))
    (test : RunGroupConfig.t F) (c : Cmd) : Prop :=
  ∃ criteria b ex,
    compute_criteria env tbl test = Ok criteria
    ∧ cur_block_size_of env criteria = Ok b
    ∧ executor_type_str_of env test = Ok ex
    ∧ (c = test_db_command env test ex b (NUMBER_OF_EXECUTION_THREADS env)
             false (NUM_BLOCKS env)
       ∨ ∃ threads,
           threads ∈ EXECUTION_ONLY_NUMBER_OF_THREADS env
           ∧ c = test_db_command env test ex b threads true
                   NUM_BLOCKS_DETAILED).

Lemma run_of_is_run_executor
    (tbl : gmap RunGroupKey.t (CalibrationData.t F))
    (test : RunGroupConfig.t F) (c : Cmd) :
  run_of tbl test c → is_run_executor c.
Proof.
  intros (criteria & b & ex & _ & _ & _ & [->|(threads & _ & ->)]); exact I.
Qed.

(** The state [st] with commands added to the launched ones. *)
Definition with_launched (st : State F) (cmds : list Cmd) : State F :=
  Build_State (launched st ++ cmds) (results st) (warnings st) (errors st).

Lemma with_launched_nil (st : State F) : with_launched st [] = st.
Proof. unfold with_launched. rewrite app_nil_r. destruct st; reflexivity. Qed.

Lemma with_launched_app (st : State F) (a b : list Cmd) :
  with_launched (with_launched st a) b = with_launched st (a ++ b).
Proof. unfold with_launched. simpl. rewrite app_assoc. reflexivity. Qed.

Lemma execute_command_run (command : Cmd) (st : State F) :
  execute_command world command st
  = (command_result (world (length (launched st)) command),
     with_launched st [command]).
Proof. reflexivity. Qed.

(** The detailed runs launch benchmark runs without commit, one for each
    number of threads until a run fails, and change nothing else. *)
Lemma detailed_runs_inv (test : RunGroupConfig.t F) (ex : string) (b : Z)
    (threads : list Z) (ntr : gmap Z (RunResults.t F)) (st st1 : State F)
    (out : result (gmap Z (RunResults.t F))) :
  detailed_runs env world test ex b threads ntr st = (out, st1) →
  ∃ cmds, st1 = with_launched st cmds
          ∧ Forall (fun c => ∃ t, t ∈ threads
                                  ∧ c = test_db_command env test ex b t true
                                          NUM_BLOCKS_DETAILED) cmds
          ∧ (∀ r, out = Ok r →
               length cmds = length threads
               ∧ ∀ t, is_Some (r !! t) ↔ t ∈ threads ∨ is_Some (ntr !! t)).
Proof.
  revert ntr st. induction threads as [|t threads IH]; intros ntr st.
  - intros [= <- <-]. exists []. rewrite with_launched_nil.
    split; [reflexivity|]. split; [constructor|].
    intros r [= <-]. split; [reflexivity|]. intros t. split; [auto|].
    intros [Hin|Hs]; [inversion Hin|exact Hs].
  - rewrite detailed_runs_cons, bind_run, execute_command_run.
    assert (∃ t', t' ∈ t :: threads
                  ∧ test_db_command env test ex b t true NUM_BLOCKS_DETAILED
                    = test_db_command env test ex b t' true
                        NUM_BLOCKS_DETAILED) as Hhead
      by (exists t; split; [apply elem_of_cons; auto|reflexivity]).
    destruct (command_result _) as [output|e].
    + rewrite lift_bind_run.
      destruct (extract_run_results output "Overall execution" false)
        as [r|e].
      * intros Hrun. apply IH in Hrun as (cmds & -> & Hall & Heq).
        eexists (_ :: cmds). rewrite with_launched_app. simpl.
        split; [reflexivity|]. split.
        -- constructor; [exact Hhead|].
           eapply Forall_impl; [exact Hall|]. intros c (t' & Ht' & ->).
           exists t'. split; [apply elem_of_cons; auto|reflexivity].
        -- intros r' Hr'. destruct (Heq r' Hr') as [Hlen Hdom].
           split; [rewrite Hlen; reflexivity|]. intros t'.
           rewrite Hdom, lookup_insert_is_Some, elem_of_cons.
           destruct (decide (t = t')) as [->|Hne]; [tauto|].
           split; [intros [?|[?|[_ ?]]]; auto; congruence|].
           intros [[?|?]|?]; auto; congruence.
      * intros [= <- <-]. eexists [_]. split; [reflexivity|].
        split; [repeat constructor; exact Hhead|intros r' [=]].
    + intros [= <- <-]. eexists [_]. split; [reflexivity|].
      split; [repeat constructor; exact Hhead|intros r' [=]].
Qed.

(** The outcome of the body of the loop for one test: either a step fails,
    and then only benchmark runs of the test have been launched, or every
    step succeeds and the state is the one of [run_test_success] with the
    report of the overall result recorded. *)
Lemma run_test_inv (tbl : gmap RunGroupKey.t (CalibrationData.t F))
    (test : RunGroupConfig.t F) (st st' : State F) (r : result unit) :
  run_test env world tbl test st = (r, st') →
  (∃ e cmds, r = Raise e ∧ st' = with_launched st cmds
             ∧ Forall (run_of tbl test) cmds)
  ∨ (∃ criteria b ntr cmds rr stages,
       compute_criteria env tbl test = Ok criteria
       ∧ cur_block_size_of env criteria = Ok b
       ∧ Forall (run_of tbl test) cmds
       ∧ length cmds = S (length (EXECUTION_ONLY_NUMBER_OF_THREADS env))
       ∧ (∀ t, is_Some (ntr !! t)
               ↔ t ∈ EXECUTION_ONLY_NUMBER_OF_THREADS env)
       ∧ r = Ok tt
       ∧ st' = Spec.record (RunGroupConfig.key test) criteria
                 (RunResults.tps rr)
                 (Spec.report (RunGroupConfig.waived test) criteria
                    (Spec.tier (SKIP_PERF_IMPROVEMENT_NOTICE env) criteria
                       (RunResults.tps rr)))
                 (Build_State (launched st ++ cmds)
                    (results st
                     ++ RunGroupInstance.mk (RunGroupConfig.key test) rr ntr
                          b (Criteria.expected_tps criteria)
                        :: stage_rows test criteria ntr b stages)
                    (warnings st) (errors st))).
Proof.
  unfold run_test. rewrite lift_bind_run.
  destruct (compute_criteria env tbl test) as [criteria|e] eqn:Hc.
  2: { intros [= <- <-]. left. exists e, [].
       rewrite with_launched_nil. repeat split. constructor. }
  rewrite lift_bind_run.
  destruct (cur_block_size_of env criteria) as [b|e] eqn:Hb.
  2: { intros [= <- <-]. left. exists e, [].
       rewrite with_launched_nil. repeat split. constructor. }
  rewrite lift_bind_run.
  destruct (executor_type_str_of env test) as [ex|e] eqn:Hex.
  2: { intros [= <- <-]. left. exists e, [].
       rewrite with_launched_nil. repeat split. constructor. }
  rewrite bind_run.
  destruct (detailed_runs env world test ex b
              (EXECUTION_ONLY_NUMBER_OF_THREADS env) ∅ st)
    as [[ntr|e] st1] eqn:Hd;
    apply detailed_runs_inv in Hd as (cmds & -> & Hdetailed & Hlen).
  all: assert (Forall (run_of tbl test) cmds) as Hcmds
      by (eapply Forall_impl; [exact Hdetailed|];
          intros c (t & Ht & ->); exists criteria, b, ex;
          split; [exact Hc|]; split; [exact Hb|]; split; [exact Hex|];
          right; exists t; split; [exact Ht|reflexivity]).
  2: { intros [= <- <-]. left. exists e, cmds. repeat split. assumption. }
  assert (Forall (run_of tbl test)
            (cmds ++ [test_db_command env test ex b
                        (NUMBER_OF_EXECUTION_THREADS env) false
                        (NUM_BLOCKS env)])) as Hall.
  { apply Forall_app. split; [exact Hcmds|]. repeat constructor.
    exists criteria, b, ex. split; [exact Hc|]. split; [exact Hb|].
    split; [exact Hex|]. left. reflexivity. }
  rewrite bind_run, execute_command_run.
  destruct (command_result _) as [output|e].
  2: { intros [= <- <-]. left. eexists e, _.
       rewrite with_launched_app. repeat split. exact Hall. }
  rewrite lift_bind_run.
  destruct (extract_run_results output "Overall" false) as [rr|e].
  2: { intros [= <- <-]. left. eexists e, _.
       rewrite with_launched_app. repeat split. exact Hall. }
  rewrite lift_bind_run.
  destruct (stage_node_results output) as [stages|e].
  2: { intros [= <- <-]. left. eexists e, _.
       rewrite with_launched_app. repeat split. exact Hall. }
  rewrite bind_run. unfold results_append at 1. cbv beta iota.
  rewrite bind_run, append_stage_results_run. cbv beta iota.
  rewrite classify_run. intros [= <- <-]. right.
  exists criteria, b, ntr,
    (cmds ++ [test_db_command env test ex b (NUMBER_OF_EXECUTION_THREADS env)
                false (NUM_BLOCKS env)]), rr, stages.
  split; [reflexivity|]. split; [exact Hb|]. split; [exact Hall|].
  destruct (Hlen ntr eq_refl) as [Hlength Hdom].
  split; [rewrite length_app, Hlength; simpl; lia|].
  split.
  { intros t. rewrite Hdom, lookup_empty. split; [|auto].
    intros [Hin|[x [=]]]. exact Hin. }
  split; [reflexivity|].
  cbn [launched results warnings errors with_launched].
  rewrite <- !app_assoc. reflexivity.
Qed.

End Effects.

(** ** The notices and rows a test leaves *)

Section Notices.
Context (env : Env) (world : World) {F : Type} `{PyFloat F}.

(** An entry of [errors] about [test]: the test is not waived, and the
    measurement is below the hard lower bound or, where improvements are
    looked at, above the hard upper bound. *)
Definition error_of (test : RunGroupConfig.t F) (criteria : Criteria.t F)
    (n : Notice F) : Prop :=
  about n = RunGroupConfig.key test
  ∧ expected_median n = Criteria.expected_tps criteria
  ∧ RunGroupConfig.waived test = false
  ∧ ((kind n = Regression
      ∧ threshold n = Criteria.min_tps criteria
      ∧ flt (measured n) (Criteria.min_tps criteria) = true)
     ∨ (kind n = Improvement
        ∧ SKIP_PERF_IMPROVEMENT_NOTICE env = false
        ∧ threshold n = Criteria.max_tps criteria
        ∧ fgt (measured n) (Criteria.max_tps criteria) = true)).

(** An entry of [warnings] about [test]: a hard notice of a waived test or a
    soft notice; an improvement only where improvements are looked at. *)
Definition warning_of (test : RunGroupConfig.t F) (criteria : Criteria.t F)
    (n : Notice F) : Prop :=
  about n = RunGroupConfig.key test
  ∧ expected_median n = Criteria.expected_tps criteria
  ∧ ((kind n = Regression
      ∧ RunGroupConfig.waived test = true
      ∧ threshold n = Criteria.min_tps criteria
      ∧ flt (measured n) (Criteria.min_tps criteria) = true)
     ∨ (kind n = PotentialRegression
        ∧ threshold n = Criteria.min_warn_tps criteria
        ∧ flt (measured n) (Criteria.min_warn_tps criteria) = true)
     ∨ (kind n = Improvement
        ∧ RunGroupConfig.waived test = true
        ∧ SKIP_PERF_IMPROVEMENT_NOTICE env = false
        ∧ threshold n = Criteria.max_tps criteria
        ∧ fgt (measured n) (Criteria.max_tps criteria) = true)
     ∨ (kind n = PotentialImprovement
        ∧ SKIP_PERF_IMPROVEMENT_NOTICE env = false
        ∧ threshold n = Criteria.max_warn_tps criteria
        ∧ fgt (measured n) (Criteria.max_warn_tps criteria) = true)).

(** The measurement passes the hard comparisons of the classifier, in the
    order the classifier makes them. *)
Definition within_hard_bounds (criteria : Criteria.t F) (tps : F) : Prop :=
  flt tps (Criteria.min_tps criteria) = false
  ∧ (SKIP_PERF_IMPROVEMENT_NOTICE env = false →
     flt tps (Criteria.min_warn_tps criteria) = false →
     fgt tps (Criteria.max_tps criteria) = false).

(** A row of the table of results that belongs to [test]: under the key of
    the test or of one of its stages, with the expected tps and the block
    size of its criteria, and with a result for each number of threads of
    the detailed runs and no other. *)
Definition row_of (tbl : gmap RunGroupKey.t (CalibrationData.t F))
    (test : RunGroupConfig.t F) (row : RunGroupInstance.t F) : Prop :=
  ∃ criteria,
    compute_criteria env tbl test = Ok criteria
    ∧ RunGroupInstance.expected_tps row = Criteria.expected_tps criteria
    ∧ cur_block_size_of env criteria = Ok (RunGroupInstance.block_size row)
    ∧ (∀ t, is_Some (RunGroupInstance.number_of_threads_results row !! t)
            ↔ t ∈ EXECUTION_ONLY_NUMBER_OF_THREADS env)
    ∧ (RunGroupInstance.key row = RunGroupConfig.key test
       ∨ ∃ i, RunGroupInstance.key row
              = stage_key (RunGroupConfig.key test) i).

Definition run_in (tbl : gmap RunGroupKey.t (CalibrationData.t F))
    (tests : list (RunGroupConfig.t F)) (c : Cmd) : Prop :=
  ∃ t, t ∈ tests ∧ selected env t = true ∧ run_of env tbl t c.

Definition row_in (tbl : gmap RunGroupKey.t (CalibrationData.t F))
    (tests : list (RunGroupConfig.t F)) (row : RunGroupInstance.t F) : Prop :=
  ∃ t, t ∈ tests ∧ selected env t = true ∧ row_of tbl t row.

(** A notice of the kind [P] about a selected test of [tests], whose
    measurement is the throughput of a row of [rows] under the key of the
    test. *)
Definition notice_in
    (P : RunGroupConfig.t F → Criteria.t F → Notice F → Prop)
    (tbl : gmap RunGroupKey.t (CalibrationData.t F))
    (tests : list (RunGroupConfig.t F)) (rows : list (RunGroupInstance.t F))
    (n : Notice F) : Prop :=
  ∃ t criteria row,
    t ∈ tests ∧ selected env t = true
    ∧ compute_criteria env tbl t = Ok criteria
    ∧ P t criteria n
    ∧ row ∈ rows
    ∧ RunGroupInstance.key row = RunGroupConfig.key t
    ∧ RunResults.tps (RunGroupInstance.single_node_result row) = measured n.

Lemma run_in_mono (tbl : gmap RunGroupKey.t (CalibrationData.t F))
    (tests tests' : list (RunGroupConfig.t F)) (c : Cmd) :
  (∀ t, t ∈ tests → t ∈ tests') →
  run_in tbl tests c → run_in tbl tests' c.
Proof. intros Ht (t & Hin & Hp). exists t. split; [auto|exact Hp]. Qed.

Lemma row_in_mono (tbl : gmap RunGroupKey.t (CalibrationData.t F))
    (tests tests' : list (RunGroupConfig.t F)) (row : RunGroupInstance.t F) :
  (∀ t, t ∈ tests → t ∈ tests') →
  row_in tbl tests row → row_in tbl tests' row.
Proof. intros Ht (t & Hin & Hp). exists t. split; [auto|exact Hp]. Qed.

Lemma notice_in_mono
    (P : RunGroupConfig.t F → Criteria.t F → Notice F → Prop)
    (tbl : gmap RunGroupKey.t (CalibrationData.t F))
    (tests tests' : list (RunGroupConfig.t F))
    (rows rows' : list (RunGroupInstance.t F)) (n : Notice F) :
  (∀ t, t ∈ tests → t ∈ tests') →
  (∀ r, r ∈ rows → r ∈ rows') →
  notice_in P tbl tests rows n → notice_in P tbl tests' rows' n.
Proof.
  intros Ht Hr (t & criteria & row & Hin & Hsel & Hc & Hp & Hrow & Hrest).
  exists t, criteria, row.
  split; [auto|]. split; [exact Hsel|]. split; [exact Hc|].
  split; [exact Hp|]. split; [auto|exact Hrest].
Qed.

(** What a run of the given tests has added to a state. *)
Definition tests_added (tbl : gmap RunGroupKey.t (CalibrationData.t F))
    (tests : list (RunGroupConfig.t F)) (st st' : State F) : Prop :=
  ∃ cmds rows ws es,
    launched st' = launched st ++ cmds
    ∧ results st' = results st ++ rows
    ∧ warnings st' = warnings st ++ ws
    ∧ errors st' = errors st ++ es
    ∧ Forall (run_in tbl tests) cmds
    ∧ Forall (row_in tbl tests) rows
    ∧ Forall (notice_in warning_of tbl tests rows) ws
    ∧ Forall (notice_in error_of tbl tests rows) es
    ∧ (length ws + length es
       ≤ length (filter (fun t => selected env t = true) tests))%nat.

Lemma tests_added_launched (tbl : gmap RunGroupKey.t (CalibrationData.t F))
    (tests : list (RunGroupConfig.t F)) (st : State F) (cmds : list Cmd) :
  Forall (run_in tbl tests) cmds →
  tests_added tbl tests st (with_launched st cmds).
Proof.
  intros Hc. exists cmds, [], [], []. simpl. rewrite !app_nil_r.
  split; [reflexivity|]. split; [reflexivity|]. split; [reflexivity|].
  split; [reflexivity|]. split; [exact Hc|].
  split; [constructor|]. split; [constructor|]. split; [constructor|lia].
Qed.

Lemma tests_added_refl (tbl : gmap RunGroupKey.t (CalibrationData.t F))
    (tests : list (RunGroupConfig.t F)) (st : State F) :
  tests_added tbl tests st st.
Proof.
  rewrite <- (with_launched_nil st) at 2.
  apply tests_added_launched. constructor.
Qed.

(** The report of one measurement adds at most one notice, of the kind the
    test and the flow allow; with no error added, the measurement of a test
    that is not waived is within the hard bounds. *)
Lemma record_report_effect (test : RunGroupConfig.t F)
    (criteria : Criteria.t F) (tps : F) (st : State F) :
  let st' := Spec.record (RunGroupConfig.key test) criteria tps
               (Spec.report (RunGroupConfig.waived test) criteria
                  (Spec.tier (SKIP_PERF_IMPROVEMENT_NOTICE env) criteria tps))
               st in
  launched st' = launched st
  ∧ results st' = results st
  ∧ ∃ ws es,
      warnings st' = warnings st ++ ws
      ∧ errors st' = errors st ++ es
      ∧ Forall (fun n => warning_of test criteria n ∧ measured n = tps) ws
      ∧ Forall (fun n => error_of test criteria n ∧ measured n = tps) es
      ∧ (length ws + length es ≤ 1)%nat
      ∧ (es = [] → RunGroupConfig.waived test = false →
         within_hard_bounds criteria tps).
Proof.
  cbv zeta. unfold Spec.tier, within_hard_bounds.
  destruct (flt tps (Criteria.min_tps criteria)) eqn:H1;
    [|destruct (flt tps (Criteria.min_warn_tps criteria)) eqn:H2;
      [|destruct (SKIP_PERF_IMPROVEMENT_NOTICE env) eqn:Hs;
        [|destruct (fgt tps (Criteria.max_tps criteria)) eqn:H3;
          [|destruct (fgt tps (Criteria.max_warn_tps criteria)) eqn:H4]]]];
    destruct (RunGroupConfig.waived test) eqn:Hw; simpl;
    (split; [reflexivity|split; [reflexivity|]]);
    first [ exists [], []; rewrite !app_nil_r;
            split; [reflexivity|split; [reflexivity|]];
            split; [constructor|split; [constructor|]];
            split; [simpl; lia|];
            intros _ Hx; first [discriminate Hx | split; [reflexivity|];
                                 intros; congruence]
          | eexists [_], []; rewrite app_nil_r;
            split; [reflexivity|split; [reflexivity|]];
            split; [|split; [constructor|]];
            [ repeat constructor; unfold warning_of; simpl;
              repeat split; tauto
            | split; [simpl; lia|];
              intros _ Hx; first [discriminate Hx | split; [reflexivity|];
                                   intros; congruence] ]
          | eexists [], [_]; rewrite app_nil_r;
            split; [reflexivity|split; [reflexivity|]];
            split; [constructor|split];
            [ repeat constructor; unfold error_of; simpl;
              repeat split; tauto
            | split; [simpl; lia|intros [=]] ] ].
Qed.

Lemma stage_rows_row_of (tbl : gmap RunGroupKey.t (CalibrationData.t F))
    (test : RunGroupConfig.t F) (criteria : Criteria.t F)
    (ntr : gmap Z (RunResults.t F)) (b : Z)
    (stages : list (nat * RunResults.t F)) :
  compute_criteria env tbl test = Ok criteria →
  cur_block_size_of env criteria = Ok b →
  (∀ t, is_Some (ntr !! t) ↔ t ∈ EXECUTION_ONLY_NUMBER_OF_THREADS env) →
  Forall (row_of tbl test) (stage_rows test criteria ntr b stages).
Proof.
  intros Hc Hb Hdom. unfold stage_rows. apply Forall_fmap, Forall_forall.
  intros [i r] _. exists criteria. simpl.
  split; [exact Hc|]. split; [reflexivity|]. split; [exact Hb|].
  split; [exact Hdom|]. right. exists i. reflexivity.
Qed.

(** One selected test adds what [tests_added] says of the list of that
    test alone. *)
Lemma run_test_added (tbl : gmap RunGroupKey.t (CalibrationData.t F))
    (test : RunGroupConfig.t F) (st st' : State F) (r : result unit) :
  selected env test = true →
  run_test env world tbl test st = (r, st') →
  tests_added tbl [test] st st'.
Proof.
  intros Hsel Hrun.
  apply run_test_inv in Hrun
    as [(e & cmds & -> & -> & Hcmds)
       |(criteria & b & ntr & cmds & rr & stages & Hc & Hb & Hcmds & _
         & Hdom & -> & ->)].
  - apply tests_added_launched.
    eapply Forall_impl; [exact Hcmds|]. intros c Hc. exists test.
    split; [apply list_elem_of_singleton; reflexivity|].
    split; [exact Hsel|exact Hc].
  - pose proof (record_report_effect test criteria (RunResults.tps rr)
                  (Build_State (launched st ++ cmds)
                     (results st
                      ++ RunGroupInstance.mk (RunGroupConfig.key test) rr ntr
                           b (Criteria.expected_tps criteria)
                         :: stage_rows test criteria ntr b stages)
                     (warnings st) (errors st)))
      as (Hl & Hr & ws & es & Hw & He & Hws & Hes & Hlen & _).
    cbv zeta in Hl, Hr, Hw, He. simpl in Hl, Hr, Hw, He.
    exists cmds, (RunGroupInstance.mk (RunGroupConfig.key test) rr ntr b
                    (Criteria.expected_tps criteria)
                  :: stage_rows test criteria ntr b stages), ws, es.
    split; [exact Hl|]. split; [exact Hr|]. split; [exact Hw|].
    split; [exact He|].
    assert (test ∈ [test]) as Hin
      by (apply list_elem_of_singleton; reflexivity).
    split; [eapply Forall_impl; [exact Hcmds|]; intros c Hrun;
            exists test; split; [exact Hin|]; split; [exact Hsel|exact Hrun]|].
    assert (∀ P n, P test criteria n ∧ measured n = RunResults.tps rr →
                   notice_in P tbl [test]
                     (RunGroupInstance.mk (RunGroupConfig.key test) rr ntr b
                        (Criteria.expected_tps criteria)
                      :: stage_rows test criteria ntr b stages) n) as Hn.
    { intros P n [Hp Hm]. eexists test, criteria, _.
      split; [exact Hin|]. split; [exact Hsel|]. split; [exact Hc|].
      split; [exact Hp|]. split; [apply elem_of_cons; left; reflexivity|].
      split; [reflexivity|]. simpl. symmetry. exact Hm. }
    split; [|split; [|split]].
    + apply Forall_forall. intros row Hrow. exists test.
      split; [exact Hin|]. split; [exact Hsel|].
      apply elem_of_cons in Hrow as [->|Hrow].
      * exists criteria. simpl. split; [exact Hc|]. split; [reflexivity|].
        split; [exact Hb|]. split; [exact Hdom|]. left. reflexivity.
      * pose proof (stage_rows_row_of tbl test criteria ntr b stages Hc Hb
                      Hdom) as Hall.
        rewrite Forall_forall in Hall. apply Hall. assumption.
    + eapply Forall_impl; [exact Hws|]. intros n. apply Hn.
    + eapply Forall_impl; [exact Hes|]. intros n. apply Hn.
    + rewrite filter_cons_True by exact Hsel. simpl. exact Hlen.
Qed.

Lemma tests_added_cons (tbl : gmap RunGroupKey.t (CalibrationData.t F))
    (test : RunGroupConfig.t F) (tests : list (RunGroupConfig.t F))
    (st st1 st2 : State F) :
  (if selected env test then tests_added tbl [test] st st1 else st1 = st) →
  tests_added tbl tests st1 st2 →
  tests_added tbl (test :: tests) st st2.
Proof.
  intros H1 (c2 & r2 & w2 & e2 & Hl2 & Hr2 & Hw2 & He2 & Hc2 & Hrow2 & Hws2
             & Hes2 & Hlen2).
  assert (∀ t, t ∈ tests → t ∈ test :: tests) as Htl
    by (intros t Ht; apply elem_of_cons; auto).
  assert (∀ t, t ∈ [test] → t ∈ test :: tests) as Hhd
    by (intros t Ht; apply list_elem_of_singleton in Ht as ->;
        apply elem_of_cons; auto).
  destruct (selected env test) eqn:Hsel.
  - destruct H1 as (c1 & r1 & w1 & e1 & Hl1 & Hr1 & Hw1 & He1 & Hc1 & Hrow1
                    & Hws1 & Hes1 & Hlen1).
    exists (c1 ++ c2), (r1 ++ r2), (w1 ++ w2), (e1 ++ e2).
    rewrite Hl2, Hl1, Hr2, Hr1, Hw2, Hw1, He2, He1, !app_assoc.
    split; [reflexivity|]. split; [reflexivity|]. split; [reflexivity|].
    split; [reflexivity|].
    split; [apply Forall_app; split;
            [eapply Forall_impl; [exact Hc1|]; intros c;
             apply run_in_mono; exact Hhd
            |eapply Forall_impl; [exact Hc2|]; intros c;
             apply run_in_mono; exact Htl]|].
    split; [|split; [|split]].
    + apply Forall_app. split.
      * eapply Forall_impl; [exact Hrow1|]. intros row.
        apply row_in_mono. exact Hhd.
      * eapply Forall_impl; [exact Hrow2|]. intros row.
        apply row_in_mono. exact Htl.
    + apply Forall_app. split.
      * eapply Forall_impl; [exact Hws1|]. intros n.
        apply notice_in_mono; [exact Hhd|].
        intros r Hr. apply elem_of_app. auto.
      * eapply Forall_impl; [exact Hws2|]. intros n.
        apply notice_in_mono; [exact Htl|].
        intros r Hr. apply elem_of_app. auto.
    + apply Forall_app. split.
      * eapply Forall_impl; [exact Hes1|]. intros n.
        apply notice_in_mono; [exact Hhd|].
        intros r Hr. apply elem_of_app. auto.
      * eapply Forall_impl; [exact Hes2|]. intros n.
        apply notice_in_mono; [exact Htl|].
        intros r Hr. apply elem_of_app. auto.
    + rewrite !length_app. rewrite filter_cons_True by exact Hsel.
      rewrite filter_cons_True in Hlen1 by exact Hsel. simpl in *. lia.
  - subst st1. exists c2, r2, w2, e2.
    split; [exact Hl2|]. split; [exact Hr2|]. split; [exact Hw2|].
    split; [exact He2|].
    split; [eapply Forall_impl; [exact Hc2|]; intros c;
            apply run_in_mono; exact Htl|].
    split; [|split; [|split]].
    + eapply Forall_impl; [exact Hrow2|]. intros row.
      apply row_in_mono. exact Htl.
    + eapply Forall_impl; [exact Hws2|]. intros n.
      apply notice_in_mono; [exact Htl|auto].
    + eapply Forall_impl; [exact Hes2|]. intros n.
      apply notice_in_mono; [exact Htl|auto].
    + rewrite filter_cons_False by (rewrite Hsel; discriminate). exact Hlen2.
Qed.

(** The loop over the tests. *)
Lemma run_tests_added (tbl : gmap RunGroupKey.t (CalibrationData.t F))
    (tests : list (RunGroupConfig.t F)) (st st' : State F) (r : result unit) :
  run_tests env world tbl tests st = (r, st') →
  tests_added tbl tests st st'.
Proof.
  revert st. induction tests as [|test tests IH]; intros st.
  - intros [= <- <-]. apply tests_added_refl.
  - rewrite run_tests_cons.
    destruct (selected env test) eqn:Hsel.
    + destruct (run_test env world tbl test st) as [[[]|e] st1] eqn:Hrun.
      * intros Hrest. apply (tests_added_cons tbl test tests st st1 st').
        -- rewrite Hsel. eapply run_test_added; eassumption.
        -- apply IH. assumption.
      * intros [= <- <-]. apply (tests_added_cons tbl test tests st st1 st1).
        -- rewrite Hsel. eapply run_test_added; eassumption.
        -- apply tests_added_refl.
    + intros Hrest. apply (tests_added_cons tbl test tests st st st').
      * rewrite Hsel. reflexivity.
      * apply IH. assumption.
Qed.

(** When the loop reaches its end, every selected test has its row, and
    each has launched one benchmark run and one more for every number of
    threads of the detailed runs. With no error added, the measurement of
    every selected test that is not waived is within the hard bounds. *)
Lemma run_tests_measured (tbl : gmap RunGroupKey.t (CalibrationData.t F))
    (tests : list (RunGroupConfig.t F)) (st st' : State F) :
  run_tests env world tbl tests st = (Ok tt, st') →
  (∀ t, t ∈ tests → selected env t = true →
     ∃ criteria row,
       compute_criteria env tbl t = Ok criteria
       ∧ row ∈ results st'
       ∧ RunGroupInstance.key row = RunGroupConfig.key t
       ∧ RunGroupInstance.expected_tps row = Criteria.expected_tps criteria
       ∧ (errors st' = errors st → RunGroupConfig.waived t = false →
          within_hard_bounds criteria
            (RunResults.tps (RunGroupInstance.single_node_result row))))
  ∧ length (launched st')
    = (length (launched st)
       + S (length (EXECUTION_ONLY_NUMBER_OF_THREADS env))
         * length (filter (fun t => selected env t = true) tests))%nat.
Proof.
  revert st. induction tests as [|test tests IH]; intros st.
  - intros [= <-]. split; [intros t Ht; inversion Ht|].
    rewrite filter_nil. simpl. lia.
  - rewrite run_tests_cons.
    destruct (selected env test) eqn:Hsel.
    + destruct (run_test env world tbl test st) as [[[]|e] st1] eqn:Hrun;
        [|intros [=]].
      intros Hrest.
      pose proof (run_tests_added tbl tests st1 st' _ Hrest)
        as (c2 & r2 & w2 & e2 & Hl2 & Hr2 & Hw2 & He2 & _).
      destruct (IH st1 Hrest) as [IHrows IHlen].
      apply run_test_inv in Hrun
        as [(e & cmds & [=] & _)
           |(criteria & b & ntr & cmds & rr & stages & Hc & Hb & Hcmds
             & Hlen & _ & _ & Hst1)].
      pose proof (record_report_effect test criteria (RunResults.tps rr)
                    (Build_State (launched st ++ cmds)
                       (results st
                        ++ RunGroupInstance.mk (RunGroupConfig.key test) rr
                             ntr b (Criteria.expected_tps criteria)
                           :: stage_rows test criteria ntr b stages)
                       (warnings st) (errors st)))
        as (Hl & Hr & ws & es & Hw & He & _ & _ & _ & Hbounds).
      cbv zeta in Hl, Hr, Hw, He. rewrite <- Hst1 in Hl, Hr, Hw, He.
      simpl in Hl, Hr, Hw, He.
      split.
      * intros t Ht Htsel. apply elem_of_cons in Ht as [->|Ht].
        -- eexists criteria, _. split; [exact Hc|].
           split; [rewrite Hr2, Hr; apply elem_of_app; left;
                   apply elem_of_app; right; apply elem_of_cons; left;
                   reflexivity|].
           split; [reflexivity|]. split; [reflexivity|].
           intros Herr Hwaived. simpl. apply Hbounds; [|exact Hwaived].
           rewrite He2, He, <- app_assoc in Herr.
           assert (es ++ e2 = []) as Hnil
             by (apply (app_inv_head (errors st)); rewrite app_nil_r;
                 exact Herr).
           apply app_eq_nil in Hnil as [-> _]. reflexivity.
        -- destruct (IHrows t Ht Htsel)
             as (criteria' & row & Hc' & Hrow & Hkey & Hexp & Hb').
           exists criteria', row. split; [exact Hc'|]. split; [exact Hrow|].
           split; [exact Hkey|]. split; [exact Hexp|].
           intros Herr. apply Hb'.
           rewrite He2, He, <- app_assoc in Herr.
           assert (es ++ e2 = []) as Hnil
             by (apply (app_inv_head (errors st)); rewrite app_nil_r;
                 exact Herr).
           apply app_eq_nil in Hnil as [_ ->]. rewrite He2, app_nil_r.
           reflexivity.
      * rewrite IHlen, Hl, length_app, Hlen.
        rewrite filter_cons_True by exact Hsel. simpl. lia.
    + intros Hrest. destruct (IH st Hrest) as [IHrows IHlen].
      split.
      * intros t Ht Htsel. apply elem_of_cons in Ht as [->|Ht];
          [congruence|]. apply IHrows; assumption.
      * rewrite IHlen.
        rewrite filter_cons_False by (rewrite Hsel; discriminate).
        reflexivity.
Qed.

End Notices.

(** ** The processes behind a run that reaches its end *)

Section Processes.
Context (env : Env) (world : World) {F : Type} `{PyFloat F}.

(** The process launched as the [i]-th command has ended with return code 0
    and has written no error line. *)
Definition process_succeeded (i : nat) (c : Cmd) : Prop :=
  returncode (world i c) = 0
  ∧ Str.contains " ERROR " (Str.join newline (stdout (world i c))) = false.

Lemma command_result_Ok (p : ProcResult) (o : string) :
  command_result p = Ok o →
  returncode p = 0
  ∧ Str.contains " ERROR " (Str.join newline (stdout p)) = false.
Proof.
  unfold command_result.
  destruct (Z.eqb_spec (returncode p) 0) as [Hz|Hz]; simpl; [|intros [=]].
  destruct (Str.contains _ _); [intros [=]|]. intros _. split; trivial.
Qed.

(** Every launched process has succeeded; with [lenient], the prerequisite
    benchmark may have failed. *)
Definition all_succeeded (lenient : bool) (st : State F) : Prop :=
  ∀ i c, launched st !! i = Some c →
         process_succeeded i c ∨ (lenient = true ∧ c = MoveE2EBenchmark).

Definition keeps_succeeded {A} (m : M F A) : Prop :=
  ∀ lenient st a st',
    m st = (Ok a, st') → all_succeeded lenient st → all_succeeded lenient st'.

Lemma keeps_succeeded_mret {A} (a : A) : keeps_succeeded (mret a).
Proof. intros lenient st a' st' [= _ <-]. trivial. Qed.

Lemma keeps_succeeded_lift {A} (r : result A) : keeps_succeeded (lift r).
Proof. intros lenient st a st' [= _ <-]. trivial. Qed.

Lemma keeps_succeeded_bind {A B} (m : M F A) (k : A → M F B) :
  keeps_succeeded m → (∀ a, keeps_succeeded (k a)) →
  keeps_succeeded (m ≫= k).
Proof.
  intros Hm Hk lenient st b st'. rewrite bind_run.
  destruct (m st) as [[a|e] st1] eqn:Hrun; [|intros [=]].
  intros Hrest Hst. eapply Hk; [exact Hrest|]. eapply Hm; eassumption.
Qed.

Lemma all_succeeded_launch (lenient : bool) (st : State F) (c : Cmd) :
  all_succeeded lenient st →
  process_succeeded (length (launched st)) c
  ∨ (lenient = true ∧ c = MoveE2EBenchmark) →
  all_succeeded lenient (with_launched st [c]).
Proof.
  intros Hst Hc i c'. simpl. intros Hi.
  apply lookup_app_Some in Hi as [Hi|[Hlen Hi]]; [apply Hst; exact Hi|].
  apply list_lookup_singleton_Some in Hi as [Hz <-].
  replace i with (length (launched st)) by lia. exact Hc.
Qed.

Lemma keeps_succeeded_execute_command (command : Cmd) :
  keeps_succeeded (execute_command world command).
Proof.
  intros lenient st o st'. rewrite execute_command_run.
  intros [= Hr <-] Hst. apply all_succeeded_launch; [exact Hst|].
  left. eapply command_result_Ok. exact Hr.
Qed.

Lemma keeps_succeeded_results_append (r : RunGroupInstance.t F) :
  keeps_succeeded (results_append r).
Proof. intros lenient st a st' [= _ <-]. trivial. Qed.

Lemma keeps_succeeded_classify (test : RunGroupConfig.t F)
    (criteria : Criteria.t F) (r : RunResults.t F) :
  keeps_succeeded (classify env test criteria r).
Proof.
  intros lenient st a st'. unfold classify.
  repeat match goal with
         | |- context [if ?b then _ else _] => destruct b
         end; intros [= _ <-]; trivial.
Qed.

Lemma keeps_succeeded_detailed_runs (test : RunGroupConfig.t F) (ex : string)
    (b : Z) (threads : list Z) (ntr : gmap Z (RunResults.t F)) :
  keeps_succeeded (detailed_runs env world test ex b threads ntr).
Proof.
  revert ntr. induction threads as [|t threads IH]; intros ntr.
  - apply keeps_succeeded_mret.
  - rewrite detailed_runs_cons.
    apply keeps_succeeded_bind; [apply keeps_succeeded_execute_command|].
    intros output.
    apply keeps_succeeded_bind; [apply keeps_succeeded_lift|].
    intros r. apply IH.
Qed.

Lemma keeps_succeeded_append_stage_results (test : RunGroupConfig.t F)
    (criteria : Criteria.t F) (ntr : gmap Z (RunResults.t F)) (b : Z)
    (stages : list (nat * RunResults.t F)) :
  keeps_succeeded (append_stage_results test criteria ntr b stages).
Proof.
  intros lenient st a st'. rewrite append_stage_results_run.
  intros [= _ <-]. trivial.
Qed.

Lemma keeps_succeeded_run_test
    (tbl : gmap RunGroupKey.t (CalibrationData.t F))
    (test : RunGroupConfig.t F) :
  keeps_succeeded (run_test env world tbl test).
Proof.
  unfold run_test.
  repeat first
    [ apply keeps_succeeded_lift
    | apply keeps_succeeded_execute_command
    | apply keeps_succeeded_detailed_runs
    | apply keeps_succeeded_results_append
    | apply keeps_succeeded_append_stage_results
    | apply keeps_succeeded_classify
    | apply keeps_succeeded_bind; [|intros ?] ].
Qed.

Lemma keeps_succeeded_run_tests
    (tbl : gmap RunGroupKey.t (CalibrationData.t F))
    (tests : list (RunGroupConfig.t F)) :
  keeps_succeeded (run_tests env world tbl tests).
Proof.
  induction tests as [|test tests IH]; [apply keeps_succeeded_mret|].
  intros lenient st a st'. rewrite run_tests_cons.
  destruct (selected env test); [|apply IH].
  destruct (run_test env world tbl test st) as [[[]|e] st1] eqn:Hrun;
    [|intros [=]].
  intros Hrest Hst. eapply IH; [exact Hrest|].
  eapply keeps_succeeded_run_test; eassumption.
Qed.

(** The prerequisite benchmark: its build has succeeded; its run has
    succeeded unless the failure is reported. *)
Lemma move_e2e_benchmark_succeeded (st st' : State F) (failed : bool) :
  move_e2e_benchmark env world st = (Ok failed, st') →
  all_succeeded false st → all_succeeded failed st'.
Proof.
  unfold move_e2e_benchmark.
  destruct (SKIP_MOVE_E2E env); [intros [= <- <-]; trivial|].
  rewrite bind_run.
  destruct (execute_command world (CargoBuild "aptos-move-e2e-benchmark") st)
    as [[o|e] st1] eqn:Hbuild; [|intros [=]].
  intros Hrun Hst.
  pose proof (keeps_succeeded_execute_command _ false st o st1 Hbuild Hst)
    as Hst1.
  unfold try_move_e2e_benchmark in Hrun.
  rewrite execute_command_run in Hrun.
  destruct (command_result _) as [o'|e] eqn:Hres.
  - injection Hrun as <- <-. apply all_succeeded_launch; [exact Hst1|].
    left. eapply command_result_Ok. exact Hres.
  - case_bool_decide; [discriminate|]. injection Hrun as <- <-.
    apply all_succeeded_launch.
    + intros i c Hi. destruct (Hst1 i c Hi) as [Hok|[[=] _]]. left. exact Hok.
    + right. split; reflexivity.
Qed.

Lemma all_succeeded_lenient (lenient : bool) (st : State F) :
  all_succeeded false st → all_succeeded lenient st.
Proof.
  intros Hst i c Hi. destruct (Hst i c Hi) as [Hok|[[=] _]]. left. exact Hok.
Qed.

Lemma keeps_succeeded_after_prerequisite (CALIBRATION : string)
    (TESTS : list (RunGroupConfig.t F)) (failed : bool) :
  keeps_succeeded (after_prerequisite env world CALIBRATION TESTS failed).
Proof.
  unfold after_prerequisite.
  repeat first
    [ apply keeps_succeeded_lift
    | apply keeps_succeeded_mret
    | apply keeps_succeeded_execute_command
    | apply keeps_succeeded_results_append
    | apply keeps_succeeded_run_tests
    | apply keeps_succeeded_bind; [|intros ?] ].
Qed.

Lemma after_prerequisite_Ok (CALIBRATION : string)
    (TESTS : list (RunGroupConfig.t F)) (failed failed' : bool)
    (st st' : State F) :
  after_prerequisite env world CALIBRATION TESTS failed st = (Ok failed', st') →
  failed' = failed.
Proof.
  unfold after_prerequisite. intros Hrest.
  repeat match type of Hrest with
         | (lift ?r ≫= _) _ = _ =>
             rewrite lift_bind_run in Hrest; destruct r; [|discriminate]
         | (?m ≫= _) ?s = _ =>
             rewrite bind_run in Hrest;
             destruct (m s) as [[?|?] ?]; [|discriminate]
         end.
  injection Hrest as <- _. reflexivity.
Qed.

Lemma benchmark_block_succeeded (CALIBRATION : string)
    (TESTS : list (RunGroupConfig.t F)) (failed : bool) (st : State F) :
  benchmark_block env world CALIBRATION TESTS initial_state = (Ok failed, st) →
  all_succeeded failed st.
Proof.
  rewrite benchmark_block_after_prerequisite, bind_run.
  destruct (move_e2e_benchmark env world initial_state)
    as [[failed'|e] st1] eqn:Hpre; [|intros [=]].
  apply move_e2e_benchmark_succeeded in Hpre;
    [|intros i c Hi; simpl in Hi; rewrite lookup_nil in Hi; discriminate].
  intros Hrest.
  pose proof (after_prerequisite_Ok _ _ _ _ _ _ Hrest) as ->.
  eapply keeps_succeeded_after_prerequisite; eassumption.
Qed.

End Processes.

(** ** Invariants of the whole script *)

Section ScriptInvariants.
Context (env : Env) (world : World) {F : Type} `{PyFloat F}.

(** The build and the run of the prerequisite benchmark (lines 545-558). *)
Definition prerequisite_commands : list Cmd :=
  if SKIP_MOVE_E2E env then []
  else [CargoBuild "aptos-move-e2e-benchmark"; MoveE2EBenchmark].

(** The commands before the loop over the tests (lines 545-584). *)
Definition setup_commands : list Cmd :=
  prerequisite_commands
  ++ [CargoBuild "aptos-executor-benchmark";
      CreateDb (MAX_BLOCK_SIZE env) (NUMBER_OF_EXECUTION_THREADS env)
               (NUM_ACCOUNTS env)].

(** The first row of the table of results (lines 585-595). *)
Definition warmup_row (warmup : RunResults.t F) : RunGroupInstance.t F :=
  RunGroupInstance.mk (RunGroupKey.of_type "warmup") warmup ∅
    (MAX_BLOCK_SIZE env) (float_of_int 0).

Definition setup_state (cmds : list Cmd) : State F :=
  Build_State cmds [] [] [].

Lemma move_e2e_benchmark_inv (r : result bool) (st : State F) :
  move_e2e_benchmark env world initial_state = (r, st) →
  ∃ cmds,
    st = setup_state cmds
    ∧ match r with
      | Ok failed =>
          cmds = prerequisite_commands
          ∧ (failed = true →
             SKIP_MOVE_E2E env = false ∧ SELECTED_FLOW env ≠ LAND_BLOCKING)
      | Raise _ => cmds `prefix_of` prerequisite_commands
      end.
Proof.
  unfold move_e2e_benchmark, prerequisite_commands.
  destruct (SKIP_MOVE_E2E env).
  { intros [= <- <-]. exists []. split; [reflexivity|].
    split; [reflexivity|intros [=]]. }
  rewrite bind_run, execute_command_run.
  destruct (command_result _) as [o|e].
  - unfold try_move_e2e_benchmark. rewrite execute_command_run.
    destruct (command_result _) as [o'|e].
    + intros [= <- <-]. eexists. split; [reflexivity|].
      split; [reflexivity|intros [=]].
    + case_bool_decide as Hflow; intros [= <- <-];
        (eexists; split; [reflexivity|]).
      * exists []. reflexivity.
      * split; [reflexivity|]. intros _. split; [reflexivity|exact Hflow].
  - intros [= <- <-]. eexists. split; [reflexivity|].
    exists [MoveE2EBenchmark]. reflexivity.
Qed.

Lemma before_tests_inv (CALIBRATION : string)
    (r : result (bool * gmap RunGroupKey.t (CalibrationData.t F)))
    (st : State F) :
  before_tests env world CALIBRATION initial_state = (r, st) →
  match r with
  | Ok (failed, tbl) =>
      parse_calibration CALIBRATION = Ok tbl
      ∧ (∃ warmup,
           st = Build_State setup_commands [warmup_row warmup] [] [])
      ∧ (failed = true →
         SKIP_MOVE_E2E env = false ∧ SELECTED_FLOW env ≠ LAND_BLOCKING)
  | Raise _ =>
      ∃ cmds, st = setup_state cmds ∧ cmds `prefix_of` setup_commands
  end.
Proof.
  unfold before_tests. rewrite bind_run.
  destruct (move_e2e_benchmark env world initial_state)
    as [[failed|e] st1] eqn:Hpre;
    apply move_e2e_benchmark_inv in Hpre as (cmds & -> & Hcmds).
  2: { intros [= <- <-]. exists cmds. split; [reflexivity|].
       unfold setup_commands. apply prefix_app_r. exact Hcmds. }
  destruct Hcmds as [-> Hfailed].
  rewrite lift_bind_run.
  destruct (parse_calibration CALIBRATION) as [tbl|e].
  2: { intros [= <- <-]. eexists. split; [reflexivity|].
       unfold setup_commands. apply prefix_app_r. reflexivity. }
  rewrite bind_run, execute_command_run.
  destruct (command_result _) as [o|e].
  2: { intros [= <- <-]. eexists. split; [reflexivity|].
       unfold setup_commands. simpl. apply prefix_app, prefix_cons.
       apply prefix_nil. }
  rewrite bind_run, execute_command_run.
  destruct (command_result _) as [output|e].
  2: { intros [= <- <-]. eexists. split; [reflexivity|].
       unfold setup_commands. simpl. rewrite <- app_assoc. reflexivity. }
  rewrite lift_bind_run.
  destruct (extract_run_results output "Overall" true) as [warmup|e].
  2: { intros [= <- <-]. eexists. split; [reflexivity|].
       unfold setup_commands. simpl. rewrite <- app_assoc. reflexivity. }
  rewrite bind_run. unfold results_append. cbv beta iota.
  intros [= <- <-]. split; [reflexivity|]. split; [|exact Hfailed].
  exists warmup. unfold setup_commands. simpl. rewrite <- app_assoc.
  reflexivity.
Qed.

(** The script ends before the loop over the tests, or it runs the loop
    from the state the setup has left. *)
Lemma script_inv (CALIBRATION : string) (TESTS : list (RunGroupConfig.t F)) :
  let out := script env world CALIBRATION TESTS in
  (∃ e cmds,
     aborted out = Some e
     ∧ final out = setup_state cmds
     ∧ cmds `prefix_of` setup_commands)
  ∨ (∃ failed tbl warmup r,
       parse_calibration CALIBRATION = Ok tbl
       ∧ run_tests env world tbl TESTS
           (Build_State setup_commands [warmup_row warmup] [] [])
         = (r, final out)
       ∧ aborted out = match r with Ok _ => None | Raise e => Some e end
       ∧ (aborted out = None → move_e2e_benchmark_failed out = failed)
       ∧ (failed = true →
          SKIP_MOVE_E2E env = false ∧ SELECTED_FLOW env ≠ LAND_BLOCKING)).
Proof.
  cbv zeta. unfold script.
  destruct (negb (bool_decide _)).
  { left. exists (SystemExit 1), []. simpl. split; [reflexivity|].
    split; [reflexivity|apply prefix_nil]. }
  rewrite benchmark_block_before_tests.
  destruct (before_tests env world CALIBRATION initial_state)
    as [[[failed tbl]|e] st] eqn:Hbefore;
    apply before_tests_inv in Hbefore.
  2: { left. destruct Hbefore as (cmds & -> & Hcmds). exists e, cmds.
       simpl. split; [reflexivity|]. split; [reflexivity|exact Hcmds]. }
  destruct Hbefore as (Hparse & (warmup & ->) & Hfailed).
  right. exists failed, tbl, warmup.
  destruct (run_tests env world tbl TESTS _) as [[[]|e] st'] eqn:Hrun.
  - exists (Ok tt). split; [exact Hparse|].
    destruct (errors st') as [|n l]; [destruct failed|]; simpl;
      (split; [reflexivity|]); (split; [reflexivity|]);
      (split; [reflexivity|exact Hfailed]).
  - exists (Raise e). split; [exact Hparse|]. simpl.
    split; [reflexivity|]. split; [reflexivity|].
    split; [intros [=]|exact Hfailed].
Qed.

(** X1. The exit status of the script is 0 or 1, whatever the environment,
    the processes and the catalog: every exception, the failure of a
    process included, and every [exit] of the script end it with 1. *)
Theorem exit_status_0_or_1 (CALIBRATION : string)
    (TESTS : list (RunGroupConfig.t F)) :
  let out := script env world CALIBRATION TESTS in
  exit_status out = 0 ∨ exit_status out = 1.
Proof.
  cbv zeta. unfold script.
  destruct (negb (bool_decide _)); [right; reflexivity|].
  destruct (benchmark_block env world CALIBRATION TESTS initial_state)
    as [[failed|e] st] eqn:Hrun.
  - destruct (errors st); [destruct failed|]; simpl; auto.
  - right. simpl. eapply runs_fatal_benchmark_block. exact Hrun.
Qed.

Lemma script_errors (CALIBRATION : string)
    (TESTS : list (RunGroupConfig.t F)) :
  let out := script env world CALIBRATION TESTS in
  Forall (fun n =>
            ∃ tbl, parse_calibration CALIBRATION = Ok tbl
                   ∧ notice_in env (error_of env) tbl TESTS
                       (results (final out)) n)
         (errors (final out)).
Proof.
  cbv zeta.
  destruct (script_inv CALIBRATION TESTS)
    as [(e & cmds & _ & -> & _)
       |(failed & tbl & warmup & r & Hparse & Hrun & _)];
    [constructor|].
  apply run_tests_added in Hrun
    as (c & rows & ws & es & _ & Hr & _ & He & _ & _ & _ & Hes & _).
  rewrite He, Hr. simpl.
  eapply Forall_impl; [exact Hes|]. intros n Hn. exists tbl.
  split; [exact Hparse|].
  eapply notice_in_mono; [| |exact Hn]; [auto|].
  intros row Hrow. apply elem_of_cons. right. exact Hrow.
Qed.

Lemma script_warnings (CALIBRATION : string)
    (TESTS : list (RunGroupConfig.t F)) :
  let out := script env world CALIBRATION TESTS in
  Forall (fun n =>
            ∃ tbl, parse_calibration CALIBRATION = Ok tbl
                   ∧ notice_in env (warning_of env) tbl TESTS
                       (results (final out)) n)
         (warnings (final out)).
Proof.
  cbv zeta.
  destruct (script_inv CALIBRATION TESTS)
    as [(e & cmds & _ & -> & _)
       |(failed & tbl & warmup & r & Hparse & Hrun & _)];
    [constructor|].
  apply run_tests_added in Hrun
    as (c & rows & ws & es & _ & Hr & Hw & _ & _ & _ & Hws & _).
  rewrite Hw, Hr. simpl.
  eapply Forall_impl; [exact Hws|]. intros n Hn. exists tbl.
  split; [exact Hparse|].
  eapply notice_in_mono; [| |exact Hn]; [auto|].
  intros row Hrow. apply elem_of_cons. right. exact Hrow.
Qed.

(** X2. Every entry of [errors] at the end of the script is about a
    selected test of the catalog that is not waived, with the criteria the
    calibration table gives it: the throughput of its row of the table of
    results is below [min_tps], or above [max_tps] in a flow where
    improvements are looked at. *)
Theorem errors_are_hard_failures_of_unwaived_tests (CALIBRATION : string)
    (TESTS : list (RunGroupConfig.t F)) :
  let out := script env world CALIBRATION TESTS in
  Forall (fun n =>
            ∃ tbl, parse_calibration CALIBRATION = Ok tbl
                   ∧ notice_in env (error_of env) tbl TESTS
                       (results (final out)) n)
         (errors (final out)).
Proof. apply script_errors. Qed.

(** X3. Every entry of [warnings] at the end of the script is about a
    selected test of the catalog: a measurement below [min_warn_tps], one
    below [min_tps] of a waived test, or, in a flow where improvements are
    looked at, one above [max_warn_tps] or above [max_tps] of a waived
    test. *)
Theorem warnings_are_soft_or_waived (CALIBRATION : string)
    (TESTS : list (RunGroupConfig.t F)) :
  let out := script env world CALIBRATION TESTS in
  Forall (fun n =>
            ∃ tbl, parse_calibration CALIBRATION = Ok tbl
                   ∧ notice_in env (warning_of env) tbl TESTS
                       (results (final out)) n)
         (warnings (final out)).
Proof. apply script_warnings. Qed.

(** X4. The script records at most one warning or error for each selected
    test of the catalog. *)
Theorem at_most_one_notice_per_selected_test (CALIBRATION : string)
    (TESTS : list (RunGroupConfig.t F)) :
  let out := script env world CALIBRATION TESTS in
  (length (warnings (final out)) + length (errors (final out))
   ≤ length (filter (fun t => selected env t = true) TESTS))%nat.
Proof.
  cbv zeta.
  destruct (script_inv CALIBRATION TESTS)
    as [(e & cmds & _ & -> & _)
       |(failed & tbl & warmup & r & Hparse & Hrun & _)];
    [simpl; lia|].
  apply run_tests_added in Hrun
    as (c & rows & ws & es & _ & _ & Hw & He & _ & _ & _ & _ & Hlen).
  rewrite Hw, He. simpl. exact Hlen.
Qed.

(** X5. The commands the script launches, in order: the build and the run
    of the Move e2e benchmark unless SKIP_MOVE_E2E is set, the build of the
    executor benchmark, the creation of the database, and then benchmark
    runs of selected tests of the catalog only, each with the block size of
    the criteria of its test. The script stops inside this setup, or
    completes it before the first run. *)
Theorem launched_commands_in_order (CALIBRATION : string)
    (TESTS : list (RunGroupConfig.t F)) :
  let cmds := launched (final (script env world CALIBRATION TESTS)) in
  cmds `prefix_of` setup_commands
  ∨ ∃ tbl runs,
      parse_calibration CALIBRATION = Ok tbl
      ∧ cmds = setup_commands ++ runs
      ∧ Forall (run_in env tbl TESTS) runs.
Proof.
  cbv zeta.
  destruct (script_inv CALIBRATION TESTS)
    as [(e & cmds & _ & -> & Hcmds)
       |(failed & tbl & warmup & r & Hparse & Hrun & _)];
    [left; exact Hcmds|].
  apply run_tests_added in Hrun
    as (c & rows & ws & es & Hl & _ & _ & _ & Hc & _).
  right. exists tbl, c. split; [exact Hparse|]. split; [exact Hl|exact Hc].
Qed.

(** The accounts a command addresses are accounts of the database. *)
Definition fits_database (c : Cmd) : Prop :=
  match c with
  | RunExecutor _ _ _ _ _ _ main_signer_accounts
      additional_dst_pool_accounts _ =>
      main_signer_accounts + additional_dst_pool_accounts ≤ NUM_ACCOUNTS env
  | CreateDb _ _ num_accounts => num_accounts = NUM_ACCOUNTS env
  | _ => True
  end.

Lemma run_of_fits_database (tbl : gmap RunGroupKey.t (CalibrationData.t F))
    (test : RunGroupConfig.t F) (c : Cmd) :
  run_of env tbl test c → fits_database c.
Proof.
  assert (MAIN_SIGNER_ACCOUNTS env + 2 * MAX_BLOCK_SIZE env * NUM_BLOCKS env
          ≤ NUM_ACCOUNTS env) as Hle.
  { unfold MAIN_SIGNER_ACCOUNTS, NUM_ACCOUNTS.
    etransitivity; [|apply Z.le_max_r]. lia. }
  intros (criteria & b & ex & _ & _ & _ & [->|(threads & _ & ->)]);
    exact Hle.
Qed.

Lemma setup_commands_fit_database : Forall fits_database setup_commands.
Proof.
  unfold setup_commands, prerequisite_commands.
  destruct (SKIP_MOVE_E2E env); repeat constructor.
Qed.

(** X6. The database is created with NUM_ACCOUNTS accounts, and every
    benchmark run the script launches addresses no more: its main signer
    accounts and its additional destination pool together are at most
    NUM_ACCOUNTS, whatever MAX_BLOCK_SIZE, NUM_BLOCKS_PER_TEST and
    NUM_INIT_ACCOUNTS are. *)
Theorem runs_fit_the_database (CALIBRATION : string)
    (TESTS : list (RunGroupConfig.t F)) :
  Forall fits_database (launched (final (script env world CALIBRATION TESTS))).
Proof.
  destruct (script_inv CALIBRATION TESTS)
    as [(e & cmds & _ & -> & [k Hk])
       |(failed & tbl & warmup & r & Hparse & Hrun & _)].
  - pose proof setup_commands_fit_database as Hall.
    rewrite Hk in Hall. apply Forall_app in Hall as [Hall _]. exact Hall.
  - apply run_tests_added in Hrun
      as (c & rows & ws & es & Hl & _ & _ & _ & Hc & _).
    rewrite Hl. simpl. apply Forall_app.
    split; [apply setup_commands_fit_database|].
    eapply Forall_impl; [exact Hc|]. intros cmd (t & _ & _ & Hrun).
    eapply run_of_fits_database. exact Hrun.
Qed.

(** X7. The table of results is empty, or it starts with the row of the
    warm-up and every other row belongs to a selected test of the catalog:
    it is under the key of the test or of one of its stages, carries the
    expected tps and the block size of the criteria of the test, and has a
    detailed result for each number of threads of
    EXECUTION_ONLY_NUMBER_OF_THREADS and for no other. *)
Theorem results_rows (CALIBRATION : string)
    (TESTS : list (RunGroupConfig.t F)) :
  let rows := results (final (script env world CALIBRATION TESTS)) in
  rows = []
  ∨ ∃ tbl warmup rest,
      parse_calibration CALIBRATION = Ok tbl
      ∧ rows = warmup_row warmup :: rest
      ∧ Forall (row_in env tbl TESTS) rest.
Proof.
  cbv zeta.
  destruct (script_inv CALIBRATION TESTS)
    as [(e & cmds & _ & -> & _)
       |(failed & tbl & warmup & r & Hparse & Hrun & _)];
    [left; reflexivity|].
  apply run_tests_added in Hrun
    as (c & rows & ws & es & _ & Hr & _ & _ & _ & Hrows & _).
  right. exists tbl, warmup, rows. split; [exact Hparse|].
  split; [exact Hr|exact Hrows].
Qed.

(** X8. An exit status of 0 means that every selected test of the catalog
    has been measured: it has criteria and a row of the table of results
    under its key, and unless the test is waived the throughput of the row
    has passed the hard comparisons of the classifier. *)
Theorem status_0_every_selected_test_within_bounds (CALIBRATION : string)
    (TESTS : list (RunGroupConfig.t F)) :
  let out := script env world CALIBRATION TESTS in
  exit_status out = 0 →
  ∃ tbl,
    parse_calibration CALIBRATION = Ok tbl
    ∧ ∀ t, t ∈ TESTS → selected env t = true →
        ∃ criteria row,
          compute_criteria env tbl t = Ok criteria
          ∧ row ∈ results (final out)
          ∧ RunGroupInstance.key row = RunGroupConfig.key t
          ∧ RunGroupInstance.expected_tps row = Criteria.expected_tps criteria
          ∧ (RunGroupConfig.waived t = false →
             within_hard_bounds env criteria
               (RunResults.tps (RunGroupInstance.single_node_result row))).
Proof.
  cbv zeta. intros Hstatus.
  assert (aborted (script env world CALIBRATION TESTS) = None
          ∧ errors (final (script env world CALIBRATION TESTS)) = [])
    as [Hab Herr].
  { destruct (exit_status_nonzero_iff env world CALIBRATION TESTS)
      as [_ Hnz]. cbv zeta in Hnz.
    split.
    - destruct (aborted _) eqn:Ha; [|reflexivity].
      exfalso. apply Hnz; [|exact Hstatus]. left. discriminate.
    - destruct (errors _) eqn:He; [reflexivity|].
      exfalso. apply Hnz; [|exact Hstatus]. right. left. discriminate. }
  destruct (script_inv CALIBRATION TESTS)
    as [(e & cmds & Ha & _)
       |(failed & tbl & warmup & r & Hparse & Hrun & Ha & _)];
    [congruence|].
  rewrite Hab in Ha. destruct r as [[]|e]; [|discriminate].
  apply run_tests_measured in Hrun as [Hrows _].
  exists tbl. split; [exact Hparse|]. intros t Ht Hsel.
  destruct (Hrows t Ht Hsel) as (criteria & row & Hc & Hrow & Hk & He & Hb).
  exists criteria, row. split; [exact Hc|]. split; [exact Hrow|].
  split; [exact Hk|]. split; [exact He|]. apply Hb. simpl. exact Herr.
Qed.

(** X9. When the script reaches its end, every process it has launched has
    ended with return code 0 and without an error line, the run of the Move
    e2e benchmark apart when its failure is reported; and it has launched
    the commands of the setup and, for each selected test, one benchmark
    run and one more for every number of threads of the detailed runs. *)
Theorem completed_run_processes_succeeded (CALIBRATION : string)
    (TESTS : list (RunGroupConfig.t F)) :
  let out := script env world CALIBRATION TESTS in
  aborted out = None →
  (∀ i c, launched (final out) !! i = Some c →
          process_succeeded world i c
          ∨ (move_e2e_benchmark_failed out = true ∧ c = MoveE2EBenchmark))
  ∧ length (launched (final out))
    = (length setup_commands
       + S (length (EXECUTION_ONLY_NUMBER_OF_THREADS env))
         * length (filter (fun t => selected env t = true) TESTS))%nat.
Proof.
  cbv zeta. intros Hab. split.
  - revert Hab. unfold script.
    destruct (negb (bool_decide _)); [intros [=]|].
    destruct (benchmark_block env world CALIBRATION TESTS initial_state)
      as [[failed|e] st] eqn:Hrun; [|intros [=]].
    apply benchmark_block_succeeded in Hrun. intros _.
    destruct (errors st); [destruct failed|]; exact Hrun.
  - destruct (script_inv CALIBRATION TESTS)
      as [(e & cmds & Ha & _)
         |(failed & tbl & warmup & r & Hparse & Hrun & Ha & _)];
      [congruence|].
    rewrite Hab in Ha. destruct r as [[]|e]; [|discriminate].
    apply run_tests_measured in Hrun as [_ Hlen]. exact Hlen.
Qed.



(** X11. Waived tests never fail the run: when every selected test of the
    catalog is waived, the script records no error, whatever is
    measured. *)
Theorem waived_tests_never_fail (CALIBRATION : string)
    (TESTS : list (RunGroupConfig.t F)) :
  (∀ t, t ∈ TESTS → selected env t = true →
        RunGroupConfig.waived t = true) →
  errors (final (script env world CALIBRATION TESTS)) = [].
Proof.
  intros Hwaived. pose proof (script_errors CALIBRATION TESTS) as Hall.
  cbv zeta in Hall.
  destruct (errors (final (script env world CALIBRATION TESTS)))
    as [|n l]; [reflexivity|].
  apply Forall_inv in Hall
    as (tbl & _ & t & criteria & row & Hin & Hsel & _ & Herr & _).
  destruct Herr as (_ & _ & Hnot & _).
  rewrite (Hwaived t Hin Hsel) in Hnot. discriminate.
Qed.

(** X12. In the flows MAINNET and MAINNET_LARGE_DB the script reports no
    improvement: every warning and every error is a regression or a
    potential regression. *)
Theorem no_improvement_notice_in_mainnet_flows (CALIBRATION : string)
    (TESTS : list (RunGroupConfig.t F)) :
  IS_MAINNET env = true →
  let out := script env world CALIBRATION TESTS in
  Forall (fun n => kind n = Regression ∨ kind n = PotentialRegression)
         (warnings (final out) ++ errors (final out)).
Proof.
  intros Hmainnet. cbv zeta. apply Forall_app. split.
  - eapply Forall_impl; [apply script_warnings|]. cbv beta.
    intros n (tbl & _ & t & criteria & row & _ & _ & _ & Hw & _).
    destruct Hw as (_ & _ & [Hk|[Hk|[Hk|Hk]]]).
    + left. apply Hk.
    + right. apply Hk.
    + destruct Hk as (_ & _ & Hskip & _).
      unfold SKIP_PERF_IMPROVEMENT_NOTICE in Hskip. congruence.
    + destruct Hk as (_ & Hskip & _).
      unfold SKIP_PERF_IMPROVEMENT_NOTICE in Hskip. congruence.
  - eapply Forall_impl; [apply script_errors|]. cbv beta.
    intros n (tbl & _ & t & criteria & row & _ & _ & _ & He & _).
    destruct He as (_ & _ & _ & [Hk|Hk]).
    + left. apply Hk.
    + destruct Hk as (_ & Hskip & _).
      unfold SKIP_PERF_IMPROVEMENT_NOTICE in Hskip. congruence.
Qed.

(** X13. A calibration table that does not parse ends the script with
    status 1 before the executor benchmark is built: only the build and
    the run of the Move e2e benchmark may have been launched, the database
    is not created and no result is recorded. *)
Theorem unparsable_table_stops_before_build (CALIBRATION : string)
    (TESTS : list (RunGroupConfig.t F)) (e : PyError) :
  parse_calibration (F:=F) CALIBRATION = Raise e →
  let out := script env world CALIBRATION TESTS in
  exit_status out = 1
  ∧ aborted out ≠ None
  ∧ launched (final out) `prefix_of` prerequisite_commands
  ∧ results (final out) = [].
Proof.
  intros Hparse. cbv zeta. unfold script.
  destruct (negb (bool_decide _)).
  { simpl. split; [reflexivity|]. split; [discriminate|].
    split; [apply prefix_nil|reflexivity]. }
  rewrite benchmark_block_after_prerequisite, bind_run.
  destruct (move_e2e_benchmark env world initial_state)
    as [[failed|e'] st] eqn:Hpre.
  - apply move_e2e_benchmark_inv in Hpre as (cmds & -> & -> & _).
    unfold after_prerequisite. rewrite lift_bind_run, Hparse. simpl.
    split; [|split; [discriminate|split; reflexivity]].
    eapply raises_fatal_parse_lines. exact Hparse.
  - pose proof (runs_fatal_move_e2e_benchmark env world _ _ _ Hpre) as Hst.
    apply move_e2e_benchmark_inv in Hpre as (cmds & -> & Hcmds).
    simpl. split; [exact Hst|]. split; [discriminate|].
    split; [exact Hcmds|reflexivity].
Qed.

End ScriptInvariants.

(** ** The bands of the thresholds, on real numbers *)

Module Bands.
Import RealFloat Order.
Local Open Scope R_scope.

(** The expected throughput lies between the lower and the upper bounds,
    whichever way round the two lower bounds are. *)
Lemma criteria_bracket (env : Env)
    (tbl : gmap RunGroupKey.t (CalibrationData.t R))
    (test : RunGroupConfig.t R) (criteria : Criteria.t R) :
  compute_criteria env tbl test = Ok criteria →
  (∀ e, RunGroupConfig.expected_tps test = Some e → 0 <= e) →
  (∀ entry, RunGroupConfig.expected_tps test = None →
     tbl !! RunGroupConfig.key test = Some entry → well_formed entry) →
  Criteria.min_tps criteria <= Criteria.expected_tps criteria
  ∧ Criteria.min_warn_tps criteria <= Criteria.expected_tps criteria
  ∧ Criteria.expected_tps criteria <= Criteria.max_warn_tps criteria
  ∧ Criteria.expected_tps criteria <= Criteria.max_tps criteria.
Proof.
  intros Hc Hover Hentry.
  destruct (RunGroupConfig.expected_tps test) as [e|] eqn:He.
  - rewrite (compute_criteria_override env _ test e He) in Hc.
    injection Hc as <-. specialize (Hover e eq_refl).
    destruct (IS_MAINNET env) eqn:Hm.
    + destruct (static_ordered_mainnet env e Hover Hm) as (? & ? & ? & ?).
      repeat split; lra.
    + destruct (static_ordered env e Hover Hm) as (? & ? & ? & ?).
      repeat split; lra.
  - unfold compute_criteria in Hc. rewrite He in Hc.
    destruct (tbl !! RunGroupConfig.key test) as [entry|] eqn:Hl;
      [|discriminate].
    specialize (Hentry entry eq_refl eq_refl).
    assert (CalibrationData.count entry ≠ 0%Z) as Hcount
      by (destruct Hentry as (_ & Hcount & _); lia).
    pose proof (compute_criteria_calibrated env tbl test entry He Hl Hcount)
      as Heq.
    unfold compute_criteria in Heq. rewrite He, Hl in Heq.
    rewrite Heq in Hc. injection Hc as <-.
    destruct (calibrated_ordered entry Hentry) as (? & ? & ? & ?).
    repeat split; lra.
Qed.

Lemma lt_false (x y : R) : y <= x → lt x y = false.
Proof. intros Hle. unfold lt. destruct (Rlt_dec x y); [lra|reflexivity]. Qed.

Lemma lt_true (x y : R) : x < y → lt x y = true.
Proof. intros Hlt. unfold lt. destruct (Rlt_dec x y); [reflexivity|lra]. Qed.

(** X14. A run that measures exactly the expected throughput of its test
    is never flagged: the classification records no error and no warning,
    for a calibrated test with a well-formed entry and for a static
    override that is not negative, in every flow. *)
Theorem expected_throughput_never_flagged (env : Env) (world : World)
    (tbl : gmap RunGroupKey.t (CalibrationData.t R))
    (test : RunGroupConfig.t R) (criteria : Criteria.t R)
    (single_node_result : RunResults.t R) (st : State R) :
  compute_criteria env tbl test = Ok criteria →
  (∀ e, RunGroupConfig.expected_tps test = Some e → 0 <= e) →
  (∀ entry, RunGroupConfig.expected_tps test = None →
     tbl !! RunGroupConfig.key test = Some entry → well_formed entry) →
  RunResults.tps single_node_result = Criteria.expected_tps criteria →
  classify env test criteria single_node_result st = (Ok tt, st).
Proof.
  intros Hc Hover Hentry Htps.
  destruct (criteria_bracket env tbl test criteria Hc Hover Hentry)
    as (H1 & H2 & H3 & H4).
  unfold classify. rewrite Htps. unfold fgt. cbn [flt real_float].
  rewrite !lt_false by assumption. rewrite !andb_false_r. reflexivity.
Qed.

(** The hard band of a well-formed entry contains the range of the
    calibration runs. *)
Lemma calibrated_hard_band (entry : CalibrationData.t R) :
  well_formed entry →
  let c := Spec.calibrated_criteria entry in
  Criteria.min_tps c
  <= CalibrationData.expected_tps entry * CalibrationData.min_ratio entry
  ∧ CalibrationData.expected_tps entry * CalibrationData.max_ratio entry
    <= Criteria.max_tps c.
Proof.
  intros (He & Hc & Hlo & Hhi).
  destruct entry as [e n lo hi]; simpl in *.
  assert (1 <= IZR n) as Hn by (apply IZR_le; assumption).
  assert (0 < / IZR n) as Hinv by (apply Rinv_0_lt_compat; lra).
  rewrite lit_100_1, lit_10_1. unfold Rdiv.
  generalize dependent (/ IZR n). intros q Hq.
  assert (0 <= (1 - lo) * q) as Hlq by (apply Rmult_le_pos; lra).
  assert (0 <= (hi - 1) * q) as Hhq by (apply Rmult_le_pos; lra).
  split; apply Rmult_le_compat_l; try assumption; lra.
Qed.

(** X15. A measurement within the range of the calibration runs, between
    [expected_tps * min_ratio] and [expected_tps * max_ratio], is never an
    error for a calibrated test with a well-formed entry: the
    classification leaves [errors] as it is. *)
Theorem calibrated_range_is_no_error (env : Env)
    (tbl : gmap RunGroupKey.t (CalibrationData.t R))
    (test : RunGroupConfig.t R) (entry : CalibrationData.t R)
    (single_node_result : RunResults.t R) (st : State R) :
  RunGroupConfig.expected_tps test = None →
  tbl !! RunGroupConfig.key test = Some entry →
  well_formed entry →
  CalibrationData.expected_tps entry * CalibrationData.min_ratio entry
  <= RunResults.tps single_node_result
  <= CalibrationData.expected_tps entry * CalibrationData.max_ratio entry →
  ∃ criteria,
    compute_criteria env tbl test = Ok criteria
    ∧ errors (classify env test criteria single_node_result st).2
      = errors st.
Proof.
  intros Hnone Hl Hwf [Hlow Hhigh].
  assert (CalibrationData.count entry ≠ 0%Z) as Hcount
    by (destruct Hwf as (_ & Hcount & _); lia).
  exists (Spec.calibrated_criteria entry).
  split; [apply compute_criteria_calibrated; assumption|].
  destruct (calibrated_hard_band entry Hwf) as [Hmin Hmax]. cbv zeta in *.
  unfold classify, fgt. cbn [flt real_float].
  rewrite (lt_false _ (Criteria.min_tps _)) by lra.
  rewrite (lt_false (Criteria.max_tps _)) by lra.
  rewrite andb_false_r.
  repeat match goal with
         | |- context [if ?b then _ else _] => destruct b
         end; reflexivity.
Qed.

(** The hard factors as functions of the reciprocal of the count. *)
Lemma calibrated_hard_bounds_monotone (e lo hi : R) (n1 n2 : Z) :
  0 <= e → lo <= 1 → 1 <= hi → (1 ≤ n1 ≤ n2)%Z →
  let c1 := Spec.calibrated_criteria (CalibrationData.mk e n1 lo hi) in
  let c2 := Spec.calibrated_criteria (CalibrationData.mk e n2 lo hi) in
  Criteria.min_tps c1 <= Criteria.min_tps c2
  ∧ Criteria.max_tps c2 <= Criteria.max_tps c1.
Proof.
  intros He Hlo Hhi [H1 H12]. simpl.
  assert (1 <= IZR n1) as Hn1 by (apply IZR_le; assumption).
  assert (IZR n1 <= IZR n2) as Hn12 by (apply IZR_le; assumption).
  assert (/ IZR n2 <= / IZR n1) as Hinv
    by (apply Rinv_le_contravar; lra).
  rewrite lit_100_1, lit_10_1. unfold Rdiv.
  generalize dependent (/ IZR n1). intros q1.
  generalize dependent (/ IZR n2). intros q2 Hq.
  assert ((1 - lo) * q2 <= (1 - lo) * q1) as Hl
    by (apply Rmult_le_compat_l; lra).
  assert ((hi - 1) * q2 <= (hi - 1) * q1) as Hh
    by (apply Rmult_le_compat_l; lra).
  split; apply Rmult_le_compat_l; try assumption; lra.
Qed.

(** X16. More calibration runs narrow the hard band and leave the warning
    band alone: of two entries for a test that differ in the count only,
    the one with the larger count gives a [min_tps] that is not smaller and
    a [max_tps] that is not larger, and the same [min_warn_tps] and
    [max_warn_tps]. *)
Theorem larger_count_narrows_hard_band (env : Env)
    (tbl : gmap RunGroupKey.t (CalibrationData.t R))
    (test : RunGroupConfig.t R) (e lo hi : R) (n1 n2 : Z) :
  RunGroupConfig.expected_tps test = None →
  0 <= e → lo <= 1 → 1 <= hi → (1 ≤ n1 ≤ n2)%Z →
  ∃ c1 c2,
    compute_criteria env
      (<[RunGroupConfig.key test := CalibrationData.mk e n1 lo hi]> tbl) test
    = Ok c1
    ∧ compute_criteria env
        (<[RunGroupConfig.key test := CalibrationData.mk e n2 lo hi]> tbl)
        test
      = Ok c2
    ∧ Criteria.min_tps c1 <= Criteria.min_tps c2
    ∧ Criteria.max_tps c2 <= Criteria.max_tps c1
    ∧ Criteria.min_warn_tps c1 = Criteria.min_warn_tps c2
    ∧ Criteria.max_warn_tps c1 = Criteria.max_warn_tps c2.
Proof.
  intros Hnone He Hlo Hhi Hn.
  exists (Spec.calibrated_criteria (CalibrationData.mk e n1 lo hi)),
         (Spec.calibrated_criteria (CalibrationData.mk e n2 lo hi)).
  split; [apply compute_criteria_calibrated;
          [exact Hnone|apply lookup_insert_eq|simpl; lia]|].
  split; [apply compute_criteria_calibrated;
          [exact Hnone|apply lookup_insert_eq|simpl; lia]|].
  destruct (calibrated_hard_bounds_monotone e lo hi n1 n2 He Hlo Hhi Hn)
    as [Hmin Hmax].
  split; [exact Hmin|]. split; [exact Hmax|]. split; reflexivity.
Qed.

(** [int(x)] of a number that is at most an integer is at most that
    integer. *)
Lemma trunc_le (x : R) (m : Z) : x <= IZR m → (trunc x ≤ m)%Z.
Proof.
  intros Hx. unfold trunc. destruct (Rle_dec 0 x) as [Hpos|Hneg].
  - destruct (base_Int_part x) as [Hle _].
    apply le_IZR. lra.
  - destruct (base_Int_part (- x)) as [Hle Hgt].
    assert (IZR (- Int_part (- x)) < IZR (m + 1)) as Hlt
      by (rewrite opp_IZR, plus_IZR; lra).
    apply lt_IZR in Hlt. lia.
Qed.

(** X17. The block size of a test is never above MAX_BLOCK_SIZE: it is
    MAX_BLOCK_SIZE when the expected throughput is larger, and the
    expected throughput cut to an integer otherwise. *)
Theorem block_size_at_most_max (env : Env) (criteria : Criteria.t R) :
  ∃ b, cur_block_size_of env criteria = Ok b
       ∧ (b ≤ MAX_BLOCK_SIZE env)%Z
       ∧ (IZR (MAX_BLOCK_SIZE env) < Criteria.expected_tps criteria →
          b = MAX_BLOCK_SIZE env)
       ∧ (Criteria.expected_tps criteria <= IZR (MAX_BLOCK_SIZE env) →
          b = trunc (Criteria.expected_tps criteria)).
Proof.
  unfold cur_block_size_of. cbn [flt float_of_int int_of_float real_float].
  unfold lt. destruct (Rlt_dec _ _) as [Hlt|Hge].
  - exists (MAX_BLOCK_SIZE env). split; [reflexivity|]. split; [lia|].
    split; [reflexivity|]. intros Hle. lra.
  - exists (trunc (Criteria.expected_tps criteria)). simpl.
    split; [reflexivity|]. split; [apply trunc_le; lra|].
    split; [intros Hlt; lra|reflexivity].
Qed.

End Bands.

(** ** The rows of the calibration table *)

Section ParsingFacts.
Context {F : Type} `{PyFloat F}.

(** The entries of a parsed table are the rows read from the lines, and
    every line that has a field has been read. *)
Lemma parse_lines_rows (lines : list string)
    (acc tbl : gmap RunGroupKey.t (CalibrationData.t F)) :
  parse_lines lines acc = Ok tbl →
  (∀ k v, tbl !! k = Some v →
     acc !! k = Some v
     ∨ ∃ line, line ∈ lines ∧ row_parts line ≠ []
               ∧ parse_row (row_parts line) = Ok (k, v))
  ∧ (∀ line, line ∈ lines →
       row_parts line = []
       ∨ ∃ k v, parse_row (row_parts line) = Ok (k, v) ∧ is_Some (tbl !! k))
  ∧ (∀ k, is_Some (acc !! k) → is_Some (tbl !! k)).
Proof.
  revert acc. induction lines as [|line lines IH]; intros acc.
  - intros [= <-]. split; [auto|]. split; [|auto].
    intros line Hin. inversion Hin.
  - rewrite parse_lines_cons.
    destruct (row_parts line) as [|p parts] eqn:Hparts.
    + simpl. intros Hrest. destruct (IH acc Hrest) as (Hfrom & Hall & Hkeep).
      split; [|split; [|exact Hkeep]].
      * intros k v Hkv. destruct (Hfrom k v Hkv) as [Hacc|(l & Hl & Hrow)];
          [left; exact Hacc|].
        right. exists l. split; [apply elem_of_cons; auto|exact Hrow].
      * intros l Hl. apply elem_of_cons in Hl as [->|Hl];
          [left; exact Hparts|apply Hall; exact Hl].
    + cbn [length Nat.leb].
      destruct (parse_row (p :: parts)) as [[k0 v0]|e] eqn:Hrow;
        [|intros [=]].
      cbn. intros Hrest.
      destruct (IH _ Hrest) as (Hfrom & Hall & Hkeep).
      split; [|split].
      * intros k v Hkv. destruct (Hfrom k v Hkv) as [Hacc|(l & Hl & Hr)].
        -- destruct (decide (k = k0)) as [->|Hne].
           ++ rewrite lookup_insert_eq in Hacc. injection Hacc as <-.
              right. exists line. split; [apply elem_of_cons; auto|].
              rewrite Hparts. split; [discriminate|exact Hrow].
           ++ rewrite lookup_insert_ne in Hacc by congruence.
              left. exact Hacc.
        -- right. exists l. split; [apply elem_of_cons; auto|exact Hr].
      * intros l Hl. apply elem_of_cons in Hl as [->|Hl];
          [|apply Hall; exact Hl].
        right. exists k0, v0. rewrite Hparts. split; [exact Hrow|].
        apply Hkeep. rewrite lookup_insert_eq. eexists. reflexivity.
      * intros k Hk. apply Hkeep.
        destruct (decide (k = k0)) as [->|Hne].
        -- rewrite lookup_insert_eq. eexists. reflexivity.
        -- rewrite lookup_insert_ne by congruence. exact Hk.
Qed.

(** X18. When the calibration text parses, the table holds the rows of
    the text and nothing else: every entry is the row read from a line,
    and every line is blank or has been read as a row whose key the table
    holds. No line is passed over. *)
Theorem calibration_table_is_the_rows (CALIBRATION : string)
    (tbl : gmap RunGroupKey.t (CalibrationData.t F)) :
  parse_calibration CALIBRATION = Ok tbl →
  (∀ k v, tbl !! k = Some v →
     ∃ line, line ∈ Str.split "010" CALIBRATION
             ∧ row_parts line ≠ []
             ∧ parse_row (row_parts line) = Ok (k, v))
  ∧ (∀ line, line ∈ Str.split "010" CALIBRATION →
       row_parts line = []
       ∨ ∃ k v, parse_row (row_parts line) = Ok (k, v)
                ∧ is_Some (tbl !! k)).
Proof.
  intros Hparse. apply parse_lines_rows in Hparse as (Hfrom & Hall & _).
  split; [|exact Hall].
  intros k v Hkv. destruct (Hfrom k v Hkv) as [Hacc|Hrow]; [|exact Hrow].
  rewrite lookup_empty in Hacc. discriminate.
Qed.

(** A row of fewer than four fields is never read: the fourth field from
    the end is missing, unless the second field has failed as a number
    before. *)
Lemma parse_row_short (parts : list string) :
  (length parts < 4)%nat →
  parse_row (F:=F) parts = Raise IndexError
  ∨ parse_row (F:=F) parts = Raise ValueError.
Proof.
  intros Hlen. unfold parse_row, py_int, py_float.
  destruct parts as [|a [|b [|c [|d parts]]]]; simpl in Hlen; try lia;
    repeat match goal with
           | |- context [Str.index ?l ?i] =>
               let r := eval vm_compute in (Str.index l i) in
               change (Str.index l i) with r
           end;
    unfold mbind, result_bind, Py.bind; cbv beta iota.
  - left. reflexivity.
  - left. reflexivity.
  - destruct (Builtins.int_of_str b); cbn; [left|right]; reflexivity.
  - destruct (Builtins.int_of_str b); cbn; [|right; reflexivity].
    destruct (float_of_str c); cbn; [left|right]; reflexivity.
Qed.

(** X19. A line of the calibration text with one, two or three fields
    makes the parsing of the whole table fail, with [IndexError] or
    [ValueError]: no later line makes up for it. *)
Theorem short_row_fails (CALIBRATION line : string) :
  line ∈ Str.split "010" CALIBRATION →
  (1 ≤ length (row_parts line) < 4)%nat →
  ∃ e, parse_calibration (F:=F) CALIBRATION = Raise e.
Proof.
  intros Hin [Hone Hshort].
  destruct (parse_calibration (F:=F) CALIBRATION) as [tbl|e] eqn:Hparse;
    [|exists e; reflexivity].
  exfalso. apply parse_lines_rows in Hparse as (_ & Hall & _).
  destruct (Hall line Hin) as [Hnil|(k & v & Hrow & _)].
  - rewrite Hnil in Hone. simpl in Hone. lia.
  - destruct (parse_row_short (row_parts line) Hshort) as [Hr|Hr];
      rewrite Hr in Hrow; discriminate.
Qed.

Lemma index_from_end {A} (pre suf : list A) (k : Z) :
  0 < k ≤ Z.of_nat (length suf) →
  Str.index (pre ++ suf) (- k) = Str.index suf (- k).
Proof.
  intros Hk. unfold Str.index. rewrite length_app, Nat2Z.inj_add.
  destruct (Z.ltb_spec (- k) 0) as [_|Hn]; [|lia].
  destruct (Z.ltb_spec (- k + (Z.of_nat (length pre) + Z.of_nat (length suf)))
              0) as [Hn|_]; [lia|].
  destruct (Z.ltb_spec (- k + Z.of_nat (length suf)) 0) as [Hn|_]; [lia|].
  destruct (Z.leb_spec (Z.of_nat (length pre) + Z.of_nat (length suf))
              (- k + (Z.of_nat (length pre) + Z.of_nat (length suf))))
    as [Hn|_]; [lia|].
  destruct (Z.leb_spec (Z.of_nat (length suf))
              (- k + Z.of_nat (length suf))) as [Hn|_]; [lia|].
  simpl. f_equal.
  replace (Z.to_nat (- k + (Z.of_nat (length pre) + Z.of_nat (length suf))))
    with (length pre + Z.to_nat (- k + Z.of_nat (length suf)))%nat by lia.
  rewrite lookup_app_r by lia. f_equal. lia.
Qed.

(** X20. The statistics of a row are its last four fields and the key its
    first three: fields in between are passed over, so a row with more
    than seven columns reads as the row without them. *)
Theorem extra_columns_are_passed_over (t w x c lo hi e : string)
    (middle : list string) :
  parse_row (F:=F) ([t; w; x] ++ middle ++ [c; lo; hi; e])
  = parse_row [t; w; x; c; lo; hi; e].
Proof.
  unfold parse_row.
  change ([t; w; x] ++ middle ++ [c; lo; hi; e])
    with (t :: w :: x :: (middle ++ [c; lo; hi; e])).
  assert (∀ i, - 4 ≤ i < 0 →
            Str.index (t :: w :: x :: (middle ++ [c; lo; hi; e])) i
            = Str.index [t; w; x; c; lo; hi; e] i) as Hend.
  { intros i Hi. replace i with (- (- i)) by lia.
    replace (t :: w :: x :: middle ++ [c; lo; hi; e])
      with (([t; w; x] ++ middle) ++ [c; lo; hi; e])
      by (rewrite <- app_assoc; reflexivity).
    rewrite index_from_end by (simpl; lia).
    symmetry. apply (index_from_end [t; w; x] [c; lo; hi; e] (- i)).
    simpl. lia. }
  assert (∀ i, 0 ≤ i < 3 →
            Str.index (t :: w :: x :: (middle ++ [c; lo; hi; e])) i
            = Str.index [t; w; x; c; lo; hi; e] i) as Hstart.
  { intros i Hi. unfold Str.index. cbn [length].
    rewrite length_app. cbn [length].
    destruct (Z.ltb_spec i 0) as [Hn|_]; [lia|].
    destruct (Z.leb_spec (Z.of_nat (S (S (S (length middle + 4))))) i)
      as [Hn|_]; [lia|].
    destruct (Z.leb_spec (Z.of_nat 7) i) as [Hn|_]; [lia|].
    simpl.
    assert (i = 0 ∨ i = 1 ∨ i = 2) as [-> | [-> | ->]] by lia; reflexivity. }
  unfold CALIBRATED_TPS_INDEX, CALIBRATED_COUNT_INDEX,
    CALIBRATED_MIN_RATIO_INDEX, CALIBRATED_MAX_RATIO_INDEX.
  rewrite !Hend by lia. rewrite !Hstart by lia. reflexivity.
Qed.

End ParsingFacts.

(** ** What [findall] captures *)

Module Captures.
Import RealFloat.

Fixpoint all_digits (s : string) : bool :=
  match s with
  | EmptyString => true
  | String c r => Str.is_digit c && all_digits r
  end.

(** The rest of a text after its digits: empty, or starting with a
    character that is no digit. *)
Definition no_digit_first (s : string) : Prop :=
  match s with
  | EmptyString => True
  | String c _ => Str.is_digit c = false
  end.

(** The texts of the group [(\-?\d+\.?\d* )]: an optional minus sign where
    the pattern allows one, digits, and an optional dot followed by
    digits. *)
Definition numeral (allow_minus : bool) (s : string) : Prop :=
  ∃ sign d1 dot d2,
    s = sign +:+ d1 +:+ dot +:+ d2
    ∧ (sign = "" ∨ (allow_minus = true ∧ sign = "-"))
    ∧ d1 ≠ "" ∧ all_digits d1 = true ∧ all_digits d2 = true
    ∧ (dot = "." ∨ (dot = "" ∧ d2 = "")).

Lemma span_digits (s a b : string) :
  Str.span Str.is_digit s = (a, b) →
  all_digits a = true ∧ no_digit_first b.
Proof.
  revert a b. induction s as [|c s IH]; intros a b.
  - intros [= <- <-]. split; [reflexivity|exact I].
  - simpl. destruct (Str.is_digit c) eqn:Hc.
    + destruct (Str.span Str.is_digit s) as [a' b'].
      intros [= <- <-]. destruct (IH a' b' eq_refl) as [Ha Hb].
      split; [simpl; rewrite Hc, Ha; reflexivity|exact Hb].
    + intros [= <- <-]. split; [reflexivity|exact Hc].
Qed.

Lemma span_no_digit (s : string) :
  no_digit_first s → Str.span Str.is_digit s = ("", s).
Proof. destruct s as [|c s]; simpl; [reflexivity|]. intros ->. reflexivity. Qed.

Definition take_dot (s : string) : string * string :=
  match s with
  | String "." r => (".", r)
  | _ => ("", s)
  end.

Lemma take_dot_spec (s : string) :
  (∃ r, s = String "." r ∧ take_dot s = (".", r))
  ∨ (take_dot s = ("", s) ∧ ∀ r, s ≠ String "." r).
Proof.
  destruct s as [|c s]; [right; split; [reflexivity|intros r [=]]|].
  destruct c as [[] [] [] [] [] [] [] []];
    first [ left; eexists; split; reflexivity
          | right; split; [reflexivity|intros r [=]] ].
Qed.

Definition take_minus (allow : bool) (s : string) : string * string :=
  match allow, s with
  | true, String "-" r => ("-", r)
  | _, _ => ("", s)
  end.

Lemma take_minus_spec (allow : bool) (s : string) :
  (∃ r, allow = true ∧ take_minus allow s = ("-", r))
  ∨ take_minus allow s = ("", s).
Proof.
  destruct allow; [|right; reflexivity].
  destruct s as [|c s]; [right; reflexivity|].
  destruct c as [[] [] [] [] [] [] [] []];
    first [ left; eexists; split; reflexivity | right; reflexivity ].
Qed.

Lemma match_here_numeral (p : Re.pattern) (s cap : string) (len : nat) :
  Re.match_here p s = Some (cap, len) → numeral (Re.minus p) cap.
Proof.
  unfold Re.match_here.
  destruct (Str.strip_prefix (Re.before p) s) as [s1|]; [|intros [=]].
  cbn [mbind option_bind].
  change (match Re.minus p, s1 with
          | true, String "-" r => ("-", r)
          | _, _ => ("", s1)
          end) with (take_minus (Re.minus p) s1).
  destruct (take_minus (Re.minus p) s1) as [sign s2] eqn:Hsign.
  destruct (Str.span Str.is_digit s2) as [d1 s3] eqn:Hd1.
  apply span_digits in Hd1 as [Hd1 Hs3].
  destruct d1 as [|c d1]; [intros [=]|].
  change (match s3 with
          | String "." r => (".", r)
          | _ => ("", s3)
          end) with (take_dot s3).
  destruct (take_dot s3) as [dot s4] eqn:Hdot.
  destruct (Str.span Str.is_digit s4) as [d2 s5] eqn:Hd2.
  destruct (Str.startswith s5 (Re.after p)); [|intros [=]].
  intros [= <- _]. exists sign, (String c d1), dot, d2.
  split; [reflexivity|].
  split.
  { destruct (take_minus_spec (Re.minus p) s1) as [(r & Hallow & Hr)|Hr];
      rewrite Hr in Hsign; injection Hsign as <- <-; auto. }
  split; [discriminate|]. split; [exact Hd1|].
  destruct (take_dot_spec s3) as [(r & -> & Hr)|[Hr _]];
    rewrite Hr in Hdot; injection Hdot as <- <-.
  - apply span_digits in Hd2 as [Hd2 _]. split; [exact Hd2|left; reflexivity].
  - rewrite (span_no_digit s3 Hs3) in Hd2. injection Hd2 as <- <-.
    split; [reflexivity|right; split; reflexivity].
Qed.

Lemma findall_go_numerals (p : Re.pattern) (s : string) (skip : nat) :
  Forall (numeral (Re.minus p)) (Re.findall_go skip p s).
Proof.
  revert skip. induction s as [|c s IH]; intros skip; [constructor|].
  cbn [Re.findall_go]. destruct skip as [|k]; [|apply IH].
  destruct (Re.match_here p (String c s)) as [[cap len]|] eqn:Hm; [|apply IH].
  constructor; [|apply IH]. eapply match_here_numeral. exact Hm.
Qed.

(** Reading a numeral as a real number. *)

Lemma digit_no_space (c : ascii) :
  Str.is_digit c = true → Str.is_space c = false.
Proof.
  unfold Str.is_digit, Str.is_space. cbv zeta.
  generalize (N_of_ascii c). intros n Hd.
  apply andb_true_iff in Hd as [H1 H2].
  apply N.leb_le in H1. apply N.leb_le in H2.
  apply orb_false_iff. split; apply andb_false_iff.
  - right. apply N.leb_gt. lia.
  - right. apply N.leb_gt. lia.
Qed.

Fixpoint no_space (s : string) : bool :=
  match s with
  | EmptyString => true
  | String c r => negb (Str.is_space c) && no_space r
  end.

Lemma no_space_app (a b : string) :
  no_space (a +:+ b) = no_space a && no_space b.
Proof.
  induction a as [|c a IH]; [reflexivity|].
  rewrite StrFacts.app_cons. cbn [no_space]. rewrite IH, andb_assoc.
  reflexivity.
Qed.

Lemma digits_no_space (s : string) : all_digits s = true → no_space s = true.
Proof.
  induction s as [|c s IH]; [reflexivity|]. simpl.
  intros [Hc Hs]%andb_true_iff. rewrite (digit_no_space c Hc), IH by exact Hs.
  reflexivity.
Qed.

Lemma rstrip_no_space (s : string) : no_space s = true → Str.rstrip s = s.
Proof.
  induction s as [|c s IH]; [reflexivity|]. simpl.
  intros [Hc Hs]%andb_true_iff. rewrite IH by exact Hs.
  apply negb_true_iff in Hc. rewrite Hc. destruct s; reflexivity.
Qed.

Lemma strip_no_space (s : string) : no_space s = true → Str.strip s = s.
Proof.
  intros Hs. unfold Str.strip.
  assert (Str.lstrip s = s) as ->.
  { destruct s as [|c s]; [reflexivity|]. simpl in *.
    apply andb_true_iff in Hs as [Hc _]. apply negb_true_iff in Hc.
    rewrite Hc. reflexivity. }
  apply rstrip_no_space. exact Hs.
Qed.

Lemma digits_app (a b : string) (acc : Z) (n : nat) :
  all_digits a = true → no_digit_first b →
  ∃ v, digits acc n (a +:+ b) = (v, (n + String.length a)%nat, b).
Proof.
  revert acc n. induction a as [|c a IH]; intros acc n Ha Hb.
  - exists acc. rewrite StrFacts.app_nil. cbn [String.length].
    rewrite Nat.add_0_r.
    destruct b as [|d b]; [reflexivity|]. simpl in *. rewrite Hb. reflexivity.
  - simpl in Ha. apply andb_true_iff in Ha as [Hc Ha].
    rewrite StrFacts.app_cons. cbn [digits String.length]. rewrite Hc.
    destruct (IH (10 * acc + Builtins.digit_value c)%Z (S n) Ha Hb)
      as [v Hv].
    exists v. rewrite Hv. do 2 f_equal. lia.
Qed.

Lemma unsigned_decimal_numeral (d1 dot d2 : string) :
  d1 ≠ "" → all_digits d1 = true → all_digits d2 = true →
  dot = "." ∨ (dot = "" ∧ d2 = "") →
  is_Some (unsigned_decimal (d1 +:+ dot +:+ d2)).
Proof.
  intros Hne Hd1 Hd2 Hdot. unfold unsigned_decimal.
  assert (0 < String.length d1)%nat as Hlen
    by (destruct d1; [contradiction|simpl; lia]).
  destruct Hdot as [->|[-> ->]].
  - destruct (digits_app d1 ("." +:+ d2) 0 0 Hd1) as [v Hv];
      [reflexivity|].
    rewrite Hv. change ("." +:+ d2) with (String "." d2). cbv beta iota.
    destruct (digits_app d2 "" v 0 Hd2 I) as [m Hm].
    assert (d2 +:+ "" = d2) as Hnil
      by (clear; induction d2 as [|c d IH]; [reflexivity|];
          rewrite StrFacts.app_cons, IH; reflexivity).
    rewrite Hnil in Hm. rewrite Hm.
    destruct (Nat.eqb_spec (0 + String.length d1 + (0 + String.length d2)) 0);
      [lia|]. eexists. reflexivity.
  - destruct (digits_app d1 "" 0 0 Hd1 I) as [v Hv].
    change ("" +:+ "") with "". rewrite Hv.
    destruct (Nat.eqb_spec (0 + String.length d1) 0); [lia|].
    eexists. reflexivity.
Qed.

Lemma decimal_digit_first (c : ascii) (s : string) :
  Str.is_digit c = true →
  match String c s with
  | String "-" r => (fun p => (- p.1, p.2)%Z) <$> unsigned_decimal r
  | String "+" r => unsigned_decimal r
  | t => unsigned_decimal t
  end = unsigned_decimal (String c s).
Proof.
  destruct c as [[] [] [] [] [] [] [] []]; intros Hd;
    first [reflexivity | discriminate Hd].
Qed.

(** [float] reads every numeral. *)
Lemma numeral_of_str (allow_minus : bool) (s : string) :
  numeral allow_minus s → is_Some (of_str s).
Proof.
  intros (sign & d1 & dot & d2 & -> & Hsign & Hne & Hd1 & Hd2 & Hdot).
  pose proof (unsigned_decimal_numeral d1 dot d2 Hne Hd1 Hd2 Hdot) as [v Hv].
  assert (no_space (d1 +:+ dot +:+ d2) = true) as Hns.
  { rewrite !no_space_app, (digits_no_space d1 Hd1), (digits_no_space d2 Hd2).
    destruct Hdot as [->|[-> _]]; reflexivity. }
  unfold of_str, decimal.
  destruct Hsign as [->|[_ ->]].
  - rewrite StrFacts.app_nil, strip_no_space by exact Hns.
    destruct d1 as [|c d1]; [contradiction|].
    rewrite StrFacts.app_cons in *. simpl in Hd1.
    apply andb_true_iff in Hd1 as [Hc _].
    rewrite (decimal_digit_first c _ Hc), Hv. eexists. reflexivity.
  - rewrite StrFacts.app_cons, StrFacts.app_nil.
    rewrite strip_no_space by (cbn [no_space]; rewrite Hns; reflexivity).
    rewrite Hv. eexists. reflexivity.
Qed.

(** The ways an extraction ends: with a result, or with the failure of the
    assertion of [get_only] or of the index [-1]. *)
Definition result_or_match_error {A} (r : result A) : Prop :=
  match r with
  | Ok _ => True
  | Raise e => e = AssertionError ∨ e = IndexError
  end.

Lemma result_or_match_error_bind {A B} (r : result A) (k : A → result B) :
  result_or_match_error r → (∀ a, result_or_match_error (k a)) →
  result_or_match_error (r ≫= k).
Proof. destruct r as [a|e]; [intros _ Hk; apply Hk|intros He _; exact He]. Qed.

Lemma only_float_no_value_error (p : Re.pattern) (output : string) :
  result_or_match_error (only_float (F:=R) p output).
Proof.
  unfold only_float, Re.findall.
  pose proof (findall_go_numerals p output 0) as Hall.
  destruct (Re.findall_go 0 p output) as [|s [|s' l]]; simpl;
    [left; reflexivity| |left; reflexivity].
  apply Forall_inv in Hall. apply numeral_of_str in Hall as [v Hv].
  unfold py_float. cbn [float_of_str real_float]. rewrite Hv. exact I.
Qed.

Lemma last_float_no_value_error (p : Re.pattern) (output : string) :
  result_or_match_error (last_float (F:=R) p output).
Proof.
  unfold last_float, last_match, Re.findall.
  pose proof (findall_go_numerals p output 0) as Hall.
  destruct (Str.index (Re.findall_go 0 p output) (-1)) as [s|e] eqn:Hi.
  - assert (s ∈ Re.findall_go 0 p output) as Hin.
    { unfold Str.index in Hi. destruct (_ || _); [discriminate|].
      destruct (_ !! _) as [s'|] eqn:Hl; [|discriminate].
      injection Hi as <-. eapply list_elem_of_lookup_2. exact Hl. }
    rewrite Forall_forall in Hall. apply Hall in Hin.
    apply numeral_of_str in Hin as [v Hv].
    cbn. unfold py_float. cbn [float_of_str real_float]. rewrite Hv. exact I.
  - cbn. right. unfold Str.index in Hi. destruct (_ || _).
    + injection Hi as <-. reflexivity.
    + destruct (_ !! _); [discriminate|]. injection Hi as <-. reflexivity.
Qed.

(** X21. Every text the patterns of the script capture is a numeral
    [float] reads, so the extraction of the metrics never fails in a
    conversion: it returns the record, or it fails in the assertion of
    [get_only] (a rate matched not exactly once) or in the index [-1] (a
    fraction not matched). *)
Theorem extraction_fails_in_matching_only (output prefix : string)
    (create_db : bool) :
  (∀ p, Forall (fun cap => numeral (Re.minus p) cap
                           ∧ is_Some (float_of_str (F:=R) cap))
               (Re.findall p output))
  ∧ match extract_run_results (F:=R) output prefix create_db with
    | Ok _ => True
    | Raise e => e = AssertionError ∨ e = IndexError
    end.
Proof.
  split.
  { intros p. eapply Forall_impl; [apply (findall_go_numerals p)|].
    intros cap Hcap. split; [exact Hcap|].
    eapply numeral_of_str. exact Hcap. }
  change (result_or_match_error
            (extract_run_results (F:=R) output prefix create_db)).
  unfold extract_run_results. destruct create_db;
    repeat first
      [ apply only_float_no_value_error
      | apply last_float_no_value_error
      | apply result_or_match_error_bind; [|intros ?]
      | exact I ].
Qed.

(** A pattern whose text before the number is nowhere in the output
    matches nowhere. *)
Lemma findall_go_absent (p : Re.pattern) (s : string) (skip : nat) :
  Str.contains (Re.before p) s = false → Re.findall_go skip p s = [].
Proof.
  unfold Str.contains. revert skip.
  induction s as [|c s IH]; intros skip; [reflexivity|].
  cbn [Str.find Re.findall_go].
  destruct (Str.startswith (String c s) (Re.before p)) eqn:Hstart;
    [discriminate|].
  destruct (Str.find (Re.before p) s) as [n|] eqn:Hfind; [discriminate|].
  intros _. destruct skip as [|k]; [|apply IH; reflexivity].
  assert (Re.match_here p (String c s) = None) as ->.
  { unfold Re.match_here. unfold Str.startswith in Hstart.
    destruct (Str.strip_prefix (Re.before p) (String c s));
      [discriminate|reflexivity]. }
  apply IH. reflexivity.
Qed.

Section MissingMetric.
Context {F : Type} `{PyFloat F}.

(** X22. An output without the line of the throughput ends the
    extraction with the failure of the assertion of [get_only]: for the
    creation of the database when the text
    [Overall TPS: create_db: account creation: ] is missing, for a run
    when the prefix followed by [ TPS: ] is missing. *)
Theorem missing_throughput_fails (output prefix : string) :
  (Str.contains "Overall TPS: create_db: account creation: " output = false →
   extract_run_results (F:=F) output prefix true = Raise AssertionError)
  ∧ (Str.contains (prefix +:+ " TPS: ") output = false →
     extract_run_results (F:=F) output prefix false = Raise AssertionError).
Proof.
  split; intros Habsent; unfold extract_run_results, only_float, Re.findall.
  - rewrite (findall_go_absent
               (metric "Overall TPS: create_db: account creation: " ""
                  false " txn/s")) by exact Habsent.
    reflexivity.
  - rewrite (findall_go_absent (metric prefix " TPS: " false " txn/s"))
      by exact Habsent.
    reflexivity.
Qed.

End MissingMetric.

End Captures.

(** ** The loop over the stages, and the keys of their rows *)

Section StageLoopEnds.
Context {F : Type} `{PyFloat F}.

(** X23. The loop over the stages ends on every output: the number of
    stages it finds is at most the length of the output plus one, and
    looking at more stages than [stage_node_results] does gives the same
    result. *)
Theorem stage_loop_ends (output : string) :
  (∀ k, stage_loop (F:=F) (2 + String.length output + k) output 0
        = stage_node_results output)
  ∧ (∀ stages, stage_node_results (F:=F) output = Ok stages →
               (length stages ≤ S (String.length output))%nat).
Proof.
  split; [apply stage_loop_fuel|].
  intros stages Hstages.
  apply stage_node_results_Ok in Hstages as (Hnum & Hall & _).
  apply stages_bounded. intros j Hj.
  destruct (lookup_lt_is_Some_2 stages j Hj) as [[i r] Hjr].
  assert (stages.*1 !! j = Some i) as Hi
    by (rewrite list_lookup_fmap, Hjr; reflexivity).
  rewrite Hnum in Hi. apply lookup_seq in Hi as [-> _].
  rewrite Forall_forall in Hall.
  destruct (Hall (0 + j, r)%nat) as [Hc _];
    [eapply list_elem_of_lookup_2; exact Hjr|]. exact Hc.
Qed.

End StageLoopEnds.

Module KeyFacts.

Lemma str_length_app (a b : string) :
  String.length (a +:+ b) = (String.length a + String.length b)%nat.
Proof.
  induction a as [|c a IH]; [reflexivity|].
  rewrite StrFacts.app_cons. simpl. rewrite IH. reflexivity.
Qed.

Lemma str_app_inv_head (a b c : string) : a +:+ b = a +:+ c → b = c.
Proof.
  induction a as [|x a IH]; [rewrite !StrFacts.app_nil; auto|].
  rewrite !StrFacts.app_cons. intros [= Heq]. apply IH. exact Heq.
Qed.

Lemma str_app_inv_tail (a b c : string) : a +:+ c = b +:+ c → a = b.
Proof.
  revert b. induction a as [|x a IH]; intros [|y b] Heq.
  - reflexivity.
  - apply (f_equal String.length) in Heq.
    rewrite StrFacts.app_nil, StrFacts.app_cons in Heq. simpl in Heq.
    rewrite str_length_app in Heq. lia.
  - apply (f_equal String.length) in Heq.
    rewrite StrFacts.app_nil, StrFacts.app_cons in Heq. simpl in Heq.
    rewrite str_length_app in Heq. lia.
  - rewrite !StrFacts.app_cons in Heq. injection Heq as -> Heq.
    f_equal. apply IH. exact Heq.
Qed.

(** X24. The rows of the stages of a test are told apart by their keys:
    the key of a stage is not the key of the test, and two stages have the
    same key only when they are the same stage. *)
Theorem stage_keys_distinct (key : RunGroupKey.t) (i j : nat) :
  stage_key key i ≠ key
  ∧ (stage_key key i = stage_key key j → i = j).
Proof.
  unfold stage_key. split.
  - intros Heq. apply (f_equal RunGroupKey.transaction_type) in Heq.
    simpl in Heq. apply (f_equal String.length) in Heq.
    rewrite str_length_app in Heq.
    change (" [stage " +:+ Builtins.str_of_nat i +:+ "]")
      with (String " " ("[stage " +:+ Builtins.str_of_nat i +:+ "]")) in Heq.
    simpl in Heq. lia.
  - intros [= Heq]. apply str_app_inv_head in Heq. apply str_app_inv_head in Heq.
    apply str_app_inv_tail in Heq. apply (inj Builtins.str_of_nat). exact Heq.
Qed.

End KeyFacts.

(** ** Membership in a set of flows *)

Section FlagFacts.

(** X25. [other in self] on the flags of the script: a flow is in the
    union of two sets exactly when it is in one of them, no flow is in the
    empty set, a flow is in the set of another flow only when they are the
    same, and a union is in a set exactly when both its parts are. *)
Theorem flow_membership (self a b : Flow) (s t : FlowTag) :
  flow_contains (flow_or a b) (flow_value t)
  = flow_contains a (flow_value t) || flow_contains b (flow_value t)
  ∧ flow_contains 0 (flow_value t) = false
  ∧ (flow_contains (flow_value s) (flow_value t) = true ↔ s = t)
  ∧ flow_contains self (flow_or a b)
    = flow_contains self a && flow_contains self b.
Proof.
  split; [|split; [|split]].
  - apply eq_true_iff_eq.
    rewrite orb_true_iff, !flow_contains_member. apply member_flow_or.
  - destruct t; reflexivity.
  - split; [|intros ->; destruct t; reflexivity].
    destruct s, t; first [reflexivity | discriminate].
  - apply eq_true_iff_eq. unfold flow_contains, flow_or.
    rewrite andb_true_iff, !Z.eqb_eq. split.
    + intros Heq. split; apply Z.bits_inj'; intros n Hn;
        apply (f_equal (fun z => Z.testbit z n)) in Heq;
        rewrite Z.land_spec, Z.lor_spec in Heq; rewrite Z.land_spec;
        destruct (Z.testbit a n), (Z.testbit b n), (Z.testbit self n);
        simpl in *; congruence.
    + intros [Ha Hb]. apply Z.bits_inj'. intros n Hn.
      apply (f_equal (fun z => Z.testbit z n)) in Ha.
      apply (f_equal (fun z => Z.testbit z n)) in Hb.
      rewrite Z.land_spec in Ha, Hb. rewrite Z.land_spec, Z.lor_spec.
      destruct (Z.testbit a n), (Z.testbit b n), (Z.testbit self n);
        simpl in *; congruence.
Qed.

End FlagFacts.

(** ** The executor type of a test *)

Section ExecutorType.
Context (env : Env) (world : World) {F : Type} `{PyFloat F}.

(** X26. A selected test whose executor type is none of VM, native and
    sharded ends the script with an exception: once its criteria and its
    block size are computed the body of the loop raises, with no process
    launched and nothing recorded for the test. *)
Theorem unsupported_executor_type_raises
    (tbl : gmap RunGroupKey.t (CalibrationData.t F))
    (test : RunGroupConfig.t F) (criteria : Criteria.t F) (b : Z)
    (st : State F) :
  RunGroupKey.executor_type (RunGroupConfig.key test)
  ∉ ["VM"; "native"; "sharded"] →
  compute_criteria env tbl test = Ok criteria →
  cur_block_size_of env criteria = Ok b →
  run_test env world tbl test st = (Raise Exception_, st).
Proof.
  intros Hty Hc Hb. unfold run_test. rewrite lift_bind_run, Hc, lift_bind_run, Hb.
  rewrite lift_bind_run. unfold executor_type_str_of.
  repeat case_bool_decide; try reflexivity;
    exfalso; apply Hty; set_solver.
Qed.

End ExecutorType.

(** ** The tables handed to [tabulate] *)

Section PrintTableFacts.
Context {F : Type} `{PyFloat F}.
Context (int_round : F → result Z) (round_ndigits : F → Z → F).

Lemma result_bind_Ok {A B} (r : result A) (k : A → result B) (b : B) :
  r ≫= k = Ok b ↔ ∃ a, r = Ok a ∧ k a = Ok b.
Proof.
  destruct r as [a|e]; simpl.
  - split; [intros Hk; exists a; auto|intros (a' & [= <-] & Hk); exact Hk].
  - split; [intros [=]|intros (a' & [=] & _)].
Qed.

Lemma level_cells_length (field_getter : RunResults.t F → result (Cell F))
    (ntr : gmap Z (RunResults.t F)) (threads : list Z) (cells : list (Cell F)) :
  level_cells field_getter ntr threads = Ok cells →
  length cells = length threads.
Proof.
  revert cells. induction threads as [|t threads IH]; intros cells.
  - intros [= <-]. reflexivity.
  - cbn [level_cells]. intros Hc.
    apply result_bind_Ok in Hc as (cell & _ & Hc).
    apply result_bind_Ok in Hc as (rest & Hrest & [= <-]).
    simpl. rewrite (IH rest Hrest). reflexivity.
Qed.

Lemma all_fields_cells_length (r : RunResults.t F) (cells : list (Cell F)) :
  all_fields_cells int_round round_ndigits r = Ok cells → length cells = 11%nat.
Proof.
  unfold all_fields_cells. intros Hc.
  repeat (apply result_bind_Ok in Hc as (? & _ & Hc)).
  injection Hc as <-. reflexivity.
Qed.

(** The number of columns of a table. *)
Definition table_width (by_levels : bool)
    (single_field : option (string * (RunResults.t F → result (Cell F))))
    (number_of_execution_threads : list Z) : nat :=
  (5 + (if by_levels then length number_of_execution_threads else 0)
   + match single_field with Some _ => 1 | None => 11 end)%nat.

Lemma table_headers_length (by_levels : bool)
    (single_field : option (string * (RunResults.t F → result (Cell F))))
    (threads : list Z) (headers : list string) :
  table_headers by_levels single_field threads = Ok headers →
  length headers = table_width by_levels single_field threads.
Proof.
  unfold table_headers, table_width.
  destruct by_levels, single_field as [[name getter]|]; cbn; intros Hh;
    first [ discriminate Hh
          | injection (Hh : Ok _ = Ok headers) as <-; simpl;
            rewrite ?length_app, ?length_fmap; simpl; lia ].
Qed.

Lemma table_row_length (by_levels : bool)
    (single_field : option (string * (RunResults.t F → result (Cell F))))
    (threads : list Z) (result_ : RunGroupInstance.t F) (row : list (Cell F)) :
  (by_levels = true → is_Some single_field) →
  table_row int_round round_ndigits by_levels single_field threads result_
  = Ok row →
  length row = table_width by_levels single_field threads.
Proof.
  unfold table_row, table_width. intros Hassert.
  destruct by_levels, single_field as [[name getter]|]; cbv zeta;
    intros Hrow.
  - apply result_bind_Ok in Hrow as (row0 & Hrow0 & Hrow).
    apply result_bind_Ok in Hrow0 as (cells & Hcells & [= <-]).
    apply level_cells_length in Hcells.
    apply result_bind_Ok in Hrow as (cell & _ & [= <-]).
    simpl. rewrite ?length_app, ?Hcells. simpl. lia.
  - destruct (Hassert eq_refl) as [x [=]].
  - apply result_bind_Ok in Hrow as (row0 & [= <-] & Hrow).
    apply result_bind_Ok in Hrow as (cell & _ & [= <-]).
    simpl. rewrite ?length_app. simpl. lia.
  - apply result_bind_Ok in Hrow as (row0 & [= <-] & Hrow).
    apply result_bind_Ok in Hrow as (cells & Hcells & [= <-]).
    apply all_fields_cells_length in Hcells.
    simpl. rewrite ?length_app, ?Hcells. simpl. lia.
Qed.

Lemma table_rows_length (by_levels : bool)
    (single_field : option (string * (RunResults.t F → result (Cell F))))
    (threads : list Z) (results : list (RunGroupInstance.t F))
    (rows : list (list (Cell F))) :
  (by_levels = true → is_Some single_field) →
  table_rows int_round round_ndigits by_levels single_field threads results
  = Ok rows →
  length rows = length results
  ∧ Forall (fun row => length row
                       = table_width by_levels single_field threads) rows.
Proof.
  intros Hassert. revert rows.
  induction results as [|r results IH]; intros rows.
  - intros [= <-]. split; [reflexivity|constructor].
  - cbn [table_rows]. intros Hrows.
    apply result_bind_Ok in Hrows as (row & Hrow & Hrows).
    apply result_bind_Ok in Hrows as (rest & Hrest & [= <-]).
    destruct (IH rest Hrest) as [Hlen Hall].
    split; [simpl; rewrite Hlen; reflexivity|].
    constructor; [|exact Hall].
    eapply table_row_length; eassumption.
Qed.

(** X27. A table that [print_table] hands to [tabulate] is rectangular:
    it has one row for each result and every row has as many cells as
    there are headers, five and one for each number of threads in a table
    by levels and one for a single field or eleven for all fields. A table
    by levels without a single field fails the assertion, whatever the
    results. *)
Theorem print_table_rectangular (results : list (RunGroupInstance.t F))
    (by_levels : bool)
    (single_field : option (string * (RunResults.t F → result (Cell F))))
    (number_of_execution_threads : list Z) :
  (by_levels = true → single_field = None →
   print_table int_round round_ndigits results by_levels single_field
     number_of_execution_threads
   = Raise AssertionError)
  ∧ (∀ headers rows,
       print_table int_round round_ndigits results by_levels single_field
         number_of_execution_threads
       = Ok (headers, rows) →
       length rows = length results
       ∧ length headers
         = table_width by_levels single_field number_of_execution_threads
       ∧ Forall (fun row => length row = length headers) rows).
Proof.
  split.
  - intros -> ->. reflexivity.
  - intros headers rows. unfold print_table. intros Hp.
    apply result_bind_Ok in Hp as (headers' & Hh & Hp).
    apply result_bind_Ok in Hp as (rows' & Hr & [= <- <-]).
    assert (by_levels = true → is_Some single_field) as Hassert.
    { intros ->. destruct single_field as [f|]; [eexists; reflexivity|].
      discriminate Hh. }
    apply table_headers_length in Hh.
    apply table_rows_length in Hr as [Hlen Hall]; [|exact Hassert].
    split; [exact Hlen|]. split; [exact Hh|]. rewrite Hh. exact Hall.
Qed.

Lemma Ok_bind {A B} (a : A) (k : A → result B) : Ok a ≫= k = k a.
Proof. reflexivity. Qed.

(** A table is printed when its fields can be computed. *)
Lemma level_cells_Ok (field_getter : RunResults.t F → result (Cell F))
    (ntr : gmap Z (RunResults.t F)) (threads : list Z) :
  (∀ r, ∃ c, field_getter r = Ok c) →
  ∃ cells, level_cells field_getter ntr threads = Ok cells.
Proof.
  intros Hget. induction threads as [|t threads [cells IH]].
  - eexists. reflexivity.
  - cbn [level_cells]. rewrite IH.
    destruct (ntr !! t) as [r|]; [destruct (Hget r) as [c ->]|];
      eexists; reflexivity.
Qed.

Lemma print_table_Ok (results : list (RunGroupInstance.t F))
    (by_levels : bool)
    (single_field : option (string * (RunResults.t F → result (Cell F))))
    (threads : list Z) :
  (by_levels = true → is_Some single_field) →
  (∀ x, ∃ n, int_round x = Ok n) →
  (∀ name getter, single_field = Some (name, getter) →
     ∀ r, ∃ c, getter r = Ok c) →
  ∃ table,
    print_table int_round round_ndigits results by_levels single_field threads
    = Ok table.
Proof.
  intros Hassert Hround Hget. unfold print_table.
  assert (∃ headers, table_headers by_levels single_field threads
                     = Ok headers) as [headers ->].
  { unfold table_headers.
    destruct by_levels, single_field as [[name getter]|];
      try (eexists; reflexivity).
    destruct (Hassert eq_refl) as [x [=]]. }
  assert (∃ rows, table_rows int_round round_ndigits by_levels single_field
                    threads results = Ok rows) as [rows ->];
    [|eexists; reflexivity].
  induction results as [|r results [rows IH]]; [eexists; reflexivity|].
  cbn [table_rows]. rewrite IH.
  assert (∃ row, table_row int_round round_ndigits by_levels single_field
                   threads r = Ok row) as [row ->];
    [|eexists; reflexivity].
  unfold table_row.
  destruct single_field as [[name getter]|].
  - specialize (Hget name getter eq_refl).
    destruct (Hget (RunGroupInstance.single_node_result r)) as [c Hc].
    destruct by_levels.
    + destruct (level_cells_Ok getter
                  (RunGroupInstance.number_of_threads_results r) threads Hget)
        as [cells Hcells].
      cbv zeta. rewrite Hcells. cbn. rewrite Hc. eexists. reflexivity.
    + cbn. rewrite Hc. eexists. reflexivity.
  - destruct by_levels; [destruct (Hassert eq_refl) as [x [=]]|].
    cbn. unfold all_fields_cells.
    repeat match goal with
           | |- context [int_round ?x] =>
               let n := fresh "n" in
               destruct (Hround x) as [n ->]; cbn
           end.
    eexists. reflexivity.
Qed.

(** X28. The tables the script prints after a test never fail the
    assertion of [print_table]: when every value rounds to an [int], the
    seven tables are built, each of them rectangular. *)
Theorem test_tables_are_printed (env : Env)
    (results : list (RunGroupInstance.t F)) :
  (∀ x, ∃ n, int_round x = Ok n) →
  ∃ tables,
    test_tables int_round round_ndigits env results = Ok tables
    ∧ length tables = 7%nat
    ∧ Forall (fun table =>
                length table.2 = length results
                ∧ Forall (fun row => length row = length table.1) table.2)
             tables.
Proof.
  intros Hround. unfold test_tables. cbv zeta.
  assert (∀ (name : string) (get : RunResults.t F → F) r,
            ∃ c : Cell F,
              (n ← int_round (get r); mret (CellInt n)) = Ok c) as Hint.
  { intros name get r. destruct (Hround (get r)) as [n ->].
    eexists. reflexivity. }
  pose (threads := EXECUTION_ONLY_NUMBER_OF_THREADS env).
  assert (∀ by_levels single_field,
            (by_levels = true → is_Some single_field) →
            (∀ name getter, single_field = Some (name, getter) →
               ∀ r, ∃ c, getter r = Ok c) →
            ∃ table,
              print_table int_round round_ndigits results by_levels
                single_field threads = Ok table
              ∧ length table.2 = length results
              ∧ Forall (fun row => length row = length table.1) table.2)
    as Htable.
  { intros by_levels single_field Hassert Hget.
    destruct (print_table_Ok results by_levels single_field threads
                Hassert Hround Hget) as [[headers rows] Hp].
    exists (headers, rows). split; [exact Hp|].
    unfold print_table in Hp.
    apply result_bind_Ok in Hp as (headers' & Hh & Hp).
    apply result_bind_Ok in Hp as (rows' & Hr & [= <- <-]).
    apply table_headers_length in Hh.
    apply table_rows_length in Hr as [Hlen Hall]; [|exact Hassert].
    simpl. split; [exact Hlen|]. rewrite Hh. exact Hall. }
  assert (∀ name get, ∃ table,
            print_table int_round round_ndigits results true
              (int_field int_round name get) threads = Ok table
            ∧ length table.2 = length results
            ∧ Forall (fun row => length row = length table.1) table.2)
    as Hint_levels.
  { intros name get. apply Htable; [intros _; eexists; reflexivity|].
    intros name' getter [= <- <-]. apply (Hint name get). }
  assert (∀ name get, ∃ table,
            print_table int_round round_ndigits results false
              (int_field int_round name get) threads = Ok table
            ∧ length table.2 = length results
            ∧ Forall (fun row => length row = length table.1) table.2)
    as Hint_flat.
  { intros name get. apply Htable; [intros [=]|].
    intros name' getter [= <- <-]. apply (Hint name get). }
  assert (∀ name get, ∃ table,
            print_table int_round round_ndigits results true
              (rounded_field round_ndigits name get) threads = Ok table
            ∧ length table.2 = length results
            ∧ Forall (fun row => length row = length table.1) table.2)
    as Hrounded.
  { intros name get. apply Htable; [intros _; eexists; reflexivity|].
    intros name' getter [= <- <-] r. eexists. reflexivity. }
  assert (∃ table,
            print_table int_round round_ndigits results false None threads
            = Ok table
            ∧ length table.2 = length results
            ∧ Forall (fun row => length row = length table.1) table.2)
    as Hall_fields.
  { apply Htable; [intros [=]|]. intros name getter [=]. }
  destruct (Hint_levels "t/s" RunResults.tps) as (t1 & H1 & R1).
  destruct (Hint_levels "g/s" RunResults.gps) as (t2 & H2 & R2).
  destruct (Hint_flat "gas/txn" RunResults.gpt) as (t3 & H3 & R3).
  destruct (Hint_flat "storage fee/txn" RunResults.storage_fee_pt)
    as (t4 & H4 & R4).
  destruct (Hrounded "exe/total" RunResults.fraction_in_execution)
    as (t5 & H5 & R5).
  destruct (Hrounded "vm/exe" RunResults.fraction_of_execution_in_vm)
    as (t6 & H6 & R6).
  destruct Hall_fields as (t7 & H7 & R7).
  fold threads.
  rewrite H1, Ok_bind, H2, Ok_bind, H3, Ok_bind, H4, Ok_bind, H5, Ok_bind,
    H6, Ok_bind, H7, Ok_bind.
  eexists. split; [reflexivity|]. split; [reflexivity|].
  repeat (constructor; [assumption|]). constructor.
Qed.

End PrintTableFacts.

(** ** The catalog and the calibration table of the script *)

Module Catalog.
Import RealFloat Order Examples.
Local Open Scope R_scope.

Definition all_flows : list FlowTag :=
  [LAND_BLOCKING; CONTINUOUS; REPRESENTATIVE; MAINNET; MAINNET_LARGE_DB;
   AGG_V2; RESOURCE_GROUPS].

(** The test has an override, or an entry of the table with a count that
    is not zero. *)
Definition configured (tbl : gmap RunGroupKey.t (CalibrationData.t R))
    (test : RunGroupConfig.t R) : bool :=
  match RunGroupConfig.expected_tps test with
  | Some _ => true
  | None =>
      match tbl !! RunGroupConfig.key test with
      | Some entry => negb (CalibrationData.count entry =? 0)%Z
      | None => false
      end
  end.

Lemma configured_criteria (env : Env)
    (tbl : gmap RunGroupKey.t (CalibrationData.t R))
    (test : RunGroupConfig.t R) :
  configured tbl test = true →
  ∃ criteria, compute_criteria env tbl test = Ok criteria.
Proof.
  unfold configured. intros Hc.
  destruct (RunGroupConfig.expected_tps test) as [e|] eqn:He.
  - eexists. apply compute_criteria_override. exact He.
  - destruct (tbl !! RunGroupConfig.key test) as [entry|] eqn:Hl;
      [|discriminate].
    eexists. apply (compute_criteria_calibrated env tbl test entry He Hl).
    apply negb_true_iff, Z.eqb_neq in Hc. exact Hc.
Qed.

(** The selection looks at the flow and at DISABLE_FA_APT only. *)
Lemma selected_flow_only (env : Env) (test : RunGroupConfig.t R) :
  DISABLE_FA_APT env = false →
  selected env test = selected (with_flow default_env (FLOW env)) test.
Proof.
  intros Hd. unfold selected, SKIP_NATIVE, SELECTED_FLOW. rewrite Hd.
  reflexivity.
Qed.

Lemma catalog_configured_in_every_flow :
  forallb (fun flow =>
             forallb (fun test =>
                        negb (selected (with_flow default_env flow) test)
                        || configured calibrated_table test) TESTS)
          all_flows = true.
Proof. vm_compute. reflexivity. Qed.

Lemma catalog_overrides_not_negative :
  Forall (fun test : RunGroupConfig.t R =>
            ∀ e, RunGroupConfig.expected_tps test = Some e → 0 <= e) TESTS.
Proof.
  unfold TESTS.
  repeat (constructor;
          [intros e He; simpl in He;
           first [discriminate He | injection He as <-; simpl; lra]|]).
  constructor.
Qed.

(** X29. With the catalog and the calibration table of the script, and
    DISABLE_FA_APT unset, every test selected in any flow has criteria:
    the table parses, each selected test has an override or an entry with
    a count that is not zero, and its expected throughput lies between its
    lower and its upper bounds. The assertion on a missing calibration
    cannot fail. *)
Theorem shipped_catalog_is_configured (env : Env) :
  DISABLE_FA_APT env = false →
  ∃ tbl,
    parse_calibration CALIBRATION = Ok tbl
    ∧ ∀ test : RunGroupConfig.t R,
        test ∈ TESTS → selected env test = true →
        ∃ criteria,
          compute_criteria env tbl test = Ok criteria
          ∧ Criteria.min_tps criteria <= Criteria.expected_tps criteria
          ∧ Criteria.min_warn_tps criteria <= Criteria.expected_tps criteria
          ∧ Criteria.expected_tps criteria <= Criteria.max_warn_tps criteria
          ∧ Criteria.expected_tps criteria <= Criteria.max_tps criteria.
Proof.
  intros Hd. exists calibrated_table. split; [exact calibration_parses|].
  intros test Hin Hsel.
  assert (configured calibrated_table test = true) as Hconf.
  { pose proof catalog_configured_in_every_flow as Hall.
    rewrite forallb_forall in Hall.
    assert (In (FLOW env) all_flows) as Hflow
      by (destruct (FLOW env); simpl; tauto).
    specialize (Hall _ Hflow). rewrite forallb_forall in Hall.
    apply list_elem_of_In in Hin. specialize (Hall _ Hin).
    rewrite <- selected_flow_only, Hsel in Hall by exact Hd.
    exact Hall. }
  destruct (configured_criteria env calibrated_table test Hconf)
    as [criteria Hc].
  exists criteria. split; [exact Hc|].
  apply (Bands.criteria_bracket env calibrated_table test criteria Hc).
  - pose proof catalog_overrides_not_negative as Hover.
    rewrite Forall_forall in Hover. apply Hover. exact Hin.
  - intros entry _ Hl. apply (calibrated_table_well_formed _ _ Hl).
Qed.

End Catalog.

(** ** Concrete runs for the further properties *)

Module MoreExamples.
Import RealFloat Order Examples.

(** *** A run of the large-database flow that passes *)

(** A catalog of two tests; the first is not in the flow. *)
Definition large_db_catalog : list (RunGroupConfig.t R) :=
  [no_op; apt_fa_transfer_large_db].

Lemma large_db_run_status :
  exit_status (script large_db_env staged_world CALIBRATION large_db_catalog)
  = 0.
Proof. vm_compute. decide_comparisons. reflexivity. Qed.

Lemma large_db_run_completed :
  aborted (script large_db_env staged_world CALIBRATION large_db_catalog)
  = None.
Proof. vm_compute. decide_comparisons. reflexivity. Qed.

Lemma status_0_every_selected_test_within_bounds_witness :
  ∃ tbl,
    parse_calibration CALIBRATION = Ok tbl
    ∧ ∀ t, t ∈ large_db_catalog → selected large_db_env t = true →
        ∃ criteria row,
          compute_criteria large_db_env tbl t = Ok criteria
          ∧ row ∈ results (final (script large_db_env staged_world CALIBRATION
                                    large_db_catalog))
          ∧ RunGroupInstance.key row = RunGroupConfig.key t
          ∧ RunGroupInstance.expected_tps row = Criteria.expected_tps criteria
          ∧ (RunGroupConfig.waived t = false →
             within_hard_bounds large_db_env criteria
               (RunResults.tps (RunGroupInstance.single_node_result row))).
Proof.
  apply (status_0_every_selected_test_within_bounds large_db_env staged_world
           CALIBRATION large_db_catalog).
  exact large_db_run_status.
Defined.

Lemma completed_run_processes_succeeded_witness :
  (∀ i c,
     launched (final (script large_db_env staged_world CALIBRATION
                        large_db_catalog)) !! i = Some c →
     process_succeeded staged_world i c
     ∨ (move_e2e_benchmark_failed
          (script large_db_env staged_world CALIBRATION large_db_catalog)
        = true ∧ c = MoveE2EBenchmark))
  ∧ length (launched (final (script large_db_env staged_world CALIBRATION
                               large_db_catalog)))
    = (length (setup_commands large_db_env)
       + S (length (EXECUTION_ONLY_NUMBER_OF_THREADS large_db_env))
         * length (filter (fun t => selected large_db_env t = true)
                     large_db_catalog))%nat.
Proof.
  apply (completed_run_processes_succeeded large_db_env staged_world
           CALIBRATION large_db_catalog).
  exact large_db_run_completed.
Defined.

(** In this flow nothing is reported as an improvement. *)
Lemma no_improvement_notice_in_mainnet_flows_witness :
  Forall (fun n : Notice R =>
            kind n = Regression ∨ kind n = PotentialRegression)
         (warnings (final (script large_db_env staged_world CALIBRATION
                             large_db_catalog))
          ++ errors (final (script large_db_env staged_world CALIBRATION
                              large_db_catalog))).
Proof.
  apply (no_improvement_notice_in_mainnet_flows large_db_env staged_world
           CALIBRATION large_db_catalog).
  reflexivity.
Defined.

(** *** A waived test *)

(** The first test of the catalog, waived; the run measures less than half
    of its expected throughput. *)
Definition waived_no_op : RunGroupConfig.t R :=
  RunGroupConfig.mk (RunGroupKey.of_type "no-op") LAND_BLOCKING_AND_C None
    RunGroupKeyExtra.default true.

Lemma waived_tests_never_fail_witness :
  errors (final (script default_env staged_world CALIBRATION [waived_no_op]))
  = [].
Proof.
  apply (waived_tests_never_fail default_env staged_world CALIBRATION
           [waived_no_op]).
  intros t Hin _. apply list_elem_of_singleton in Hin as ->. reflexivity.
Defined.

(** *** Thresholds *)

(** A run of the first test of the catalog at its expected throughput. *)
Lemma expected_throughput_never_flagged_witness :
  classify default_env no_op (Spec.calibrated_criteria no_op_entry)
    (metrics (lit 427377 1)) initial_state
  = (Ok tt, initial_state).
Proof.
  apply (Bands.expected_throughput_never_flagged default_env staged_world
           calibrated_table no_op).
  - apply compute_criteria_calibrated.
    + reflexivity.
    + exact no_op_calibrated.
    + simpl. lia.
  - intros e [=].
  - intros entry _ Hentry. rewrite no_op_calibrated in Hentry.
    injection Hentry as <-. exact no_op_entry_well_formed.
  - reflexivity.
Defined.

(** A run four per cent below the expected throughput, within the range of
    the calibration runs. *)
Lemma calibrated_range_is_no_error_witness :
  ∃ criteria,
    compute_criteria default_env calibrated_table no_op = Ok criteria
    ∧ errors (classify default_env no_op criteria (metrics (lit 410000 1))
                initial_state).2
      = errors (initial_state (F:=R)).
Proof.
  apply (Bands.calibrated_range_is_no_error default_env calibrated_table
           no_op no_op_entry).
  - reflexivity.
  - exact no_op_calibrated.
  - exact no_op_entry_well_formed.
  - simpl. lit_norm. lra.
Defined.

Lemma larger_count_narrows_hard_band_witness :
  ∃ c1 c2,
    compute_criteria default_env
      (<[RunGroupConfig.key no_op
         := CalibrationData.mk (IZR 1000) 5 (lit 9 1) (lit 11 1)]> ∅) no_op
    = Ok c1
    ∧ compute_criteria default_env
        (<[RunGroupConfig.key no_op
           := CalibrationData.mk (IZR 1000) 15 (lit 9 1) (lit 11 1)]> ∅)
        no_op
      = Ok c2
    ∧ (Criteria.min_tps c1 <= Criteria.min_tps c2)%R
    ∧ (Criteria.max_tps c2 <= Criteria.max_tps c1)%R
    ∧ Criteria.min_warn_tps c1 = Criteria.min_warn_tps c2
    ∧ Criteria.max_warn_tps c1 = Criteria.max_warn_tps c2.
Proof.
  apply (Bands.larger_count_narrows_hard_band default_env ∅ no_op).
  - reflexivity.
  - lra.
  - lit_norm. lra.
  - lit_norm. lra.
  - lia.
Defined.

(** *** The calibration table *)

Definition two_rows_table : gmap RunGroupKey.t (CalibrationData.t R) :=
  match parse_calibration two_rows with
  | Ok tbl => tbl
  | Raise _ => ∅
  end.

Lemma two_rows_parse : parse_calibration two_rows = Ok two_rows_table.
Proof.
  assert (is_Ok (parse_calibration (F:=R) two_rows) = true) as Hok
    by (vm_compute; reflexivity).
  unfold two_rows_table.
  destruct (parse_calibration two_rows); [reflexivity|discriminate].
Qed.

Lemma calibration_table_is_the_rows_witness :
  (∀ k v, two_rows_table !! k = Some v →
     ∃ line, line ∈ Str.split "010" two_rows
             ∧ row_parts line ≠ []
             ∧ parse_row (row_parts line) = Ok (k, v))
  ∧ (∀ line, line ∈ Str.split "010" two_rows →
       row_parts line = []
       ∨ ∃ k (v : CalibrationData.t R),
           parse_row (row_parts line) = Ok (k, v)
           ∧ is_Some (two_rows_table !! k)).
Proof.
  apply (calibration_table_is_the_rows two_rows two_rows_table).
  exact two_rows_parse.
Defined.

(** A table whose second line has lost its statistics. *)
Definition short_rows : string :=
  Str.join newline [
    Str.join tab ["no-op"; "1"; "VM"; "15"; "0.922"; "1.06"; "42737.7"];
    Str.join tab ["no-op"; "1000"; "VM"]
  ].

Lemma short_row_fails_witness :
  ∃ e, parse_calibration (F:=R) short_rows = Raise e.
Proof.
  apply (short_row_fails short_rows
           (Str.join tab ["no-op"; "1000"; "VM"])).
  - vm_compute. apply elem_of_cons. right. apply elem_of_cons. left.
    reflexivity.
  - vm_compute. lia.
Defined.

Lemma unparsable_table_stops_before_build_witness :
  exit_status (script (F:=R) default_env staged_world short_rows TESTS) = 1
  ∧ aborted (script (F:=R) default_env staged_world short_rows TESTS) ≠ None
  ∧ launched (final (script (F:=R) default_env staged_world short_rows TESTS))
    `prefix_of` prerequisite_commands default_env
  ∧ results (final (script (F:=R) default_env staged_world short_rows TESTS))
    = [].
Proof.
  apply (unparsable_table_stops_before_build default_env staged_world
           short_rows TESTS ValueError).
  vm_compute. reflexivity.
Defined.

(** *** An executor type the script does not know *)

Definition parallel_test : RunGroupConfig.t R :=
  RunGroupConfig.mk (RunGroupKey.mk "no-op" 1 "parallel")
    (flow_value MAINNET_LARGE_DB) (Some (IZR 20000))
    RunGroupKeyExtra.default false.

Lemma unsupported_executor_type_raises_witness :
  run_test large_db_env staged_world calibrated_table parallel_test
    initial_state
  = (Raise Exception_, initial_state).
Proof.
  apply (unsupported_executor_type_raises large_db_env staged_world
           calibrated_table parallel_test
           (Spec.static_criteria large_db_env (IZR 20000)) 10000).
  - simpl. intros Hin.
    repeat (apply elem_of_cons in Hin as [Hin|Hin]; [discriminate Hin|]).
    inversion Hin.
  - reflexivity.
  - exact large_db_block_size.
Defined.

(** *** The tables of the warm-up row *)

(** A rounding that never fails. *)
Definition always_rounds (x : R) : result Z := Ok (trunc x).

Lemma test_tables_are_printed_witness :
  ∃ tables,
    test_tables always_rounds (fun x _ => x) default_env
      (results state_before_tests)
    = Ok tables
    ∧ length tables = 7%nat
    ∧ Forall (fun table =>
                length table.2 = length (results state_before_tests)
                ∧ Forall (fun row => length row = length table.1) table.2)
             tables.
Proof.
  apply (test_tables_are_printed always_rounds (fun x _ => x) default_env
           (results state_before_tests)).
  intros x. exists (trunc x). reflexivity.
Defined.

(** *** The catalog in the default environment *)

Lemma shipped_catalog_is_configured_witness :
  ∃ tbl,
    parse_calibration CALIBRATION = Ok tbl
    ∧ ∀ test : RunGroupConfig.t R,
        test ∈ TESTS → selected default_env test = true →
        ∃ criteria,
          compute_criteria default_env tbl test = Ok criteria
          ∧ (Criteria.min_tps criteria <= Criteria.expected_tps criteria)%R
          ∧ (Criteria.min_warn_tps criteria
             <= Criteria.expected_tps criteria)%R
          ∧ (Criteria.expected_tps criteria
             <= Criteria.max_warn_tps criteria)%R
          ∧ (Criteria.expected_tps criteria <= Criteria.max_tps criteria)%R.
Proof.
  apply (Catalog.shipped_catalog_is_configured default_env). reflexivity.
Defined.

End MoreExamples.
